(** * ecommerce-Price-Tracker: the product monitoring pipeline

    A shallow embedding of the decision logic of the [price_tracker]
    package (scraper.py, price_analyzer.py, storage.py, notifier.py,
    scheduler_module.py) together with the properties its specification
    states about it.

    Modelling conventions.
    - A Python [str] is a [string]: one [ascii] per character, the code
      points U+0000 to U+00FF.  On such text the regular-expression
      classes [\d] and [[0-9]] coincide.
    - A Python [float] that the code carries, stores or compares is the
      rational it denotes, a [Qc]; [==] on such floats is Leibniz
      equality on [Qc].  Where the code computes with floats and the
      rounding bears on what it answers, the band of the price trend,
      the computation is done in binary64 ([Binary64], on the
      [spec_float] of the Standard Library): the operands are the
      binary64 numbers nearest to the rationals, and every operation
      rounds to nearest, ties to even, with infinities and NaN.
    - A raised exception is the [Err] branch of a [result].
    - [datetime] values are instants counted in microseconds, a [Z].
    - The outside world (network, SMTP server, clock, environment, and
      whether the SQLite file can be used) is a family of oracles
      indexed by the number of earlier interactions. *)

From Stdlib Require Import QArith Qcanon ZArith Ascii String List Lia.
From Stdlib Require Import DecimalString DecimalNat SpecFloat.
From stdpp Require Import gmap strings list sorting.

Open Scope string_scope.

(** ** Results of fallible code *)

Inductive result (E A : Type) : Type :=
| Ok (a : A)
| Err (e : E).
Arguments Ok {E A} a.
Arguments Err {E A} e.

Definition is_ok {E A} (r : result E A) : bool :=
  match r with Ok _ => true | Err _ => false end.

(** ** Python string primitives used by the package *)

Module PyStr.

Definition comma : ascii := ","%char.
Definition period : ascii := "."%char.

(** [\d] and [[0-9]] on one character. *)
Definition is_digit (c : ascii) : bool :=
  let n := nat_of_ascii c in (48 <=? n)%nat && (n <=? 57)%nat.

(** The class [[\d,.]]. *)
Definition is_token_char (c : ascii) : bool :=
  is_digit c || Ascii.eqb c comma || Ascii.eqb c period.

(** [str.isspace] on one character, the blanks [str.strip()] removes:
    TAB, LF, VT, FF, CR (U+0009 to U+000D), the separators FS, GS, RS,
    US (U+001C to U+001F), the space, NEL (U+0085) and the no-break
    space (U+00A0). *)
Definition is_space (c : ascii) : bool :=
  let n := nat_of_ascii c in
  ((9 <=? n)%nat && (n <=? 13)%nat) || ((28 <=? n)%nat && (n <=? 32)%nat)
  || (n =? 133)%nat || (n =? 160)%nat.

(** [s.replace(c, e)] for a one-character [c] and the empty string [e]. *)
Fixpoint remove_char (c : ascii) (s : string) : string :=
  match s with
  | EmptyString => EmptyString
  | String d s' =>
      if Ascii.eqb d c then remove_char c s' else String d (remove_char c s')
  end.

(** [s.count(c)] for a one-character [c]. *)
Fixpoint count_char (c : ascii) (s : string) : nat :=
  match s with
  | EmptyString => 0
  | String d s' => (if Ascii.eqb d c then 1 else 0) + count_char c s'
  end.

(** [s.split(c, 1)] when [c] occurs in [s]: the text before the first
    [c] and the text after it.  ([None] when [c] does not occur, where
    Python returns a one-element list.) *)
Fixpoint split_once (c : ascii) (s : string) : option (string * string) :=
  match s with
  | EmptyString => None
  | String d s' =>
      if Ascii.eqb d c then Some (EmptyString, s')
      else match split_once c s' with
           | Some (h, t) => Some (String d h, t)
           | None => None
           end
  end.

Fixpoint lstrip (s : string) : string :=
  match s with
  | EmptyString => EmptyString
  | String c s' => if is_space c then lstrip s' else s
  end.

Fixpoint rstrip (s : string) : string :=
  match s with
  | EmptyString => EmptyString
  | String c s' =>
      match rstrip s' with
      | EmptyString => if is_space c then EmptyString else String c EmptyString
      | r => String c r
      end
  end.

(** [s.strip()] *)
Definition strip (s : string) : string := rstrip (lstrip s).

Fixpoint all_chars (p : ascii -> bool) (s : string) : bool :=
  match s with
  | EmptyString => true
  | String c s' => p c && all_chars p s'
  end.

Fixpoint any_char (p : ascii -> bool) (s : string) : bool :=
  match s with
  | EmptyString => false
  | String c s' => p c || any_char p s'
  end.

(** The longest prefix of [s] made of characters in [p], and what
    follows it: a greedy match of [[p]*] at the head of [s]. *)
Fixpoint span (p : ascii -> bool) (s : string) : string * string :=
  match s with
  | EmptyString => (EmptyString, EmptyString)
  | String c s' =>
      if p c then let (m, r) := span p s' in (String c m, r)
      else (EmptyString, s)
  end.

(** [max(l, key=len)] on a non-empty list [best :: l]: the running
    maximum is replaced only by a strictly longer element, so the first
    of the longest elements is returned. *)
Fixpoint max_by_len (best : string) (l : list string) : string :=
  match l with
  | [] => best
  | x :: l' =>
      if (String.length best <? String.length x)%nat
      then max_by_len x l' else max_by_len best l'
  end.

(** ** [float(s)] on decimal numerals

    The value of a string of decimal digits, most significant first. *)
Definition digit_value (c : ascii) : Z := Z.of_nat (nat_of_ascii c) - 48.

Fixpoint digits_value (acc : Z) (s : string) : Z :=
  match s with
  | EmptyString => acc
  | String c s' => digits_value (10 * acc + digit_value c) s'
  end.

(** The number written [int_part.frac_part]. *)
Definition decimal (int_part frac_part : string) : Qc :=
  Q2Qc (digits_value 0 (int_part ++ frac_part)
        # Z.to_pos (10 ^ Z.of_nat (String.length frac_part))).

Definition nonempty (s : string) : bool :=
  match s with EmptyString => false | String _ _ => true end.

(** [float(s)] for [s] a plain decimal numeral: digits, with at most one
    period, and at least one digit ([float] accepts "12", "12.", ".5"
    and "12.5" and raises [ValueError] on "." and "1.2.3" and on the
    empty string).  [None]
    is the [ValueError].  Signs, exponents, surrounding blanks,
    underscores and the words inf and nan, which [float] also reads, all
    need a character outside [[0-9.]] and are left out: on text over
    [[0-9.]] the model accepts exactly what [float] accepts.  The
    number returned is the one the numeral writes; the float of Python
    is the binary64 number nearest to it, [Binary64.of_Qc] of the
    number of the model. *)
Definition float (s : string) : option Qc :=
  match split_once period s with
  | None =>
      if nonempty s && all_chars is_digit s
      then Some (decimal s EmptyString) else None
  | Some (i, f) =>
      if all_chars is_digit i && all_chars is_digit f
         && (nonempty i || nonempty f)
      then Some (decimal i f) else None
  end.

End PyStr.

(** ** scraper.py *)

Module Scraper.
Import PyStr.

(** [ScraperError], by the message it is raised with. *)
Inductive ScraperError : Type :=
| NetworkError (url : string)
    (* f"Network error while fetching {url}: {exc}" *)
| CouldNotParsePrice (price_text : string)
    (* f"Could not parse price from text: {price_text!r}" *)
| CouldNotLocateAmazon
    (* "Could not locate product name or price on Amazon page." *)
| CouldNotLocateFlipkart
    (* "Could not locate product name or price on Flipkart page." *)
| CouldNotFindPrice.
    (* "Could not find a price on the page." *)

(** [re.findall(r"\d[\d,.]*", s)]: a left-to-right scan.  Outside a
    match ([tok = None]) a digit opens one; inside a match
    ([tok = Some t]) every character of [[\d,.]] extends it and any
    other character closes it.  The closing character is not a digit,
    so the scan resumes after it. *)
Fixpoint findall_scan (tok : option string) (s : string) : list string :=
  match s, tok with
  | EmptyString, None => []
  | EmptyString, Some t => [t]
  | String c s', None =>
      if is_digit c then findall_scan (Some (String c EmptyString)) s'
      else findall_scan None s'
  | String c s', Some t =>
      if is_token_char c then findall_scan (Some (t ++ String c EmptyString)) s'
      else t :: findall_scan None s'
  end.

Definition findall_price (s : string) : list string := findall_scan None s.

(** Lines 88-91: when the token has more than one period, everything
    after the first period loses its periods. *)
Definition normalize_periods (token : string) : string :=
  if (1 <? count_char period token)%nat then
    match split_once period token with
    | Some (head, tail) =>
        head ++ String period (remove_char period tail)
    | None => token
    end
  else token.

Definition _parse_price_text (price_text : string) : result ScraperError Qc :=
  match findall_price price_text with
  | [] => Err (CouldNotParsePrice price_text)
  | c :: candidates =>
      let token := max_by_len c candidates in
      let token := remove_char comma token in
      let token := normalize_periods token in
      match float token with
      | Some price => Ok price
      | None => Err (CouldNotParsePrice price_text)
      end
  end.

(** *** The parsed document

    What [BeautifulSoup(html, "html.parser")] hands to the extractors: a
    tree of tags and strings.  A tag carries its name, its [id]
    attribute and the classes of its [class] attribute.  A string is a
    [NavigableString] or an object of one of its subclasses: the parser
    makes a [Doctype], a [Comment], a [CData] section, a [Declaration]
    or a [ProcessingInstruction] of the markup of that kind, and gives
    the text inside [script], [style], [template], [rt] and [rp] tags
    the class of its container. *)
Inductive StringClass : Type :=
| CData
| Comment
| Declaration
| Doctype
| ProcessingInstruction
| Script
| Stylesheet
| TemplateString
| RubyTextString
| RubyParenthesisString.

#[warnings="-register-all"] Inductive PageElement : Type :=
| NavigableString (text : string)
| SpecialString (cls : StringClass) (text : string)
| Tag (name : string) (id : option string) (classes : list string)
      (contents : list PageElement).

(** [e.descendants]: everything below [e], in document order. *)
Fixpoint descendants (e : PageElement) : list PageElement :=
  match e with
  | NavigableString _ => []
  | SpecialString _ _ => []
  | Tag _ _ _ contents =>
      (fix below (l : list PageElement) : list PageElement :=
         match l with
         | [] => []
         | c :: l' => c :: descendants c ++ below l'
         end) contents
  end.

(** [builder.string_containers] of the HTML tree builders: the class
    of the strings inside a tag of the given name, when it is not
    [NavigableString]. *)
Definition string_containers (name : string) : option StringClass :=
  if String.eqb name "rt" then Some RubyTextString
  else if String.eqb name "rp" then Some RubyParenthesisString
  else if String.eqb name "style" then Some Stylesheet
  else if String.eqb name "script" then Some Script
  else if String.eqb name "template" then Some TemplateString
  else None.

Definition same_class (a b : StringClass) : bool :=
  match a, b with
  | CData, CData | Comment, Comment | Declaration, Declaration
  | Doctype, Doctype | ProcessingInstruction, ProcessingInstruction
  | Script, Script | Stylesheet, Stylesheet
  | TemplateString, TemplateString | RubyTextString, RubyTextString
  | RubyParenthesisString, RubyParenthesisString => true
  | _, _ => false
  end.

(** Whether [e.get_text()] takes the string [d]: its class must be one
    of [e.interesting_string_types], which is the class of the
    container for [script], [style], [template], [rt] and [rp] tags
    and [(NavigableString, CData)] for every other tag. *)
Definition interesting (e d : PageElement) : option string :=
  match e, d with
  | Tag name _ _ _, NavigableString t =>
      match string_containers name with
      | None => Some t
      | Some _ => None
      end
  | Tag name _ _ _, SpecialString cls t =>
      match string_containers name with
      | None => if same_class cls CData then Some t else None
      | Some container => if same_class cls container then Some t else None
      end
  | _, _ => None
  end.

(** The strings below [e] that [e.get_text()] joins, in document
    order. *)
Definition strings_of (e : PageElement) : list string :=
  omap (interesting e) (descendants e).

(** Every string below [e], of whatever class, in document order. *)
Definition all_strings (e : PageElement) : list string :=
  omap (fun d => match d with
                 | NavigableString t => Some t
                 | SpecialString _ t => Some t
                 | Tag _ _ _ _ => None
                 end) (descendants e).

Definition concat_strings (l : list string) : string :=
  fold_right String.append EmptyString l.

(** [e.get_text()] *)
Definition get_text (e : PageElement) : string :=
  concat_strings (strings_of e).

(** [e.get_text(strip=True)]: every text node is stripped, and dropped
    when nothing is left of it. *)
Definition get_text_strip (e : PageElement) : string :=
  concat_strings (filter (fun t => nonempty t = true) (strip <$> strings_of e)).

Definition tag_named (n : string) (e : PageElement) : bool :=
  match e with
  | Tag n' _ _ _ => String.eqb n' n
  | _ => false
  end.

Definition tag_with_id (i : string) (e : PageElement) : bool :=
  match e with
  | Tag _ (Some i') _ _ => String.eqb i' i
  | _ => false
  end.

(** A [class] filter matches one of the classes of the tag, or all of
    them joined by single spaces. *)
Fixpoint join_classes (l : list string) : string :=
  match l with
  | [] => EmptyString
  | [c] => c
  | c :: l' => c ++ String " "%char (join_classes l')
  end.

Definition tag_with_class (n cls : string) (e : PageElement) : bool :=
  match e with
  | Tag n' _ classes _ =>
      String.eqb n' n
      && (existsb (String.eqb cls) classes
          || String.eqb (join_classes classes) cls)
  | _ => false
  end.

(** [soup.find(...)]: the first descendant that passes the filter. *)
Definition find (p : PageElement -> bool) (soup : PageElement) : option PageElement :=
  List.find p (descendants soup).

(** [soup.find_all(string=re.compile(r"[0-9]"))]: the strings in which
    the pattern is found, in document order.  The filter is tried on
    every string of the document: the doctype, comments and the text of
    scripts and style sheets are strings as well. *)
Definition find_all_digit_strings (soup : PageElement) : list string :=
  filter (fun t => any_char is_digit t = true) (all_strings soup).

Definition _parse_amazon_product (soup : PageElement)
  : result ScraperError (string * Qc) :=
  let name_el := find (tag_with_id "productTitle") soup in
  let price_el :=
    match find (tag_with_id "priceblock_ourprice") soup with
    | Some e => Some e
    | None => find (tag_with_id "priceblock_dealprice") soup
    end in
  match name_el, price_el with
  | Some name_el, Some price_el =>
      let name := get_text_strip name_el in
      match _parse_price_text (get_text price_el) with
      | Ok price => Ok (name, price)
      | Err e => Err e
      end
  | _, _ => Err CouldNotLocateAmazon
  end.

Definition _parse_flipkart_product (soup : PageElement)
  : result ScraperError (string * Qc) :=
  let name_el := find (tag_with_class "span" "B_NuCI") soup in
  let price_el := find (tag_with_class "div" "_30jeq3 _16Jk6d") soup in
  match name_el, price_el with
  | Some name_el, Some price_el =>
      let name := get_text_strip name_el in
      match _parse_price_text (get_text price_el) with
      | Ok price => Ok (name, price)
      | Err e => Err e
      end
  | _, _ => Err CouldNotLocateFlipkart
  end.

(** The [for candidate in text_candidates] loop of
    [_parse_generic_product]: an empty stripped text and a
    [ScraperError] of the normalizer both go on to the next candidate;
    running out of candidates raises. *)
Fixpoint first_price (name : string) (text_candidates : list string)
  : result ScraperError (string * Qc) :=
  match text_candidates with
  | [] => Err CouldNotFindPrice
  | candidate :: rest =>
      let text := strip candidate in
      if negb (nonempty text) then first_price name rest
      else match _parse_price_text text with
           | Ok price => Ok (name, price)
           | Err _ => first_price name rest
           end
  end.

Definition _parse_generic_product (soup : PageElement)
  : result ScraperError (string * Qc) :=
  let title_el := find (tag_named "title") soup in
  let name :=
    match title_el with
    | Some title_el => get_text_strip title_el
    | None => "Unknown product"
    end in
  first_price name (find_all_digit_strings soup).

(** [str.lower] on one character and on a string: the capital letters
    A to Z (U+0041 to U+005A) and those of U+00C0 to U+00DE, the
    multiplication sign U+00D7 apart, move up by 32; every other
    character of the alphabet is its own lower case. *)
Definition lower_char (c : ascii) : ascii :=
  let n := nat_of_ascii c in
  if ((65 <=? n)%nat && (n <=? 90)%nat)
     || ((192 <=? n)%nat && (n <=? 222)%nat && negb (n =? 215)%nat)
  then ascii_of_nat (n + 32) else c.

Fixpoint lower (s : string) : string :=
  match s with
  | EmptyString => EmptyString
  | String c s' => String (lower_char c) (lower s')
  end.

(** The answer of [parse_product_details] and of [get_product_info]:
    the keys "product_name" and "current_price" of the dictionary. *)
Record ProductInfo : Type := {
  product_name : string;
  current_price : Qc
}.

(** [parse_product_details], from the parsed document on: [site_name]
    is [None] for Python's [None]. *)
Definition parse_product_details (soup : PageElement) (site_name : option string)
  : result ScraperError ProductInfo :=
  let site := lower (strip (default EmptyString site_name)) in
  let r :=
    if String.eqb site "amazon" then _parse_amazon_product soup
    else if String.eqb site "flipkart" then _parse_flipkart_product soup
    else _parse_generic_product soup in
  match r with
  | Ok (name, price) => Ok {| product_name := name; current_price := price |}
  | Err e => Err e
  end.

End Scraper.

(** ** Comparisons and arithmetic on floats *)

Module PyFloat.

Definition leb (x y : Qc) : bool :=
  match (x ?= y)%Qc with Gt => false | _ => true end.

End PyFloat.

(** ** Floats in binary64

    IEEE 754 double precision, which is what a Python [float] and a
    [REAL] of SQLite are: 53 bits of precision, exponents up to 1024.
    The operations are those of [SpecFloat]; each rounds its exact
    result to the nearest binary64 number, ties to even. *)

Module Binary64.

Definition prec : Z := 53.
Definition emax : Z := 1024.

(** The binary64 number nearest to the rational [q], ties to even:
    the float whose decimal text denotes [q], as [float(text)] and a
    float literal of the source give it.  A rational beyond the range
    gives an infinity. *)
Definition of_Q (q : Q) : spec_float :=
  match Qnum q with
  | Z0 => S754_zero false
  | Zpos n =>
      SFdiv prec emax (S754_finite false n 0) (S754_finite false (Qden q) 0)
  | Zneg n =>
      SFdiv prec emax (S754_finite true n 0) (S754_finite false (Qden q) 0)
  end.

Definition of_Qc (q : Qc) : spec_float := of_Q (this q).

Definition zero : spec_float := S754_zero false.

Definition eqb (x y : spec_float) : bool := SFeqb x y.
Definition ltb (x y : spec_float) : bool := SFltb x y.
Definition leb (x y : spec_float) : bool := SFleb x y.
Definition abs (x : spec_float) : spec_float := SFabs x.
Definition opp (x : spec_float) : spec_float := SFopp x.
Definition mul (x y : spec_float) : spec_float := SFmul prec emax x y.
Definition sub (x y : spec_float) : spec_float := SFsub prec emax x y.

(** [max(a, b)]: [b] only when [b > a] holds. *)
Definition max (a b : spec_float) : spec_float := if ltb a b then b else a.

End Binary64.

(** ** price_analyzer.py *)

Module PriceAnalyzer.

Record Analysis : Type := {
  is_below_or_equal : bool;
  current_price : Qc;
  target_price : Qc;
  difference : Qc
}.

Definition analyze_price (current_price target_price : Qc) : Analysis :=
  let difference := (current_price - target_price)%Qc in
  let is_below_or_equal := PyFloat.leb difference (Q2Qc 0) in
  {| is_below_or_equal := is_below_or_equal;
     current_price := current_price;
     target_price := target_price;
     difference := difference |}.

End PriceAnalyzer.

(** ** storage.py

    The SQLite file is a pair of tables, each a list of rows in insertion
    order.  [scraped_at] and [created_at] hold ISO-8601 text in the
    database; the model keeps the instant the text denotes, on which the
    text order of [ORDER BY scraped_at] agrees.  A [REAL] column holds
    a binary64 number, finite or infinite: the model keeps the rational
    it denotes, and a rational beyond the range of binary64 stands for
    the infinity of its sign.  The functions of this module are what
    the calls do when the store answers; that a call can fail is
    modelled where the check cycle calls them. *)

Module Storage.

Record Product : Type := {
  id : Z;
  product_url : string;
  target_price : Qc;
  site_name : option string;
  active : bool;
  created_at : Z
}.

Record PriceEntry : Type := {
  entry_id : Z;
  product_id : Z;
  scraped_at : Z;
  price : Qc;
  currency : string
}.

Record Database : Type := {
  products : list Product;
  price_history : list PriceEntry
}.

(** [list_products]: [SELECT ... FROM products [WHERE active = 1]]. *)
Definition list_products (db : Database) (active_only : bool) : list Product :=
  if active_only then filter (fun p => active p = true) (products db)
  else products db.

Definition get_all_products (db : Database) (active_only : option bool)
  : list Product :=
  match active_only with
  | None => list_products db false
  | Some a => list_products db a
  end.

(** [save_price_snapshot]: one [INSERT INTO price_history]; the
    [AUTOINCREMENT] key of a table that never loses a row is its row
    count plus one.  [now] is the reading of [datetime.utcnow()] used
    when no [scraped_at] is passed. *)
Definition save_price_snapshot (db : Database) (product_id : Z) (price : Qc)
    (currency : string) (scraped_at : option Z) (now : Z) : Database :=
  let scraped_at := default now scraped_at in
  {| products := products db;
     price_history :=
       price_history db ++
       [ {| entry_id := Z.of_nat (length (price_history db)) + 1;
            product_id := product_id;
            scraped_at := scraped_at;
            price := price;
            currency := currency |} ] |}.

(** [add_price_snapshot(product_id, price)] with the defaults
    [currency="INR"], [scraped_at=None]. *)
Definition add_price_snapshot (db : Database) (product_id : Z) (price : Qc)
    (now : Z) : Database :=
  save_price_snapshot db product_id price "INR" None now.

(** [ORDER BY scraped_at DESC]: [a] may stand before [b]. *)
Definition newer_first (a b : PriceEntry) : Prop :=
  (scraped_at b <= scraped_at a)%Z.

#[global] Instance newer_first_dec a b : Decision (newer_first a b) :=
  Z_le_dec _ _.

(** [get_price_history]: the rows of the product, newest first; a
    negative [LIMIT] does not limit.  Among rows of one instant SQLite
    promises no order; the model takes the one of [merge_sort]. *)
Definition get_price_history (db : Database) (product_id : Z)
    (limit : option Z) : list PriceEntry :=
  let rows :=
    merge_sort newer_first
      (filter (fun r => Storage.product_id r = product_id) (price_history db)) in
  match limit with
  | None => rows
  | Some n => if (n <? 0)%Z then rows else take (Z.to_nat n) rows
  end.

(** [get_price_trend_direction]; [None] would be the [IndexError] of
    [history[0]] or [history[-1]] on an empty list.  The prices are
    read from the [REAL] column as binary64 numbers, and the band and
    the difference are computed in binary64, with the float of the
    literal [0.01]. *)
Definition get_price_trend_direction (db : Database) (product_id : Z)
    (window : Z) : option string :=
  let window := if (window <=? 1)%Z then 2%Z else window in
  let history := get_price_history db product_id (Some window) in
  if (length history <? 2)%nat then Some "stable"
  else
    let history := reverse history in
    match head history, last history with
    | Some h0, Some h1 =>
        let first := Binary64.of_Qc (price h0) in
        let last := Binary64.of_Qc (price h1) in
        let threshold :=
          if Binary64.eqb first Binary64.zero then Binary64.of_Q 0.01
          else Binary64.max (Binary64.mul (Binary64.abs first) (Binary64.of_Q 0.01))
                            (Binary64.of_Q 0.01) in
        let delta := Binary64.sub last first in
        if Binary64.ltb threshold delta then Some "up"
        else if Binary64.ltb delta (Binary64.opp threshold) then Some "down"
        else Some "stable"
    | _, _ => None
    end.

End Storage.

(** ** The world around the package

    What the code reads from outside is an oracle: the answer to the
    [n]-th interaction of each kind.  What it changes is the state: the
    database file, the module-level dictionary [_LAST_NOTIFIED] of
    notifier.py, and a journal of what was printed, inserted and mailed,
    in the order it happened.  The functions of storage.py open a
    connection of their own at every call, and a call can fail as a
    whole. *)

Module World.
Import Scraper.

Inductive HttpOutcome : Type :=
| HttpBody (html : string)     (* [response.text] of a good answer *)
| RequestException             (* [requests.RequestException], bad status included *)
| OtherException.              (* any other [Exception] *)

(** The dictionary [_load_smtp_config] returns.  It is read from a file
    or from the environment: "host", "user", "password" and "sender" are
    [None] or a string, "port" is always an integer (587 when none is
    given or readable). *)
Record SmtpConfig : Type := {
  host : option string;
  port : Z;
  user : option string;
  password : option string;
  sender : option string
}.

Record Outside : Type := {
  (** the [n]-th reading of [datetime.utcnow()] *)
  clock : nat -> Z;
  (** the [n]-th [requests.get(url, ...)] with [raise_for_status] *)
  requests_get : nat -> string -> HttpOutcome;
  (** [BeautifulSoup(html, "html.parser")] *)
  html_parser : string -> PageElement;
  (** what the [n]-th call of [_load_smtp_config(config_path)] returns *)
  load_smtp_config : nat -> option string -> SmtpConfig;
  (** whether the [n]-th SMTP session (connect, login, sendmail, quit)
      ends without an exception *)
  smtp_delivers : nat -> bool;
  (** [os.getenv] *)
  getenv : string -> option string;
  (** whether the [n]-th call of a function of storage.py goes through;
      when it does not, [sqlite3] raises from the connection, the
      statement or the commit, and the file is left as it was *)
  sqlite_answers : nat -> bool
}.

Inductive Exception : Type :=
| Scraper (e : ScraperError)
| Unexpected.

(** What a function of storage.py raises when the store fails. *)
Inductive StoreError : Type :=
| Sqlite3Error.

Inductive LogLine : Type :=
| BlankLine
| RunningPriceCheck (now : Z)
| FailedToLoadProducts
| NoActiveProducts
| CheckingProduct (id : Z) (url : string)
| ScraperErrorFor (url : string) (exc : ScraperError)
| UnexpectedErrorFor (url : string)
| CurrentPrice (current_price target_price difference : Qc)
| NotificationSent
| NotificationSkippedOrFailed
| RecipientNotConfigured
| RunSummary (processed successful_scrapes notifications_sent : nat).

Inductive Event : Type :=
| Printed (line : LogLine)
| SnapshotInserted (product_id : Z) (price : Qc)
| SmtpSession (recipient product_url : string) (delivered : bool).

Record State : Type := {
  db : Storage.Database;
  _LAST_NOTIFIED : gmap (string * string) Z;
  clock_reads : nat;
  http_requests : nat;
  config_loads : nat;
  smtp_sessions : nat;
  store_calls : nat;
  journal : list Event
}.

(** Code with effects: it reads the outside and threads the state. *)
Definition M (A : Type) : Type := Outside -> State -> A * State.

Definition ret {A} (a : A) : M A := fun _ s => (a, s).

Definition bind {A B} (m : M A) (k : A -> M B) : M B :=
  fun o s => let (a, s') := m o s in k a o s'.

Definition utcnow : M Z :=
  fun o s =>
    (clock o (clock_reads s),
     {| db := db s; _LAST_NOTIFIED := _LAST_NOTIFIED s;
        clock_reads := S (clock_reads s); http_requests := http_requests s;
        config_loads := config_loads s; smtp_sessions := smtp_sessions s;
        store_calls := store_calls s;
        journal := journal s |}).

Definition emit (e : Event) : M unit :=
  fun _ s =>
    (tt,
     {| db := db s; _LAST_NOTIFIED := _LAST_NOTIFIED s;
        clock_reads := clock_reads s; http_requests := http_requests s;
        config_loads := config_loads s; smtp_sessions := smtp_sessions s;
        store_calls := store_calls s;
        journal := journal s ++ [e] |}).

Definition print (l : LogLine) : M unit := emit (Printed l).

Definition http_get (url : string) : M HttpOutcome :=
  fun o s =>
    (requests_get o (http_requests s) url,
     {| db := db s; _LAST_NOTIFIED := _LAST_NOTIFIED s;
        clock_reads := clock_reads s; http_requests := S (http_requests s);
        config_loads := config_loads s; smtp_sessions := smtp_sessions s;
        store_calls := store_calls s;
        journal := journal s |}).

Definition _load_smtp_config (config_path : option string) : M SmtpConfig :=
  fun o s =>
    (load_smtp_config o (config_loads s) config_path,
     {| db := db s; _LAST_NOTIFIED := _LAST_NOTIFIED s;
        clock_reads := clock_reads s; http_requests := http_requests s;
        config_loads := S (config_loads s); smtp_sessions := smtp_sessions s;
        store_calls := store_calls s;
        journal := journal s |}).

(** The [try] block of [send_price_drop_email]: one SMTP session. *)
Definition smtp_session (recipient product_url : string) : M bool :=
  fun o s =>
    let delivered := smtp_delivers o (smtp_sessions s) in
    (delivered,
     {| db := db s; _LAST_NOTIFIED := _LAST_NOTIFIED s;
        clock_reads := clock_reads s; http_requests := http_requests s;
        config_loads := config_loads s; smtp_sessions := S (smtp_sessions s);
        store_calls := store_calls s;
        journal := journal s ++ [SmtpSession recipient product_url delivered] |}).

(** [_LAST_NOTIFIED[key] = t] *)
Definition set_last_notified (key : string * string) (t : Z) : M unit :=
  fun _ s =>
    (tt,
     {| db := db s; _LAST_NOTIFIED := <[key := t]> (_LAST_NOTIFIED s);
        clock_reads := clock_reads s; http_requests := http_requests s;
        config_loads := config_loads s; smtp_sessions := smtp_sessions s;
        store_calls := store_calls s;
        journal := journal s |}).

Definition set_db (d : Storage.Database) : M unit :=
  fun _ s =>
    (tt,
     {| db := d; _LAST_NOTIFIED := _LAST_NOTIFIED s;
        clock_reads := clock_reads s; http_requests := http_requests s;
        config_loads := config_loads s; smtp_sessions := smtp_sessions s;
        store_calls := store_calls s;
        journal := journal s |}).

(** One call of a function of storage.py, as far as its success
    goes. *)
Definition sqlite_call : M bool :=
  fun o s =>
    (sqlite_answers o (store_calls s),
     {| db := db s; _LAST_NOTIFIED := _LAST_NOTIFIED s;
        clock_reads := clock_reads s; http_requests := http_requests s;
        config_loads := config_loads s; smtp_sessions := smtp_sessions s;
        store_calls := S (store_calls s);
        journal := journal s |}).

Definition get_state : M State := fun _ s => (s, s).

Definition os_getenv (name : string) : M (option string) :=
  fun o s => (getenv o name, s).

Definition parse_html (html : string) : M PageElement :=
  fun o s => (html_parser o html, s).

End World.

Declare Scope py_scope.
Delimit Scope py_scope with py.
Notation "x <~ m ;; k" := (World.bind m (fun x => k))
  (at level 100, m at next level, right associativity) : py_scope.
Notation "m ;;; k" := (World.bind m (fun _ => k))
  (at level 100, right associativity) : py_scope.
Open Scope py_scope.

(** Truthiness of a string that may be [None]. *)
Definition truthy (o : option string) : bool :=
  match o with
  | Some s => PyStr.nonempty s
  | None => false
  end.

(** ** scraper.py, the part that goes to the network *)

Module Fetch.
Import Scraper World.

(** [fetch_product_page]: a [RequestException] becomes a
    [ScraperError]; any other exception passes through. *)
Definition fetch_product_page (url : string) : M (result Exception string) :=
  r <~ http_get url ;;
  match r with
  | HttpBody html => ret (Ok html)
  | RequestException => ret (Err (Scraper (NetworkError url)))
  | OtherException => ret (Err Unexpected)
  end.

(** [get_product_info]; the keys "product_url" and "site_name" it adds
    to the dictionary repeat its arguments and are not carried. *)
Definition get_product_info (url : string) (site_name : option string)
  : M (result Exception ProductInfo) :=
  r <~ fetch_product_page url ;;
  match r with
  | Err e => ret (Err e)
  | Ok html =>
      soup <~ parse_html html ;;
      match parse_product_details soup site_name with
      | Ok details => ret (Ok details)
      | Err e => ret (Err (Scraper e))
      end
  end.

End Fetch.

(** ** notifier.py *)

Module Notifier.
Import World.

Definition _COOLDOWN_MINUTES : Z := 60.

(** [timedelta(minutes=m)], in microseconds. *)
Definition timedelta_minutes (m : Z) : Z := (m * 60 * 1000000)%Z.

Definition _can_send (key : string * string) : M bool :=
  s <~ get_state ;;
  match _LAST_NOTIFIED s !! key with
  | None => ret true
  | Some last =>
      now <~ utcnow ;;
      ret (timedelta_minutes _COOLDOWN_MINUTES <=? now - last)%Z
  end.

(** Line 108: every field of the configuration and the recipient must be
    truthy. *)
Definition config_complete (cfg : SmtpConfig) (user_email : string) : bool :=
  truthy (host cfg) && negb (port cfg =? 0)%Z && truthy (user cfg)
  && truthy (password cfg) && truthy (sender cfg) && PyStr.nonempty user_email.

(** [send_price_drop_email]; the subject and body of the message are
    built from the arguments and a clock reading and do not bear on
    what is returned. *)
Definition send_price_drop_email (user_email product_name product_url : string)
    (current_price target_price : Qc) (config_path : option string) : M bool :=
  let key := (user_email, product_url) in
  allowed <~ _can_send key ;;
  if negb allowed then ret false
  else
    cfg <~ _load_smtp_config config_path ;;
    if negb (config_complete cfg user_email) then ret false
    else
      timestamp <~ utcnow ;;
      delivered <~ smtp_session user_email product_url ;;
      if negb delivered then ret false
      else
        now <~ utcnow ;;
        set_last_notified key now ;;;
        ret true.

End Notifier.

(** ** scheduler_module.py *)

Module Scheduler.
Import World Storage.

Record Counters : Type := {
  processed : nat;
  successful_scrapes : nat;
  notifications_sent : nat
}.

(** [get_all_products(active_only=...)] on the database of the state;
    [Err] when [sqlite3] raises. *)
Definition get_all_products (active_only : option bool)
  : M (result StoreError (list Product)) :=
  ok <~ sqlite_call ;;
  if ok then
    s <~ get_state ;;
    ret (Ok (Storage.get_all_products (db s) active_only))
  else ret (Err Sqlite3Error).

(** [add_price_snapshot(product_id=..., price=...)] on the database of
    the state: [save_price_snapshot] reads the clock, then opens the
    connection and inserts the row; [Err] when [sqlite3] raises. *)
Definition add_price_snapshot (product_id : Z) (price : Qc)
  : M (result StoreError unit) :=
  now <~ utcnow ;;
  ok <~ sqlite_call ;;
  if ok then
    s <~ get_state ;;
    set_db (Storage.add_price_snapshot (db s) product_id price now) ;;;
    emit (SnapshotInserted product_id price) ;;;
    ret (Ok tt)
  else ret (Err Sqlite3Error).

(** The body of the [for product in products] loop, lines 50-97; [Err]
    when an exception leaves it, which is when [add_price_snapshot]
    raises at line 72, outside every [try].  The price of a
    [ProductInfo] is a float already, so the [float(...)] of line 66
    returns it and the [except] of lines 67-69 is never entered. *)
Definition check_product (recipient_email : option string) (c : Counters)
    (product : Product) : M (result StoreError Counters) :=
  let processed := S (processed c) in
  let url := product_url product in
  let site := if truthy (site_name product) then site_name product
              else Some "other" in
  print (CheckingProduct (id product) url) ;;;
  r <~ Fetch.get_product_info url site ;;
  match r with
  | Err (Scraper exc) =>
      print (ScraperErrorFor url exc) ;;;
      ret (Ok {| processed := processed;
                 successful_scrapes := successful_scrapes c;
                 notifications_sent := notifications_sent c |})
  | Err Unexpected =>
      print (UnexpectedErrorFor url) ;;;
      ret (Ok {| processed := processed;
                 successful_scrapes := successful_scrapes c;
                 notifications_sent := notifications_sent c |})
  | Ok info =>
      let current_price := Scraper.current_price info in
      let successful_scrapes := S (successful_scrapes c) in
      stored <~ add_price_snapshot (id product) current_price ;;
      match stored with
      | Err e => ret (Err e)
      | Ok _ =>
          let target_price := target_price product in
          let analysis :=
            PriceAnalyzer.analyze_price current_price target_price in
          print (CurrentPrice current_price target_price
                   (PriceAnalyzer.difference analysis)) ;;;
          if PriceAnalyzer.is_below_or_equal analysis
             && truthy recipient_email then
            sent <~ Notifier.send_price_drop_email
                      (default EmptyString recipient_email)
                      (Scraper.product_name info) url current_price
                      target_price None ;;
            if sent then
              print NotificationSent ;;;
              ret (Ok {| processed := processed;
                         successful_scrapes := successful_scrapes;
                         notifications_sent := S (notifications_sent c) |})
            else
              print NotificationSkippedOrFailed ;;;
              ret (Ok {| processed := processed;
                         successful_scrapes := successful_scrapes;
                         notifications_sent := notifications_sent c |})
          else if PriceAnalyzer.is_below_or_equal analysis
                  && negb (truthy recipient_email) then
            print RecipientNotConfigured ;;;
            ret (Ok {| processed := processed;
                       successful_scrapes := successful_scrapes;
                       notifications_sent := notifications_sent c |})
          else
            ret (Ok {| processed := processed;
                       successful_scrapes := successful_scrapes;
                       notifications_sent := notifications_sent c |})
      end
  end.

(** [for product in products: ...]; an exception that leaves the body
    leaves the loop. *)
Fixpoint for_each (body : Counters -> Product -> M (result StoreError Counters))
    (products : list Product) (c : Counters) : M (result StoreError Counters) :=
  match products with
  | [] => ret (Ok c)
  | product :: rest =>
      r <~ body c product ;;
      match r with
      | Ok c' => for_each body rest c'
      | Err e => ret (Err e)
      end
  end.

(** [os.getenv(a) or os.getenv(b)] *)
Definition getenv_or (a b : string) : M (option string) :=
  x <~ os_getenv a ;;
  if truthy x then ret x else os_getenv b.

(** [_run_price_check_once]; [Err] when an exception leaves it.  An
    exception of [get_all_products] is caught at lines 35-37, one that
    leaves the loop is not. *)
Definition _run_price_check_once : M (result StoreError unit) :=
  now <~ utcnow ;;
  print BlankLine ;;;
  print (RunningPriceCheck now) ;;;
  loaded <~ get_all_products (Some true) ;;
  match loaded with
  | Err _ => print FailedToLoadProducts ;;; ret (Ok tt)
  | Ok [] => print NoActiveProducts ;;; ret (Ok tt)
  | Ok products =>
      recipient_email <~ getenv_or "ALERT_RECIPIENT_EMAIL" "ALERT_EMAIL" ;;
      r <~ for_each (check_product recipient_email) products
             {| processed := 0; successful_scrapes := 0;
                notifications_sent := 0 |} ;;
      match r with
      | Err e => ret (Err e)
      | Ok c =>
          print (RunSummary (processed c) (successful_scrapes c)
                   (notifications_sent c)) ;;;
          ret (Ok tt)
      end
  end.

End Scheduler.

(** ** Vocabulary of the specification *)

Module Spec.
Import PyStr.

(** The characters left in a token once its commas are gone. *)
Definition digit_or_period (c : ascii) : bool :=
  is_digit c || Ascii.eqb c period.

(** A candidate numeric token: a digit, then digits, commas and
    periods. *)
Definition candidate_token (t : string) : bool :=
  match t with
  | EmptyString => false
  | String c r => is_digit c && all_chars is_token_char r
  end.

(** Whether a text goes on with a digit, a comma or a period. *)
Definition token_goes_on (rest : string) : bool :=
  match rest with
  | EmptyString => false
  | String c _ => is_token_char c
  end.

(** The maximal numeric tokens of a text, from left to right.  The
    text is cut into its tokens and what lies between them: before a
    token comes a stretch without any digit, the token is a digit
    followed by digits, commas and periods, and it is maximal, which is
    to say that the text does not go on with a digit, a comma or a
    period behind it; the rest of the text holds the remaining tokens.
    A text without a digit has no token. *)
Inductive maximal_tokens : string -> list string -> Prop :=
| tokens_none gap :
    any_char is_digit gap = false ->
    maximal_tokens gap []
| tokens_cons gap token rest tokens :
    any_char is_digit gap = false ->
    candidate_token token = true ->
    token_goes_on rest = false ->
    maximal_tokens rest tokens ->
    maximal_tokens (gap ++ token ++ rest) (token :: tokens).

(** A plain decimal numeral: a leading digit, then digits with at most
    one period among them. *)
Definition decimal_numeral (t : string) : Prop :=
  candidate_token t = true
  /\ all_chars digit_or_period t = true
  /\ (count_char period t <= 1)%nat.

(** [t] is the longest of [l] by character length, the first one
    among equals: it stands at some index [i], nothing in [l] is longer,
    and everything before [i] is strictly shorter. *)
Definition first_longest (l : list string) (t : string) : Prop :=
  exists i : nat,
    l !! i = Some t
    /\ (forall j x, l !! j = Some x -> (String.length x <= String.length t)%nat)
    /\ (forall j x, l !! j = Some x -> (j < i)%nat ->
                    (String.length x < String.length t)%nat).

(** The larger of two numbers. *)
Definition Qc_max (a b : Qc) : Qc := if decide (a <= b)%Qc then b else a.

(** The larger of two floats. *)
Definition larger (a b : spec_float) : spec_float :=
  if Binary64.leb a b then b else a.

(** The band of the trend: one percent of the oldest price, and at
    least 0.01. *)
Definition trend_threshold (oldest : spec_float) : spec_float :=
  larger (Binary64.mul (Binary64.abs oldest) (Binary64.of_Q 0.01))
         (Binary64.of_Q 0.01).

(** "up" above the band, "down" below it, "stable" inside. *)
Definition classify (delta threshold : spec_float) : string :=
  if Binary64.ltb threshold delta then "up"
  else if Binary64.ltb delta (Binary64.opp threshold) then "down"
  else "stable".

(** *** The check cycle, seen from outside *)

(** The store answers the next [n] calls made from state [s] on. *)
Definition store_answers (o : World.Outside) (s : World.State) (n : nat) : Prop :=
  forall k,
    (World.store_calls s <= k < World.store_calls s + n)%nat ->
    World.sqlite_answers o k = true.

(** The recipient of the alerts of a run. *)
Definition recipient_of (o : World.Outside) : option string :=
  if truthy (World.getenv o "ALERT_RECIPIENT_EMAIL")
  then World.getenv o "ALERT_RECIPIENT_EMAIL"
  else World.getenv o "ALERT_EMAIL".

(** The site a product is scraped as. *)
Definition site_of (p : Storage.Product) : option string :=
  if truthy (Storage.site_name p) then Storage.site_name p else Some "other".

(** What scraping product [p] gives when it is the [n]-th request. *)
Definition scrape_of (o : World.Outside) (n : nat) (p : Storage.Product)
  : result World.Exception Scraper.ProductInfo :=
  match World.requests_get o n (Storage.product_url p) with
  | World.HttpBody html =>
      match Scraper.parse_product_details (World.html_parser o html) (site_of p) with
      | Ok details => Ok details
      | Err e => Err (World.Scraper e)
      end
  | World.RequestException =>
      Err (World.Scraper (Scraper.NetworkError (Storage.product_url p)))
  | World.OtherException => Err World.Unexpected
  end.

(** The snapshots a cycle owes: one for every product whose scrape
    succeeds, in the order of the products; the first product is the
    [n]-th request. *)
Fixpoint snapshots_due (o : World.Outside) (n : nat)
    (products : list Storage.Product) : list (Z * Qc) :=
  match products with
  | [] => []
  | p :: rest =>
      match scrape_of o n p with
      | Ok info =>
          (Storage.id p, Scraper.current_price info) :: snapshots_due o (S n) rest
      | Err _ => snapshots_due o (S n) rest
      end
  end.

Definition is_snapshot (e : World.Event) : bool :=
  match e with
  | World.SnapshotInserted _ _ => true
  | _ => false
  end.

(** The part of the journal that belongs to one product.  A failed
    scrape leaves the line that announces the product and the line
    that reports the failure, nothing else.  A successful one leaves the
    announcement, then the snapshot, then the line that compares the
    price with the target, then what the alert did, which inserts no
    snapshot and is empty exactly when the price is above the target. *)
Definition product_trace (o : World.Outside) (n : nat) (p : Storage.Product)
    (seg : list World.Event) : Prop :=
  let url := Storage.product_url p in
  let announced := World.Printed (World.CheckingProduct (Storage.id p) url) in
  match scrape_of o n p with
  | Err (World.Scraper exc) =>
      seg = [announced; World.Printed (World.ScraperErrorFor url exc)]
  | Err World.Unexpected =>
      seg = [announced; World.Printed (World.UnexpectedErrorFor url)]
  | Ok info =>
      let price := Scraper.current_price info in
      let target := Storage.target_price p in
      exists alert,
        seg = ([announced;
                World.SnapshotInserted (Storage.id p) price;
                World.Printed (World.CurrentPrice price target (price - target)%Qc)]
               ++ alert)%list
        /\ Forall (fun e => is_snapshot e = false) alert
        /\ (alert = [] <-> ~ (price <= target)%Qc)
  end.

(** One part per product, in the order of the products. *)
Fixpoint cycle_trace (o : World.Outside) (n : nat)
    (products : list Storage.Product) (segs : list (list World.Event)) : Prop :=
  match products, segs with
  | [], [] => True
  | p :: products', seg :: segs' =>
      product_trace o n p seg /\ cycle_trace o (S n) products' segs'
  | _, _ => False
  end.

(** A row of the price history, as (product, price). *)
Definition observed (r : Storage.PriceEntry) : Z * Qc :=
  (Storage.product_id r, Storage.price r).

End Spec.

(** ** Data of the worked examples *)

Module Examples.
Import Scraper Storage.

(** The page of [test_scraper_generic_parser], as parsed: a title
    "Demo Product" and one [div] with the text of the offer; the text
    nodes between the tags hold the line breaks and indentation. *)
Definition blank : PageElement := NavigableString " ".

Definition demo_page : PageElement :=
  Tag "[document]" None []
    [ blank;
      Tag "html" None []
        [ blank;
          Tag "head" None []
            [ Tag "title" None [] [ NavigableString "Demo Product" ] ];
          blank;
          Tag "body" None []
            [ blank;
              Tag "div" None [] [ NavigableString "Only Rs. 1,234.00 today!" ];
              blank ];
          blank ];
      blank ].


(** A page in XHTML: the document type comes first, and its text has
    a digit. *)
Definition quote : string := String (ascii_of_nat 34) EmptyString.

Definition xhtml_page : PageElement :=
  Tag "[document]" None []
    [ SpecialString Doctype
        ("html PUBLIC " ++ quote ++ "-//W3C//DTD XHTML 1.0 Strict//EN" ++ quote);
      Tag "html" None []
        [ Tag "head" None []
            [ Tag "title" None [] [ NavigableString "Kettle" ];
              SpecialString Comment " build 7 " ];
          Tag "body" None []
            [ Tag "p" None [] [ NavigableString "Rs. 1,499" ] ] ] ].

(** A store in which the product [product_id] was observed at the
    given prices, one after the other, at the instants 0, 1, 2, ... *)
Fixpoint observe (db : Database) (product_id : Z) (at_ : Z) (prices : list Q)
  : Database :=
  match prices with
  | [] => db
  | p :: rest =>
      observe (add_price_snapshot db product_id (Q2Qc p) at_)
              product_id (at_ + 1) rest
  end.

Definition empty_db : Database := {| products := []; price_history := [] |}.

Definition chronological (product_id : Z) (prices : list Q) : Database :=
  observe empty_db product_id 0 prices.

(** A world for the worked examples: the clock advances twenty minutes
    from one reading to the next; the second request of a run fails;
    every page is the demo page; the SMTP settings are complete and
    every session but the second goes through; the store answers every
    call. *)
Definition complete_config : World.SmtpConfig :=
  {| World.host := Some "smtp.example.org";
     World.port := 587;
     World.user := Some "tracker";
     World.password := Some "secret";
     World.sender := Some "tracker@example.org" |}.

Definition outside : World.Outside :=
  {| World.clock := fun n => (Z.of_nat n * 1200000000)%Z;
     World.requests_get :=
       fun n url => if (n =? 1)%nat then World.RequestException
                    else World.HttpBody url;
     World.html_parser := fun _ => demo_page;
     World.load_smtp_config := fun _ _ => complete_config;
     World.smtp_delivers := fun n => negb (n =? 1)%nat;
     World.getenv :=
       fun name => if String.eqb name "ALERT_RECIPIENT_EMAIL"
                   then Some "owner@example.org" else None;
     World.sqlite_answers := fun _ => true |}.

(** The same world with a store that answers no call, and with one
    that answers the first call only. *)
Definition store_down : World.Outside :=
  {| World.clock := World.clock outside;
     World.requests_get := World.requests_get outside;
     World.html_parser := World.html_parser outside;
     World.load_smtp_config := World.load_smtp_config outside;
     World.smtp_delivers := World.smtp_delivers outside;
     World.getenv := World.getenv outside;
     World.sqlite_answers := fun _ => false |}.

Definition store_locked : World.Outside :=
  {| World.clock := World.clock outside;
     World.requests_get := World.requests_get outside;
     World.html_parser := World.html_parser outside;
     World.load_smtp_config := World.load_smtp_config outside;
     World.smtp_delivers := World.smtp_delivers outside;
     World.getenv := World.getenv outside;
     World.sqlite_answers := fun n => (n =? 0)%nat |}.

(** Three tracked products: the first and the third are active, with
    targets above and below the price of the demo page. *)
Definition tracked : list Product :=
  [ {| id := 1; product_url := "https://shop.example/a";
       target_price := Q2Qc 1500; site_name := Some "other";
       active := true; created_at := 0 |};
    {| id := 2; product_url := "https://shop.example/b";
       target_price := Q2Qc 1500; site_name := None;
       active := true; created_at := 0 |};
    {| id := 3; product_url := "https://shop.example/c";
       target_price := Q2Qc 1000; site_name := Some EmptyString;
       active := true; created_at := 0 |};
    {| id := 4; product_url := "https://shop.example/d";
       target_price := Q2Qc 1500; site_name := Some "other";
       active := false; created_at := 0 |} ].

Definition start : World.State :=
  {| World.db := {| products := tracked; price_history := [] |};
     World._LAST_NOTIFIED := ∅;
     World.clock_reads := 0;
     World.http_requests := 0;
     World.config_loads := 0;
     World.smtp_sessions := 0;
     World.store_calls := 0;
     World.journal := [] |}.

(** The state left by a first alert for the first product, and the
    same state four clock readings into the run. *)
Definition after_alert : World.State :=
  snd (Notifier.send_price_drop_email "owner@example.org" "Demo Product"
         "https://shop.example/a" (Q2Qc 1234) (Q2Qc 1500) None outside start).

(** A state whose next SMTP session is the one that fails. *)
Definition failing_session (s : World.State) : World.State :=
  {| World.db := World.db s;
     World._LAST_NOTIFIED := World._LAST_NOTIFIED s;
     World.clock_reads := World.clock_reads s;
     World.http_requests := World.http_requests s;
     World.config_loads := World.config_loads s;
     World.smtp_sessions := 1;
     World.store_calls := World.store_calls s;
     World.journal := World.journal s |}.

Definition at_reading (n : nat) (s : World.State) : World.State :=
  {| World.db := World.db s;
     World._LAST_NOTIFIED := World._LAST_NOTIFIED s;
     World.clock_reads := n;
     World.http_requests := World.http_requests s;
     World.config_loads := World.config_loads s;
     World.smtp_sessions := World.smtp_sessions s;
     World.store_calls := World.store_calls s;
     World.journal := World.journal s |}.

End Examples.

(** ** storage.py, the products table and the statistics *)

Module Catalogue.
Import Storage.

(** The dictionary [save_product] is given, as [add_product] and
    [prompt_product_from_cli] build it: "id" is [None] or an integer. *)
Record ProductDict : Type := {
  dict_id : option Z;
  dict_product_url : string;
  dict_target_price : Qc;
  dict_site_name : option string;
  dict_active : bool
}.

(** [cur.lastrowid] after an [INSERT] into a table with an
    [AUTOINCREMENT] key that never lost a row: one more than the largest
    key in the table, and 1 for the first row. *)
Definition lastrowid (rows : list Product) : Z :=
  foldr (fun r m => Z.max (id r) m) 0%Z rows + 1.

(** [UPDATE products SET product_url, target_price, site_name, active
    WHERE id = i], on one row. *)
Definition update_row (product : ProductDict) (i : Z) (r : Product) : Product :=
  if (id r =? i)%Z then
    {| id := id r;
       product_url := dict_product_url product;
       target_price := dict_target_price product;
       site_name := dict_site_name product;
       active := dict_active product;
       created_at := created_at r |}
  else r.

(** [save_product]: the product id and the database afterwards; [now] is
    the reading of [datetime.utcnow()]. *)
Definition save_product (db : Database) (product : ProductDict) (now : Z)
  : Z * Database :=
  match dict_id product with
  | Some i =>
      (i, {| products := update_row product i <$> products db;
             price_history := price_history db |})
  | None =>
      let product_id := lastrowid (products db) in
      (product_id,
       {| products :=
            products db ++
            [ {| id := product_id;
                 product_url := dict_product_url product;
                 target_price := dict_target_price product;
                 site_name := dict_site_name product;
                 active := dict_active product;
                 created_at := now |} ];
          price_history := price_history db |})
  end.

Definition add_product (db : Database) (product_url : string) (target_price : Qc)
    (site_name : option string) (active : bool) (now : Z) : Z * Database :=
  save_product db
    {| dict_id := None;
       dict_product_url := product_url;
       dict_target_price := target_price;
       dict_site_name := site_name;
       dict_active := active |} now.

(** [set_product_active]: [UPDATE products SET active = ? WHERE id = ?]. *)
Definition set_product_active (db : Database) (product_id : Z) (active : bool)
  : Database :=
  {| products :=
       (fun r =>
          if (id r =? product_id)%Z then
            {| id := id r; product_url := product_url r;
               target_price := target_price r; site_name := site_name r;
               active := active; created_at := created_at r |}
          else r) <$> products db;
     price_history := price_history db |}.

(** [get_latest_price]: the first row of
    [... WHERE product_id = ? ORDER BY scraped_at DESC LIMIT 1], or
    [None]. *)
Definition get_latest_price (db : Database) (product_id : Z) : option PriceEntry :=
  head (merge_sort newer_first
          (filter (fun r => Storage.product_id r = product_id) (price_history db))).

(** The keys "min_price", "max_price" and "count" of the dictionary
    [get_min_max_avg_price] returns.  The key "avg_price" holds what
    the [AVG] of SQLite makes of the prices, a sum and a quotient in
    floating point whose rounding the engine decides; it is not
    carried. *)
Record Stats : Type := {
  min_price : Qc;
  max_price : Qc;
  count : nat
}.

(** The smaller of two numbers. *)
Definition Qc_min (a b : Qc) : Qc := if decide (a <= b)%Qc then a else b.

(** [get_min_max_avg_price]: [SELECT MIN(price), MAX(price), AVG(price),
    COUNT( * )] over the rows of the product; [None] when the count
    is 0. *)
Definition get_min_max_avg_price (db : Database) (product_id : Z) : option Stats :=
  let prices :=
    price <$> filter (fun r => Storage.product_id r = product_id) (price_history db) in
  match prices with
  | [] => None
  | p :: ps =>
      Some {| min_price := foldr Qc_min p ps;
              max_price := foldr Spec.Qc_max p ps;
              count := length prices |}
  end.

End Catalogue.

(** ** input_module.py *)

Module InputModule.
Import PyStr.

(** [ValueError], by the message it is raised with. *)
Inductive ValueError : Type :=
| UrlEmpty          (* "URL cannot be empty." *)
| UrlWithoutScheme. (* "URL must start with http:// or https://." *)

(** [s.startswith(p)] *)
Definition startswith (s p : string) : bool := String.prefix p s.

Definition _validate_url (url : string) : result ValueError string :=
  let url := strip url in
  if negb (nonempty url) then Err UrlEmpty
  else if negb (startswith url "http://" || startswith url "https://")
       then Err UrlWithoutScheme
       else Ok url.

Definition _normalize_site_name (raw_site : string) : string :=
  let site := Scraper.lower (strip raw_site) in
  if String.eqb site "amazon" || String.eqb site "flipkart"
     || String.eqb site "other"
  then site else "other".

End InputModule.

(** ** Further data of the worked examples *)

Module MoreExamples.
Import Scraper.

(** An Amazon page of a product that is sold out: the primary price
    element holds a notice, the deal element an old price. *)
Definition sold_out_page : PageElement :=
  Tag "[document]" None []
    [ Tag "span" (Some "productTitle") [] [ NavigableString " Kettle " ];
      Tag "span" (Some "priceblock_ourprice") []
        [ NavigableString "Currently unavailable" ];
      Tag "span" (Some "priceblock_dealprice") []
        [ NavigableString "Rs. 899.00" ] ].

(** A page whose title has a digit, before the text of the offer. *)
Definition phone_page : PageElement :=
  Tag "[document]" None []
    [ Tag "head" None [] [ Tag "title" None [] [ NavigableString "Phone 15 Pro" ] ];
      Tag "body" None [] [ Tag "p" None [] [ NavigableString "Rs. 79,900" ] ] ].

(** The no-break space, U+00A0, which [str.strip] removes. *)
Definition nbsp : string := String (ascii_of_nat 160) EmptyString.

(** A Flipkart page with both elements. *)
Definition flipkart_page : PageElement :=
  Tag "[document]" None []
    [ Tag "span" None ["B_NuCI"] [ NavigableString " Desk Lamp " ];
      Tag "div" None ["_30jeq3"; "_16Jk6d"] [ NavigableString "Rs. 1,249" ] ].

(** The world of the worked examples with no recipient in the
    environment. *)
Definition silent_outside : World.Outside :=
  {| World.clock := World.clock Examples.outside;
     World.requests_get := World.requests_get Examples.outside;
     World.html_parser := World.html_parser Examples.outside;
     World.load_smtp_config := World.load_smtp_config Examples.outside;
     World.smtp_delivers := World.smtp_delivers Examples.outside;
     World.getenv := fun _ => None;
     World.sqlite_answers := World.sqlite_answers Examples.outside |}.

(** The same world with a clock that advances one second from one
    reading to the next. *)
Definition slow_outside : World.Outside :=
  {| World.clock := fun n => (Z.of_nat n * 1000000)%Z;
     World.requests_get := World.requests_get Examples.outside;
     World.html_parser := World.html_parser Examples.outside;
     World.load_smtp_config := World.load_smtp_config Examples.outside;
     World.smtp_delivers := World.smtp_delivers Examples.outside;
     World.getenv := World.getenv Examples.outside;
     World.sqlite_answers := World.sqlite_answers Examples.outside |}.

(** The start of a run just after an alert went out for each of the
    three active products. *)
Definition alerted : World.State :=
  {| World.db := World.db Examples.start;
     World._LAST_NOTIFIED :=
       <[("owner@example.org", "https://shop.example/a") := 0%Z]>
         (<[("owner@example.org", "https://shop.example/b") := 0%Z]>
            (<[("owner@example.org", "https://shop.example/c") := 0%Z]> ∅));
     World.clock_reads := 0;
     World.http_requests := 0;
     World.config_loads := 0;
     World.smtp_sessions := 0;
     World.store_calls := 0;
     World.journal := [] |}.

End MoreExamples.

(** ** Further vocabulary *)

Module Numerals.

(** [str(n)] for a natural number [n]: its decimal numeral. *)
Definition numeral (n : nat) : string :=
  DecimalString.NilZero.string_of_uint (Nat.to_uint n).

End Numerals.

Module Rows.
Import Storage.

(** The rows of a product in the price history, in the order of the
    table. *)
Definition rows_of (db : Database) (product_id : Z) : list PriceEntry :=
  filter (fun r => Storage.product_id r = product_id) (price_history db).

End Rows.

(** * Properties *)

Import PyStr Scraper Spec.

(** ** Characters and strings *)

Section StringFacts.

Lemma digit_not_comma c : is_digit c = true -> Ascii.eqb c comma = false.
Proof.
  intros H. apply Ascii.eqb_neq. intros ->. discriminate H.
Qed.

Lemma digit_not_period c : is_digit c = true -> Ascii.eqb c period = false.
Proof.
  intros H. apply Ascii.eqb_neq. intros ->. discriminate H.
Qed.

Lemma digit_is_token_char c : is_digit c = true -> is_token_char c = true.
Proof. intros H. unfold is_token_char. now rewrite H. Qed.

Lemma space_not_token_char c : is_space c = true -> is_token_char c = false.
Proof.
  destruct c as [[] [] [] [] [] [] [] []]; vm_compute; congruence.
Qed.

Lemma space_not_digit c : is_space c = true -> is_digit c = false.
Proof.
  intros H. apply space_not_token_char in H.
  unfold is_token_char in H. now destruct (is_digit c).
Qed.

Lemma str_app_cons c (s t : string) : String c s ++ t = String c (s ++ t).
Proof. reflexivity. Qed.

Lemma str_app_nil_r (s : string) : s ++ EmptyString = s.
Proof.
  induction s as [|c s IH]; [reflexivity|]. now rewrite str_app_cons, IH.
Qed.

Lemma str_app_assoc (s t u : string) : (s ++ t) ++ u = s ++ (t ++ u).
Proof.
  induction s as [|c s IH]; [reflexivity|]. now rewrite !str_app_cons, IH.
Qed.

Lemma all_chars_app p s t :
  all_chars p (s ++ t) = all_chars p s && all_chars p t.
Proof.
  induction s as [|c s IH]; simpl; [reflexivity|].
  rewrite IH. now rewrite andb_assoc.
Qed.

Lemma all_chars_impl (p q : ascii -> bool) s :
  (forall c, p c = true -> q c = true) ->
  all_chars p s = true -> all_chars q s = true.
Proof.
  intros Hpq. induction s as [|c s IH]; simpl; [reflexivity|].
  intros [Hc Hs]%andb_true_iff. rewrite (Hpq _ Hc). now apply IH.
Qed.

Lemma count_char_app c s t :
  count_char c (s ++ t) = count_char c s + count_char c t.
Proof.
  induction s as [|d s IH]; simpl; [reflexivity|]. rewrite IH. lia.
Qed.

Lemma count_remove_char c s : count_char c (remove_char c s) = 0.
Proof.
  induction s as [|d s IH]; simpl; [reflexivity|].
  destruct (Ascii.eqb d c) eqn:E; simpl; [assumption|]. now rewrite E.
Qed.

Lemma split_once_Some c s h t :
  split_once c s = Some (h, t) ->
  s = h ++ String c t /\ count_char c h = 0.
Proof.
  revert h. induction s as [|d s IH]; simpl; intros h; [discriminate|].
  destruct (Ascii.eqb d c) eqn:E.
  - intros [= <- <-]. apply Ascii.eqb_eq in E. subst d. now split.
  - destruct (split_once c s) as [[h' t']|]; [|discriminate].
    intros [= <- <-]. destruct (IH h' eq_refl) as [-> Hc].
    simpl. rewrite E. now split.
Qed.

Lemma split_once_None c s : split_once c s = None <-> count_char c s = 0.
Proof.
  induction s as [|d s IH]; simpl; [tauto|].
  destruct (Ascii.eqb d c).
  - split; [discriminate | simpl; lia].
  - simpl. rewrite <- IH.
    destruct (split_once c s) as [[h t]|]; split; congruence.
Qed.

Lemma split_once_app c h t :
  count_char c h = 0 -> split_once c (h ++ String c t) = Some (h, t).
Proof.
  induction h as [|d h IH]; simpl.
  - intros _. now rewrite Ascii.eqb_refl.
  - destruct (Ascii.eqb d c); [simpl; lia|]. simpl.
    intros H. now rewrite (IH H).
Qed.

Lemma remove_comma_chars s :
  all_chars is_token_char s = true ->
  all_chars digit_or_period (remove_char comma s) = true.
Proof.
  induction s as [|c s IH]; simpl; [reflexivity|].
  intros [Hc Hs]%andb_true_iff.
  destruct (Ascii.eqb c comma) eqn:E; [now apply IH|].
  simpl. rewrite (IH Hs), andb_true_r.
  unfold is_token_char in Hc. rewrite E, orb_false_r in Hc. exact Hc.
Qed.

Lemma remove_period_chars s :
  all_chars digit_or_period s = true ->
  all_chars is_digit (remove_char period s) = true.
Proof.
  induction s as [|c s IH]; simpl; [reflexivity|].
  intros [Hc Hs]%andb_true_iff.
  destruct (Ascii.eqb c period) eqn:E; [now apply IH|].
  simpl. rewrite (IH Hs), andb_true_r.
  unfold digit_or_period in Hc. now rewrite E, orb_false_r in Hc.
Qed.

Lemma no_period_digits s :
  all_chars digit_or_period s = true -> count_char period s = 0 ->
  all_chars is_digit s = true.
Proof.
  induction s as [|c s IH]; simpl; [reflexivity|].
  intros [Hc Hs]%andb_true_iff.
  unfold digit_or_period in Hc.
  destruct (Ascii.eqb c period); [simpl; lia|].
  simpl. intros H0. rewrite orb_false_r in Hc. rewrite Hc. now apply IH.
Qed.

End StringFacts.

(** ** The scan of [re.findall] *)

Section Findall.

Lemma candidate_token_snoc t c :
  candidate_token t = true -> is_token_char c = true ->
  candidate_token (t ++ String c EmptyString) = true.
Proof.
  destruct t as [|d t]; simpl; [discriminate|].
  intros [Hd Ht]%andb_true_iff Hc.
  rewrite Hd, all_chars_app, Ht. simpl. now rewrite Hc.
Qed.

(** Every match is a candidate token. *)
Lemma findall_scan_tokens s : forall tok,
  (forall t, tok = Some t -> candidate_token t = true) ->
  Forall (fun t => candidate_token t = true) (findall_scan tok s).
Proof.
  induction s as [|c s IH]; intros [t|] Htok; simpl.
  - constructor; [now apply Htok | constructor].
  - constructor.
  - destruct (is_token_char c) eqn:Hc.
    + apply IH. intros t' [= <-].
      apply candidate_token_snoc; [now apply Htok | exact Hc].
    + constructor; [now apply Htok|]. apply IH. discriminate.
  - destruct (is_digit c) eqn:Hc.
    + apply IH. intros t' [= <-]. simpl. now rewrite Hc.
    + apply IH. discriminate.
Qed.

Lemma findall_price_tokens s :
  Forall (fun t => candidate_token t = true) (findall_price s).
Proof. apply findall_scan_tokens. discriminate. Qed.

Lemma findall_scan_open_nonempty s : forall t, findall_scan (Some t) s <> [].
Proof.
  induction s as [|c s IH]; intros t; simpl; [discriminate|].
  destruct (is_token_char c); [apply IH | discriminate].
Qed.

(** No match at all exactly when the text has no digit. *)
Lemma findall_price_nil s :
  findall_price s = [] <-> any_char is_digit s = false.
Proof.
  unfold findall_price. induction s as [|c s IH]; simpl; [tauto|].
  destruct (is_digit c); simpl; [|exact IH].
  split; [|discriminate]. intros H. now apply findall_scan_open_nonempty in H.
Qed.

(** An open match runs as far as [[\d,.]*] goes, then the scan starts
    again behind it. *)
Lemma findall_scan_open s : forall t,
  findall_scan (Some t) s =
    (t ++ fst (span is_token_char s))
      :: findall_scan None (snd (span is_token_char s)).
Proof.
  induction s as [|c s IH]; intros t; simpl.
  - now rewrite str_app_nil_r.
  - destruct (is_token_char c) eqn:Hc.
    + rewrite IH. destruct (span is_token_char s) as [m r]. simpl.
      now rewrite str_app_assoc.
    + cbn [fst snd]. rewrite str_app_nil_r. f_equal. simpl.
      destruct (is_digit c) eqn:Hd; [|reflexivity].
      rewrite (digit_is_token_char _ Hd) in Hc. discriminate Hc.
Qed.

(** The two equations of leftmost, greedy, non-overlapping matching of
    [\d[\d,.]*]. *)
Lemma findall_price_digit c s :
  is_digit c = true ->
  findall_price (String c s) =
    String c (fst (span is_token_char s))
      :: findall_price (snd (span is_token_char s)).
Proof.
  intros Hc. unfold findall_price. simpl. rewrite Hc.
  now rewrite findall_scan_open.
Qed.

Lemma findall_price_other c s :
  is_digit c = false -> findall_price (String c s) = findall_price s.
Proof. intros Hc. unfold findall_price. simpl. now rewrite Hc. Qed.

Lemma findall_price_prefix pre text :
  any_char is_digit pre = false ->
  findall_price (pre ++ text) = findall_price text.
Proof.
  induction pre as [|c pre IH]; [reflexivity|]. simpl.
  intros [Hc Hpre]%orb_false_iff. rewrite str_app_cons.
  rewrite (findall_price_other _ _ Hc). now apply IH.
Qed.

Lemma span_stops p m rest :
  all_chars p m = true ->
  match rest with EmptyString => true | String c _ => negb (p c) end = true ->
  span p (m ++ rest) = (m, rest).
Proof.
  intros Hm Hrest. induction m as [|c m IH].
  - destruct rest as [|c r]; [reflexivity|]. simpl.
    apply negb_true_iff in Hrest. now rewrite Hrest.
  - simpl in Hm. apply andb_true_iff in Hm as [Hc Hm].
    rewrite str_app_cons. simpl. now rewrite Hc, (IH Hm).
Qed.

Lemma span_spec p s :
  s = fst (span p s) ++ snd (span p s)
  /\ all_chars p (fst (span p s)) = true
  /\ match snd (span p s) with
     | EmptyString => true
     | String c _ => negb (p c)
     end = true
  /\ (String.length (snd (span p s)) <= String.length s)%nat.
Proof.
  induction s as [|c s (Heq & Hall & Hstop & Hlen)]; simpl; [auto|].
  destruct (p c) eqn:Hc.
  - destruct (span p s) as [m r]. cbn [fst snd] in *.
    rewrite str_app_cons, <- Heq. simpl. rewrite Hc. auto with lia.
  - cbn [fst snd]. simpl. rewrite Hc. auto.
Qed.

(** The scan finds the maximal tokens of the text, and a text has no
    other list of maximal tokens. *)
Lemma maximal_tokens_findall text tokens :
  maximal_tokens text tokens -> findall_price text = tokens.
Proof.
  induction 1 as [gap Hgap | gap token rest tokens Hgap Htok Hrest _ IH].
  - now apply findall_price_nil.
  - rewrite (findall_price_prefix _ _ Hgap).
    destruct token as [|c m]; [discriminate|]. simpl in Htok.
    apply andb_true_iff in Htok as [Hc Hm].
    rewrite str_app_cons, (findall_price_digit _ _ Hc).
    rewrite (span_stops is_token_char m rest Hm).
    + cbn [fst snd]. now rewrite IH.
    + destruct rest as [|d r]; [reflexivity|]. simpl in Hrest.
      now rewrite Hrest.
Qed.

Lemma maximal_tokens_other c text tokens :
  is_digit c = false ->
  maximal_tokens text tokens -> maximal_tokens (String c text) tokens.
Proof.
  intros Hc H. destruct H as [gap Hgap | gap token rest tokens Hgap Htok Hrest H].
  - apply tokens_none. simpl. now rewrite Hc.
  - rewrite <- str_app_cons. apply tokens_cons; try assumption.
    simpl. now rewrite Hc.
Qed.

Lemma findall_maximal_tokens text : maximal_tokens text (findall_price text).
Proof.
  assert (H : forall n text, (String.length text <= n)%nat ->
                             maximal_tokens text (findall_price text)).
  { clear text. induction n as [|n IH]; intros text Hn.
    - destruct text; [|simpl in Hn; lia]. now apply tokens_none.
    - destruct text as [|c text]; [now apply tokens_none|].
      simpl in Hn. destruct (is_digit c) eqn:Hc.
      + rewrite (findall_price_digit _ _ Hc).
        destruct (span_spec is_token_char text) as (Heq & Hall & Hstop & Hlen).
        replace (String c text)
          with (EmptyString
                ++ String c (fst (span is_token_char text))
                ++ snd (span is_token_char text))
          by (rewrite str_app_cons, <- Heq; reflexivity).
        apply tokens_cons.
        * reflexivity.
        * simpl. now rewrite Hc, Hall.
        * destruct (snd (span is_token_char text)) as [|d r]; [reflexivity|].
          simpl. now apply negb_true_iff.
        * apply IH. lia.
      + rewrite (findall_price_other _ _ Hc).
        apply maximal_tokens_other; [exact Hc|]. apply IH. lia. }
  now apply (H (String.length text)).
Qed.

End Findall.

(** ** The Price-Text Normalizer *)

Section Normalizer.

Lemma max_by_len_cases l : forall best,
  (max_by_len best l = best
   /\ forall j x, l !! j = Some x ->
                  (String.length x <= String.length best)%nat)
  \/ ((String.length best < String.length (max_by_len best l))%nat
      /\ exists i : nat,
           l !! i = Some (max_by_len best l)
           /\ (forall j x, l !! j = Some x ->
                 (String.length x <= String.length (max_by_len best l))%nat)
           /\ (forall j x, l !! j = Some x -> (j < i)%nat ->
                 (String.length x < String.length (max_by_len best l))%nat)).
Proof.
  induction l as [|y l IH]; intros best; simpl.
  - left. split; [reflexivity|]. intros j x Hj. destruct j; discriminate Hj.
  - destruct (String.length best <? String.length y)%nat eqn:E.
    + apply Nat.ltb_lt in E. right.
      destruct (IH y) as [[Hr Hall] | [Hlt (i & Hi & Hall & Hbefore)]].
      * rewrite Hr. split; [exact E|]. exists 0%nat.
        split; [reflexivity|]. split.
        -- intros [|j] x Hj; simpl in Hj; [injection Hj as <-; lia|].
           eapply Hall; eassumption.
        -- intros j x _ Hlt. lia.
      * split; [lia|]. exists (S i). split; [exact Hi|]. split.
        -- intros [|j] x Hj; simpl in Hj; [injection Hj as <-; lia|].
           eapply Hall; eassumption.
        -- intros [|j] x Hj Hji; simpl in Hj; [injection Hj as <-; lia|].
           eapply Hbefore; [eassumption | lia].
    + apply Nat.ltb_ge in E.
      destruct (IH best) as [[Hr Hall] | [Hlt (i & Hi & Hall & Hbefore)]].
      * left. split; [exact Hr|].
        intros [|j] x Hj; simpl in Hj; [injection Hj as <-; lia|].
        eapply Hall; eassumption.
      * right. split; [exact Hlt|]. exists (S i). split; [exact Hi|]. split.
        -- intros [|j] x Hj; simpl in Hj; [injection Hj as <-; lia|].
           eapply Hall; eassumption.
        -- intros [|j] x Hj Hji; simpl in Hj; [injection Hj as <-; lia|].
           eapply Hbefore; [eassumption | lia].
Qed.

(** [max(candidates, key=len)] is the longest candidate, the first one
    among equals. *)
Lemma max_by_len_first_longest c l : first_longest (c :: l) (max_by_len c l).
Proof.
  destruct (max_by_len_cases l c) as [[Hr Hall] | [Hlt (i & Hi & Hall & Hbefore)]].
  - rewrite Hr. exists 0%nat. split; [reflexivity|]. split.
    + intros [|j] x Hj; simpl in Hj; [injection Hj as <-; lia|].
      eapply Hall; eassumption.
    + intros j x _ Hj. lia.
  - exists (S i). split; [exact Hi|]. split.
    + intros [|j] x Hj; simpl in Hj; [injection Hj as <-; lia|].
      eapply Hall; eassumption.
    + intros [|j] x Hj Hji; simpl in Hj; [injection Hj as <-; lia|].
      eapply Hbefore; [eassumption | lia].
Qed.

Lemma first_longest_candidate l t :
  Forall (fun x => candidate_token x = true) l ->
  first_longest l t -> candidate_token t = true.
Proof.
  intros Hall (i & Hi & _). rewrite Forall_forall in Hall.
  apply Hall. eapply list_elem_of_lookup_2. exact Hi.
Qed.

Lemma candidate_token_inv t :
  candidate_token t = true ->
  exists c r, t = String c r /\ is_digit c = true
              /\ all_chars is_token_char r = true.
Proof.
  destruct t as [|c r]; simpl; [discriminate|].
  intros [Hc Hr]%andb_true_iff. now exists c, r.
Qed.

Lemma digit_or_period_token_char c :
  digit_or_period c = true -> is_token_char c = true.
Proof.
  unfold digit_or_period, is_token_char.
  intros [->| ->]%orb_true_iff; [reflexivity|]. now rewrite !orb_true_r.
Qed.

Lemma count_period_remove_comma s :
  count_char period (remove_char comma s) = count_char period s.
Proof.
  induction s as [|c s IH]; simpl; [reflexivity|].
  destruct (Ascii.eqb c comma) eqn:E; simpl; [|now rewrite IH].
  apply Ascii.eqb_eq in E. subst c. simpl. exact IH.
Qed.

(** The text handed to [float]: commas out, periods normalized. *)
Lemma cleaned_token_numeral t :
  candidate_token t = true ->
  decimal_numeral (normalize_periods (remove_char comma t)).
Proof.
  intros (c & r & -> & Hc & Hr)%candidate_token_inv.
  assert (Hu : remove_char comma (String c r) = String c (remove_char comma r)).
  { simpl. now rewrite (digit_not_comma _ Hc). }
  rewrite Hu. pose proof (remove_comma_chars _ Hr) as Hdp.
  set (u := remove_char comma r) in *.
  assert (Hall : all_chars digit_or_period (String c u) = true).
  { simpl. unfold digit_or_period at 1. now rewrite Hc, Hdp. }
  unfold normalize_periods.
  destruct (1 <? count_char period (String c u))%nat eqn:Hcount.
  - destruct (split_once period (String c u)) as [[h tl]|] eqn:Hsplit.
    + destruct (split_once_Some _ _ _ _ Hsplit) as [Heq Hh].
      rewrite Heq, all_chars_app in Hall.
      apply andb_true_iff in Hall as [Hallh Halltl].
      simpl in Halltl.
      pose proof (remove_period_chars _ Halltl) as Hdig.
      destruct h as [|c' h'].
      { change (String c u = String period tl) in Heq.
        injection Heq as -> _. discriminate Hc. }
      rewrite str_app_cons in Heq. injection Heq as <- Heq.
      repeat split.
      * rewrite str_app_cons. simpl. rewrite Hc. simpl.
        rewrite all_chars_app. simpl in Hallh.
        apply andb_true_iff in Hallh as [_ Hallh].
        rewrite (all_chars_impl _ _ _ digit_or_period_token_char Hallh).
        simpl.
        apply (all_chars_impl is_digit); [apply digit_is_token_char | exact Hdig].
      * rewrite all_chars_app, Hallh. simpl.
        apply (all_chars_impl is_digit); [|exact Hdig].
        intros d Hd. unfold digit_or_period. now rewrite Hd.
      * rewrite count_char_app, Hh. simpl. now rewrite count_remove_char.
    + apply split_once_None in Hsplit. apply Nat.ltb_lt in Hcount. lia.
  - apply Nat.ltb_ge in Hcount. repeat split.
    + simpl. rewrite Hc. simpl.
      exact (all_chars_impl _ _ _ digit_or_period_token_char Hdp).
    + exact Hall.
    + exact Hcount.
Qed.

(** [float] reads every plain decimal numeral. *)
Lemma float_decimal_numeral t :
  decimal_numeral t -> exists price, float t = Some price.
Proof.
  intros (Hcand & Hall & Hcount).
  apply candidate_token_inv in Hcand as (c & r & -> & Hc & _).
  unfold float.
  destruct (split_once period (String c r)) as [[i f]|] eqn:Hsplit.
  - destruct (split_once_Some _ _ _ _ Hsplit) as [Heq Hi].
    rewrite Heq, count_char_app, Hi in Hcount. simpl in Hcount.
    rewrite Heq, all_chars_app in Hall.
    apply andb_true_iff in Hall as [Halli Hallf]. simpl in Hallf.
    rewrite (no_period_digits _ Halli Hi).
    rewrite (no_period_digits f Hallf) by lia.
    destruct i as [|c' i'].
    + change (String c r = String period f) in Heq.
      injection Heq as -> _. discriminate Hc.
    + simpl. eauto.
  - apply split_once_None in Hsplit.
    rewrite (no_period_digits _ Hall Hsplit). simpl. eauto.
Qed.

(** What [_parse_price_text] does once there is a candidate. *)
Lemma parse_price_text_candidates text :
  findall_price text <> [] ->
  exists token price,
    first_longest (findall_price text) token
    /\ decimal_numeral (normalize_periods (remove_char comma token))
    /\ float (normalize_periods (remove_char comma token)) = Some price
    /\ _parse_price_text text = Ok price.
Proof.
  intros Hne. unfold _parse_price_text.
  pose proof (findall_price_tokens text) as Htok.
  destruct (findall_price text) as [|c l]; [congruence|].
  pose proof (max_by_len_first_longest c l) as Hfl.
  pose proof (cleaned_token_numeral _ (first_longest_candidate _ _ Htok Hfl)) as Hnum.
  destruct (float_decimal_numeral _ Hnum) as [price Hprice].
  exists (max_by_len c l), price. rewrite Hprice. auto.
Qed.

Lemma parse_price_text_nil text :
  findall_price text = [] ->
  _parse_price_text text = Err (CouldNotParsePrice text).
Proof. intros H. unfold _parse_price_text. now rewrite H. Qed.

Lemma any_char_split p s :
  any_char p s = true ->
  exists pre c post, s = pre ++ String c post /\ p c = true.
Proof.
  induction s as [|d s IH]; simpl; [discriminate|].
  destruct (p d) eqn:Hd.
  - intros _. now exists EmptyString, d, s.
  - simpl. intros (pre & c & post & -> & Hc)%IH.
    now exists (String d pre), c, post.
Qed.

Lemma any_char_app p s t :
  any_char p (s ++ t) = any_char p s || any_char p t.
Proof.
  induction s as [|c s IH]; simpl; [reflexivity|].
  now rewrite IH, orb_assoc.
Qed.

End Normalizer.

(** Closes a goal [r = Ok q] on concrete data: both sides are evaluated
    and the two canonical rationals are compared by their fractions. *)
Ltac same_price :=
  vm_compute; first [ reflexivity | f_equal; apply Qc_is_canon; reflexivity ].

Section NormalizerClaims.

(** C1, as stated, does not hold: the spec's example sends the text
    "1.234.56" to 1234.56, but the code keeps the first period as the
    decimal point and the price it returns is another number. *)
Lemma C1_two_periods_counterexample :
  _parse_price_text "1.234.56" <> Ok (Q2Qc 1234.56).
Proof.
  vm_compute. intros H. inversion H.
Qed.

(** C1, amended: for the text "1.234.56" the whole text is the one
    candidate token; the first period is kept as the decimal point and
    the later one is removed, so the cleaned token is "1.23456" and the
    Normalizer returns 1.23456. *)
Theorem C1_two_periods_first_is_decimal_point :
  findall_price "1.234.56" = ["1.234.56"]
  /\ normalize_periods (remove_char comma "1.234.56") = "1.23456"
  /\ _parse_price_text "1.234.56" = Ok (Q2Qc 1.23456).
Proof.
  repeat split; vm_compute; reflexivity.
Qed.

(** C2: every text has its maximal numeric tokens, and they are what
    the Normalizer looks at: whenever there is at least one, the
    Normalizer takes the longest of them by character length (the
    first one among equals), strips its commas, normalizes its periods
    and returns the number [float] reads there; when the token has at
    most one period, that is the number read from the comma-stripped
    token itself.  In particular "Rs. 1,234.00" gives 1234.00 and
    "MRP: 999" gives 999.0. *)
Theorem C2_longest_token_is_parsed :
  (forall text, exists tokens, maximal_tokens text tokens)
  /\ (forall text tokens,
         maximal_tokens text tokens ->
         tokens <> [] ->
         exists token price,
           first_longest tokens token
           /\ float (normalize_periods (remove_char comma token)) = Some price
           /\ _parse_price_text text = Ok price
           /\ ((count_char period token <= 1)%nat ->
               float (remove_char comma token) = Some price))
  /\ _parse_price_text "Rs. 1,234.00" = Ok (Q2Qc 1234.00)
  /\ _parse_price_text "MRP: 999" = Ok (Q2Qc 999.0).
Proof.
  split; [|split; [|split; same_price]].
  { intros text. exists (findall_price text). apply findall_maximal_tokens. }
  intros text tokens Hmax Hne.
  apply maximal_tokens_findall in Hmax. subst tokens.
  destruct (parse_price_text_candidates text Hne)
    as (token & price & Hfl & _ & Hfloat & Hparse).
  exists token, price. repeat split; try assumption.
  intros Hcount. unfold normalize_periods in Hfloat.
  rewrite count_period_remove_comma in Hfloat.
  apply Nat.ltb_ge in Hcount. now rewrite Hcount in Hfloat.
Qed.

(** Two texts with several tokens: in the first the longest token is
    not the first one, in the second the longest ones are equally long
    and the first of them is taken. *)
Lemma C2_longest_token_is_parsed_witness :
  maximal_tokens "Was 120, now 1,099.50 only" ["120,"; "1,099.50"]
  /\ (exists token price,
        first_longest ["120,"; "1,099.50"] token
        /\ float (normalize_periods (remove_char comma token)) = Some price
        /\ _parse_price_text "Was 120, now 1,099.50 only" = Ok price
        /\ price = Q2Qc 1099.50)
  /\ maximal_tokens "2 for 15 or 3 for 20" ["2"; "15"; "3"; "20"]
  /\ (exists token price,
        first_longest ["2"; "15"; "3"; "20"] token
        /\ float (normalize_periods (remove_char comma token)) = Some price
        /\ _parse_price_text "2 for 15 or 3 for 20" = Ok price
        /\ price = Q2Qc 15).
Proof.
  assert (H1 : maximal_tokens "Was 120, now 1,099.50 only" ["120,"; "1,099.50"]).
  { apply (tokens_cons "Was " "120," " now 1,099.50 only"); try reflexivity.
    apply (tokens_cons " now " "1,099.50" " only"); try reflexivity.
    now apply tokens_none. }
  assert (H2 : maximal_tokens "2 for 15 or 3 for 20" ["2"; "15"; "3"; "20"]).
  { apply (tokens_cons EmptyString "2" " for 15 or 3 for 20"); try reflexivity.
    apply (tokens_cons " for " "15" " or 3 for 20"); try reflexivity.
    apply (tokens_cons " or " "3" " for 20"); try reflexivity.
    apply (tokens_cons " for " "20" EmptyString); try reflexivity.
    now apply tokens_none. }
  split; [exact H1|]. split; [|split; [exact H2|]].
  - destruct (proj1 (proj2 C2_longest_token_is_parsed) _ _ H1)
      as (token & price & Hfl & Hfloat & Hparse & _); [discriminate|].
    exists token, price. repeat split; try assumption.
    assert (Hc : _parse_price_text "Was 120, now 1,099.50 only"
                 = Ok (Q2Qc 1099.50)) by same_price.
    rewrite Hc in Hparse. now injection Hparse.
  - destruct (proj1 (proj2 C2_longest_token_is_parsed) _ _ H2)
      as (token & price & Hfl & Hfloat & Hparse & _); [discriminate|].
    exists token, price. repeat split; try assumption.
    assert (Hc : _parse_price_text "2 for 15 or 3 for 20" = Ok (Q2Qc 15))
      by same_price.
    rewrite Hc in Hparse. now injection Hparse.
Defined.

(** C8: the Normalizer fails exactly when the text has no candidate
    numeric token, that is no substring made of a digit followed by
    digits, commas and periods, which is when it has no digit at all;
    the error it raises carries the text it was given.  In particular
    it fails on "no digits here". *)
Theorem C8_fails_iff_no_candidate :
  (forall text,
      (is_ok (_parse_price_text text) = false <-> findall_price text = [])
      /\ (findall_price text = [] <->
          ~ exists pre token post,
              text = pre ++ token ++ post /\ candidate_token token = true)
      /\ (forall e, _parse_price_text text = Err e ->
                    e = CouldNotParsePrice text))
  /\ _parse_price_text "no digits here"
     = Err (CouldNotParsePrice "no digits here").
Proof.
  split; [|vm_compute; reflexivity].
  intros text. split; [|split].
  - split.
    + intros Hfail. destruct (findall_price text) eqn:E; [reflexivity|].
      destruct (parse_price_text_candidates text) as (t & q & _ & _ & _ & Hok).
      { rewrite E. discriminate. }
      rewrite Hok in Hfail. discriminate Hfail.
    + intros Hnil. now rewrite (parse_price_text_nil _ Hnil).
  - rewrite findall_price_nil. split.
    + intros Hnone (pre & token & post & -> & Htok).
      apply candidate_token_inv in Htok as (c & r & -> & Hc & _).
      rewrite any_char_app, str_app_cons in Hnone. simpl in Hnone.
      rewrite Hc in Hnone. simpl in Hnone.
      rewrite orb_true_r in Hnone. discriminate Hnone.
    + intros Hno. destruct (any_char is_digit text) eqn:E; [|reflexivity].
      exfalso. apply Hno.
      apply any_char_split in E as (pre & c & post & -> & Hc).
      exists pre, (String c EmptyString), post. split; [reflexivity|].
      simpl. now rewrite Hc.
  - intros e. unfold _parse_price_text.
    destruct (findall_price text) as [|c l]; [congruence|].
    destruct (float _); congruence.
Qed.

Lemma C8_fails_iff_no_candidate_witness :
  is_ok (_parse_price_text "price on request") = false
  /\ ~ exists pre token post,
        "price on request" = pre ++ token ++ post
        /\ candidate_token token = true.
Proof.
  destruct (proj1 C8_fails_iff_no_candidate "price on request")
    as (Hfail & Hnone & _).
  split.
  - apply Hfail. reflexivity.
  - apply Hnone. reflexivity.
Defined.

(** C9: once a candidate token is found the final [float] never fails:
    the token that reaches it is a plain decimal numeral, a leading
    digit followed by digits with at most one period, and [float] reads
    every such numeral; so the Normalizer returns a price, and its
    second [raise] is never reached. *)
Theorem C9_final_parse_never_fails text :
  findall_price text <> [] ->
  (forall t, decimal_numeral t -> exists price, float t = Some price)
  /\ exists token price,
       first_longest (findall_price text) token
       /\ decimal_numeral (normalize_periods (remove_char comma token))
       /\ float (normalize_periods (remove_char comma token)) = Some price
       /\ _parse_price_text text = Ok price.
Proof.
  intros Hne. split; [exact float_decimal_numeral|].
  now apply parse_price_text_candidates.
Qed.

Lemma C9_final_parse_never_fails_witness :
  (forall t, decimal_numeral t -> exists price, float t = Some price)
  /\ exists token price,
       first_longest (findall_price "EUR 1.299.00,") token
       /\ decimal_numeral (normalize_periods (remove_char comma token))
       /\ float (normalize_periods (remove_char comma token)) = Some price
       /\ _parse_price_text "EUR 1.299.00," = Ok price.
Proof.
  apply (C9_final_parse_never_fails "EUR 1.299.00,").
  vm_compute. discriminate.
Defined.

End NormalizerClaims.

(** ** The generic extractor *)

Section GenericExtractor.

Lemma findall_lstrip s : findall_price (lstrip s) = findall_price s.
Proof.
  induction s as [|c s IH]; simpl; [reflexivity|].
  destruct (is_space c) eqn:E; [|reflexivity].
  rewrite IH. symmetry. apply findall_price_other. now apply space_not_digit.
Qed.

Lemma findall_scan_rstrip s : forall tok,
  findall_scan tok (rstrip s) = findall_scan tok s.
Proof.
  induction s as [|c s IH]; intros tok; [reflexivity|].
  cbn [rstrip]. destruct (rstrip s) as [|d r] eqn:E.
  - destruct (is_space c) eqn:Hc.
    + pose proof (space_not_token_char _ Hc) as Ht.
      pose proof (space_not_digit _ Hc) as Hd.
      destruct tok as [t|]; simpl; rewrite ?Ht, ?Hd, <- IH; reflexivity.
    + destruct tok as [t|]; simpl.
      * destruct (is_token_char c); rewrite <- IH; reflexivity.
      * destruct (is_digit c); rewrite <- IH; reflexivity.
  - destruct tok as [t|]; cbn [findall_scan].
    + destruct (is_token_char c); rewrite <- IH; reflexivity.
    + destruct (is_digit c); rewrite <- IH; reflexivity.
Qed.

(** Stripping a text does not change the candidates found in it. *)
Lemma findall_strip s : findall_price (strip s) = findall_price s.
Proof.
  unfold strip, findall_price. rewrite findall_scan_rstrip.
  apply findall_lstrip.
Qed.

Lemma parse_price_text_strip t price :
  _parse_price_text (strip t) = Ok price <-> _parse_price_text t = Ok price.
Proof.
  unfold _parse_price_text. rewrite findall_strip.
  destruct (findall_price t) as [|c l]; [split; discriminate|].
  destruct (float _); split; congruence.
Qed.

Lemma strip_keeps_digit t :
  any_char is_digit t = true -> nonempty (strip t) = true.
Proof.
  intros H. destruct (strip t) eqn:E; [|reflexivity].
  assert (Hnil : findall_price t = []) by (rewrite <- findall_strip, E; reflexivity).
  apply findall_price_nil in Hnil. congruence.
Qed.


Lemma find_all_digit_strings_digits soup :
  Forall (fun t => any_char is_digit t = true) (find_all_digit_strings soup).
Proof.
  apply Forall_forall. intros t Ht. unfold find_all_digit_strings in Ht.
  now apply list_elem_of_filter in Ht as [Ht _].
Qed.



End GenericExtractor.

(** ** Comparisons on floats *)

Section FloatFacts.

Lemma leb_le x y : PyFloat.leb x y = true <-> (x <= y)%Qc.
Proof.
  unfold PyFloat.leb. rewrite Qcle_alt.
  destruct (x ?= y)%Qc; split; congruence.
Qed.

Lemma minus_le_0 x y : (x - y <= 0)%Qc <-> (x <= y)%Qc.
Proof.
  rewrite (Qcle_minus_iff (x - y) 0), (Qcle_minus_iff x y).
  now replace (0 + - (x - y))%Qc with (y + - x)%Qc by ring.
Qed.

(** Two finite floats that compare equal are the same float. *)
Lemma compare_finite_eq s1 m1 e1 s2 m2 e2 :
  SFcompare (S754_finite s1 m1 e1) (S754_finite s2 m2 e2) = Some Eq ->
  S754_finite s1 m1 e1 = S754_finite s2 m2 e2.
Proof.
  cbn. intros H.
  assert (s1 = s2 /\ (e1 ?= e2)%Z = Eq /\ (m1 ?= m2)%positive = Eq)
    as (-> & He & Hm).
  { unfold Pos.compare.
    destruct s1, s2; try discriminate.
    all: destruct (e1 ?= e2)%Z; try discriminate.
    all: destruct (Pos.compare_cont Eq m1 m2); try discriminate.
    all: auto. }
  apply Z.compare_eq in He. apply Pos.compare_eq in Hm. now subst.
Qed.

(** Python's [max] of a float and a finite float is the larger of the
    two. *)
Lemma max_is_larger a s m e :
  Binary64.max a (S754_finite s m e) = larger a (S754_finite s m e).
Proof.
  unfold Binary64.max, larger, Binary64.ltb, Binary64.leb, SFltb, SFleb.
  destruct a as [sa|sa| |sa ma ea].
  - cbn. now destruct s.
  - cbn. now destruct sa.
  - reflexivity.
  - destruct (SFcompare (S754_finite sa ma ea) (S754_finite s m e))
      as [[| |]|] eqn:E; try reflexivity.
    now apply compare_finite_eq.
Qed.

End FloatFacts.

(** ** The trend of a price history *)

Section Trend.
Import Storage.

#[local] Instance newer_first_trans : Transitive newer_first.
Proof. unfold newer_first. intros a b c ? ?. lia. Qed.

#[local] Instance newer_first_total : Total newer_first.
Proof. unfold newer_first. intros a b. lia. Qed.

(** The history of a product holds its rows, all of them and nothing
    else, the newest first. *)
Lemma get_price_history_newest_first db product_id :
  StronglySorted newer_first (get_price_history db product_id None)
  /\ get_price_history db product_id None
     ≡ₚ filter (fun r => Storage.product_id r = product_id) (price_history db).
Proof.
  unfold get_price_history. split.
  - apply StronglySorted_merge_sort; apply _.
  - apply merge_sort_Permutation.
Qed.

(** A [LIMIT] that is not negative keeps the first rows. *)
Lemma get_price_history_limit db product_id n :
  (0 <= n)%Z ->
  get_price_history db product_id (Some n)
  = take (Z.to_nat n) (get_price_history db product_id None).
Proof.
  intros Hn. unfold get_price_history.
  destruct (n <? 0)%Z eqn:E; [lia | reflexivity].
Qed.

(** The special case of the code for an oldest price of zero gives
    what the general formula gives there. *)
Lemma threshold_is_trend_threshold first :
  (if Binary64.eqb first Binary64.zero then Binary64.of_Q 0.01
   else Binary64.max (Binary64.mul (Binary64.abs first) (Binary64.of_Q 0.01))
                     (Binary64.of_Q 0.01))
  = trend_threshold first.
Proof.
  unfold trend_threshold.
  change (Binary64.of_Q 0.01) with (S754_finite false 5764607523034235 (-59)).
  rewrite max_is_larger.
  destruct first as [s|s| |s m e]; try reflexivity.
  all: unfold Binary64.eqb, SFeqb, Binary64.zero; cbn [SFcompare].
  all: destruct s; reflexivity.
Qed.

Lemma trend_of_window db product_id window :
  let w := if (window <=? 1)%Z then 2%Z else window in
  let recent := take (Z.to_nat w) (get_price_history db product_id None) in
  ((length recent < 2)%nat ->
   get_price_trend_direction db product_id window = Some "stable")
  /\ (forall newest oldest,
         (2 <= length recent)%nat ->
         head recent = Some newest ->
         last recent = Some oldest ->
         get_price_trend_direction db product_id window
         = Some (classify
                   (Binary64.sub (Binary64.of_Qc (price newest))
                                 (Binary64.of_Qc (price oldest)))
                   (trend_threshold (Binary64.of_Qc (price oldest))))).
Proof.
  intros w recent. unfold get_price_trend_direction. fold w.
  rewrite get_price_history_limit by (subst w; destruct (window <=? 1)%Z eqn:E; lia).
  fold recent. split.
  - intros Hlen. apply Nat.ltb_lt in Hlen. now rewrite Hlen.
  - intros newest oldest Hlen Hnew Hold.
    apply Nat.ltb_ge in Hlen. rewrite Hlen.
    rewrite head_reverse, last_reverse, Hnew, Hold.
    rewrite threshold_is_trend_threshold. unfold classify.
    destruct (Binary64.ltb _ _); [reflexivity|]. now destruct (Binary64.ltb _ _).
Qed.

(** C3: [get_price_trend_direction] clamps a window of 1 or less to 2
    and looks at the most recent [window] snapshots of the product.
    With fewer than 2 of them the answer is "stable"; otherwise, with
    delta = newest price - oldest price of that window and
    threshold = max(|oldest price| * 0.01, 0.01), it is "up" when
    delta > threshold, "down" when delta < - threshold and "stable"
    otherwise.  The prices are floats, and the difference, the product
    and the comparisons are those of binary64 arithmetic.  For the
    chronological histories 100, 100.5, 100.9 and 100, 105 and 100, 94
    with window 5 it answers "stable", "up" and "down". *)
Theorem C3_trend_direction :
  (forall db product_id window,
      let w := if (window <=? 1)%Z then 2%Z else window in
      let history := get_price_history db product_id None in
      let recent := take (Z.to_nat w) history in
      StronglySorted newer_first history
      /\ history
         ≡ₚ filter (fun r => Storage.product_id r = product_id) (price_history db)
      /\ ((length recent < 2)%nat ->
          get_price_trend_direction db product_id window = Some "stable")
      /\ (forall newest oldest,
             (2 <= length recent)%nat ->
             head recent = Some newest ->
             last recent = Some oldest ->
             let newest_price := Binary64.of_Qc (price newest) in
             let oldest_price := Binary64.of_Qc (price oldest) in
             let delta := Binary64.sub newest_price oldest_price in
             let threshold :=
               larger (Binary64.mul (Binary64.abs oldest_price)
                                    (Binary64.of_Q 0.01))
                      (Binary64.of_Q 0.01) in
             get_price_trend_direction db product_id window
             = Some (if Binary64.ltb threshold delta then "up"
                     else if Binary64.ltb delta (Binary64.opp threshold)
                          then "down"
                          else "stable")))
  /\ get_price_trend_direction
       (Examples.chronological 1 [100; 100.5; 100.9]%Q) 1 5 = Some "stable"
  /\ get_price_trend_direction
       (Examples.chronological 1 [100; 105]%Q) 1 5 = Some "up"
  /\ get_price_trend_direction
       (Examples.chronological 1 [100; 94]%Q) 1 5 = Some "down".
Proof.
  split; [|repeat split; vm_compute; reflexivity].
  intros db product_id window w history recent.
  destruct (get_price_history_newest_first db product_id) as [Hsorted Hperm].
  destruct (trend_of_window db product_id window) as [Hfew Hmany].
  repeat split; try assumption.
Qed.

(** The witness takes histories at the edge of the band: from 7 to 7.07
    and from 0.29 to 0.30 the change is one percent, or 0.01, in
    decimal, and more than the band in binary64, as in the code. *)
Lemma C3_trend_direction_witness :
  get_price_trend_direction
    (Examples.chronological 4 [250; 240; 252; 251; 249; 247; 246]%Q) 4 1
  = Some "stable"
  /\ get_price_trend_direction
       (Examples.chronological 4 [250; 240; 252; 251; 249; 247; 246]%Q) 4 5
     = Some "down"
  /\ get_price_trend_direction (Examples.chronological 4 [7; 7.07]%Q) 4 5
     = Some "up"
  /\ get_price_trend_direction (Examples.chronological 4 [0.29; 0.30]%Q) 4 5
     = Some "up".
Proof.
  split; [|split; [|split]].
  - destruct (proj1 C3_trend_direction
                (Examples.chronological 4 [250; 240; 252; 251; 249; 247; 246]%Q)
                4%Z 1%Z) as (_ & _ & _ & Hmany).
    erewrite Hmany; [|vm_compute; lia|reflexivity|reflexivity].
    vm_compute. reflexivity.
  - destruct (proj1 C3_trend_direction
                (Examples.chronological 4 [250; 240; 252; 251; 249; 247; 246]%Q)
                4%Z 5%Z) as (_ & _ & _ & Hmany).
    erewrite Hmany; [|vm_compute; lia|reflexivity|reflexivity].
    vm_compute. reflexivity.
  - destruct (proj1 C3_trend_direction (Examples.chronological 4 [7; 7.07]%Q)
                4%Z 5%Z) as (_ & _ & _ & Hmany).
    erewrite Hmany; [|vm_compute; lia|reflexivity|reflexivity].
    vm_compute. reflexivity.
  - destruct (proj1 C3_trend_direction (Examples.chronological 4 [0.29; 0.30]%Q)
                4%Z 5%Z) as (_ & _ & _ & Hmany).
    erewrite Hmany; [|vm_compute; lia|reflexivity|reflexivity].
    vm_compute. reflexivity.
Defined.

End Trend.

(** ** The notification gate *)

Section Gate.
Import World Notifier.

Lemma can_send_eq key o s :
  _can_send key o s =
    match _LAST_NOTIFIED s !! key with
    | None => (true, s)
    | Some last =>
        ((timedelta_minutes _COOLDOWN_MINUTES <=? clock o (clock_reads s) - last)%Z,
         snd (utcnow o s))
    end.
Proof.
  unfold _can_send, bind, get_state. now destruct (_LAST_NOTIFIED s !! key).
Qed.

(** The gate allows exactly when nothing is recorded for the key, or
    the clock stands at least the cooldown after what is recorded. *)
Lemma can_send_iff key o s :
  fst (_can_send key o s) = true <->
  (_LAST_NOTIFIED s !! key = None
   \/ exists last,
        _LAST_NOTIFIED s !! key = Some last
        /\ (timedelta_minutes 60 <= clock o (clock_reads s) - last)%Z).
Proof.
  rewrite can_send_eq. destruct (_LAST_NOTIFIED s !! key) as [last|]; cbn [fst].
  - rewrite Z.leb_le. split.
    + intros H. right. now exists last.
    + intros [H | (l & [= ->] & H)]; [discriminate | exact H].
  - split; [now left | reflexivity].
Qed.

(** The gate only looks: it records nothing. *)
Lemma can_send_frame key o s :
  _LAST_NOTIFIED (snd (_can_send key o s)) = _LAST_NOTIFIED s
  /\ db (snd (_can_send key o s)) = db s
  /\ http_requests (snd (_can_send key o s)) = http_requests s
  /\ config_loads (snd (_can_send key o s)) = config_loads s
  /\ smtp_sessions (snd (_can_send key o s)) = smtp_sessions s
  /\ journal (snd (_can_send key o s)) = journal s.
Proof.
  rewrite can_send_eq. now destruct (_LAST_NOTIFIED s !! key).
Qed.

(** What [send_price_drop_email] returns and what it leaves behind, by
    the three things it depends on: the gate, the configuration and the
    SMTP session. *)
Lemma send_price_drop_email_cases user_email name url cur tgt path o s r s' :
  send_price_drop_email user_email name url cur tgt path o s = (r, s') ->
  let key := (user_email, url) in
  let allowed := fst (_can_send key o s) in
  let complete :=
    config_complete (load_smtp_config o (config_loads s) path) user_email in
  let delivered := smtp_delivers o (smtp_sessions s) in
  r = allowed && complete && delivered
  /\ db s' = db s
  /\ http_requests s' = http_requests s
  /\ (r = true ->
      _LAST_NOTIFIED s' = <[key := clock o (pred (clock_reads s'))]> (_LAST_NOTIFIED s))
  /\ (r = false -> _LAST_NOTIFIED s' = _LAST_NOTIFIED s)
  /\ journal s' =
       (journal s ++
        if allowed && complete then [SmtpSession user_email url delivered]
        else [])%list.
Proof.
  intros Hsend key allowed complete delivered.
  subst allowed complete delivered.
  unfold send_price_drop_email, bind in Hsend. cbv zeta in Hsend. fold key in Hsend.
  pose proof (can_send_frame key o s) as (HL & Hdb & Hhttp & Hcfg & Hsmtp & Hj).
  destruct (_can_send key o s) as [allowed s1]. cbn [fst snd] in *.
  destruct allowed; cbn [negb andb] in *.
  - unfold _load_smtp_config in Hsend. rewrite Hcfg in Hsend.
    destruct (config_complete _ user_email); cbn [negb andb] in *.
    + unfold utcnow, smtp_session in Hsend. cbn in Hsend. rewrite Hsmtp in Hsend.
      destruct (smtp_delivers o (smtp_sessions s)); cbn in Hsend;
        injection Hsend as <- <-; cbn; rewrite ?HL, ?Hj;
        repeat split; auto; discriminate.
    + injection Hsend as <- <-. cbn. rewrite HL, Hj, app_nil_r.
      repeat split; auto; discriminate.
  - injection Hsend as <- <-. rewrite HL, Hj, app_nil_r.
    repeat split; auto; discriminate.
Qed.

Lemma config_complete_false cfg user_email :
  config_complete cfg user_email = false <->
  (truthy (host cfg) = false \/ port cfg = 0%Z \/ truthy (user cfg) = false
   \/ truthy (password cfg) = false \/ truthy (sender cfg) = false
   \/ user_email = EmptyString).
Proof.
  unfold config_complete. rewrite !andb_false_iff, negb_false_iff, Z.eqb_eq.
  assert (Hne : nonempty user_email = false <-> user_email = EmptyString).
  { destruct user_email; simpl; split; congruence. }
  rewrite Hne. tauto.
Qed.

(** C6: the gate is keyed by (recipient, product URL) and allows
    sending exactly when no send is recorded for the key or at least 60
    minutes have passed since the recorded one.  So the first check of
    a new key is allowed; once a send is recorded, a check less than 60
    minutes later is refused and a check 60 minutes later or more is
    allowed again; and other keys are not touched by the record. *)
Theorem C6_notification_gate (o : Outside) :
  (forall s recipient url,
      fst (_can_send (recipient, url) o s) = true <->
      (_LAST_NOTIFIED s !! (recipient, url) = None
       \/ exists last,
            _LAST_NOTIFIED s !! (recipient, url) = Some last
            /\ (timedelta_minutes 60 <= clock o (clock_reads s) - last)%Z))
  /\ timedelta_minutes 60 = (60 * 60 * 1000000)%Z
  /\ (forall s recipient url,
         _LAST_NOTIFIED s !! (recipient, url) = None ->
         fst (_can_send (recipient, url) o s) = true)
  /\ (forall s s' recipient name url cur tgt path,
         send_price_drop_email recipient name url cur tgt path o s = (true, s') ->
         let sent_at := clock o (pred (clock_reads s')) in
         fst (_can_send (recipient, url) o s) = true
         /\ _LAST_NOTIFIED s' !! (recipient, url) = Some sent_at
         /\ (forall key, key <> (recipient, url) ->
                         _LAST_NOTIFIED s' !! key = _LAST_NOTIFIED s !! key)
         /\ (forall s2,
                _LAST_NOTIFIED s2 !! (recipient, url) = Some sent_at ->
                ((clock o (clock_reads s2) - sent_at < timedelta_minutes 60)%Z ->
                 fst (_can_send (recipient, url) o s2) = false)
                /\ ((timedelta_minutes 60 <= clock o (clock_reads s2) - sent_at)%Z ->
                    fst (_can_send (recipient, url) o s2) = true))).
Proof.
  split; [intros; apply can_send_iff|]. split; [reflexivity|]. split.
  - intros s recipient url Hnew. apply can_send_iff. now left.
  - intros s s' recipient name url cur tgt path Hsend sent_at.
    destruct (send_price_drop_email_cases _ _ _ _ _ _ _ _ _ _ Hsend)
      as (Hr & _ & _ & Hrec & _ & _).
    specialize (Hrec eq_refl). symmetry in Hr.
    apply andb_true_iff in Hr as [[Hallowed _]%andb_true_iff _].
    split; [exact Hallowed|]. split; [|split].
    + rewrite Hrec. apply lookup_insert_eq.
    + intros key Hkey. rewrite Hrec. now apply lookup_insert_ne.
    + intros s2 Hs2. rewrite can_send_eq, Hs2. cbn [fst]. split.
      * intros Hlt. apply Z.leb_gt. exact Hlt.
      * intros Hge. apply Z.leb_le. exact Hge.
Qed.

Lemma C6_notification_gate_witness :
  let key := ("owner@example.org", "https://shop.example/a") in
  fst (_can_send key Examples.outside Examples.start) = true
  /\ fst (_can_send key Examples.outside Examples.after_alert) = false
  /\ fst (_can_send key Examples.outside
            (Examples.at_reading 4 Examples.after_alert)) = true.
Proof.
  intros key.
  destruct (C6_notification_gate Examples.outside) as (_ & _ & Hnew & Hsent).
  split; [apply Hnew; reflexivity|].
  destruct (Hsent Examples.start Examples.after_alert "owner@example.org"
              "Demo Product" "https://shop.example/a" (Q2Qc 1234) (Q2Qc 1500)
              None eq_refl) as (_ & Hrec & _ & Hlater).
  split.
  - apply (Hlater Examples.after_alert); [exact Hrec | vm_compute; reflexivity].
  - apply (Hlater (Examples.at_reading 4 Examples.after_alert));
      [exact Hrec | vm_compute; discriminate].
Defined.

(** C10: [send_price_drop_email] writes the cooldown entry of
    (recipient, product URL) exactly when it returns true.  It returns
    false, and leaves the cooldown map as it was, when the gate refuses,
    when a field of the SMTP configuration or the recipient is missing,
    and when the SMTP session fails; so a failed or skipped send starts
    no cooldown, and where the gate allowed the failed attempt it allows
    every later attempt for the same key as well. *)
Theorem C10_cooldown_written_iff_sent
    user_email name url cur tgt path (o : Outside) (s s' : State) (r : bool) :
  send_price_drop_email user_email name url cur tgt path o s = (r, s') ->
  let key := (user_email, url) in
  let cfg := load_smtp_config o (config_loads s) path in
  (r = true ->
   _LAST_NOTIFIED s' = <[key := clock o (pred (clock_reads s'))]> (_LAST_NOTIFIED s))
  /\ (r = false -> _LAST_NOTIFIED s' = _LAST_NOTIFIED s)
  /\ (r = false <->
      (fst (_can_send key o s) = false
       \/ (truthy (host cfg) = false \/ port cfg = 0%Z
           \/ truthy (user cfg) = false \/ truthy (password cfg) = false
           \/ truthy (sender cfg) = false \/ user_email = EmptyString)
       \/ smtp_delivers o (smtp_sessions s) = false))
  /\ (r = false ->
      fst (_can_send key o s) = true ->
      forall s2,
        _LAST_NOTIFIED s2 = _LAST_NOTIFIED s' ->
        (clock o (clock_reads s) <= clock o (clock_reads s2))%Z ->
        fst (_can_send key o s2) = true).
Proof.
  intros Hsend key cfg.
  destruct (send_price_drop_email_cases _ _ _ _ _ _ _ _ _ _ Hsend)
    as (Hr & _ & _ & Hrec & Hkeep & _).
  fold key cfg in Hr, Hrec. split; [exact Hrec|]. split; [exact Hkeep|]. split.
  - rewrite Hr, !andb_false_iff, config_complete_false. tauto.
  - intros Hfalse Hallowed s2 Hsame Hclock.
    rewrite (Hkeep Hfalse) in Hsame.
    apply can_send_iff in Hallowed. apply can_send_iff. rewrite Hsame.
    destruct Hallowed as [Hnone | (last & Hlast & Hge)]; [now left|].
    right. exists last. split; [exact Hlast | lia].
Qed.

Lemma C10_cooldown_written_iff_sent_witness :
  let key := ("owner@example.org", "https://shop.example/a") in
  let failed :=
    Notifier.send_price_drop_email "owner@example.org" "Demo Product"
      "https://shop.example/a" (Q2Qc 1234) (Q2Qc 1500) None
      Examples.outside (Examples.failing_session Examples.start) in
  fst failed = false
  /\ _LAST_NOTIFIED (snd failed) = ∅
  /\ fst (_can_send key Examples.outside (snd failed)) = true.
Proof.
  intros key failed.
  destruct (C10_cooldown_written_iff_sent "owner@example.org" "Demo Product"
              "https://shop.example/a" (Q2Qc 1234) (Q2Qc 1500) None
              Examples.outside (Examples.failing_session Examples.start)
              (snd failed) (fst failed) eq_refl)
    as (_ & Hkeep & _ & Hlater).
  split; [reflexivity|]. split.
  - apply (Hkeep eq_refl).
  - apply (Hlater eq_refl); [reflexivity | reflexivity | vm_compute; discriminate].
Defined.

End Gate.

(** ** The check cycle *)

Section Cycle.
Import World Storage Scheduler.

(** The notifier does not call the store. *)
Lemma send_price_drop_email_store user_email name url cur tgt path o s r s' :
  Notifier.send_price_drop_email user_email name url cur tgt path o s = (r, s') ->
  store_calls s' = store_calls s.
Proof.
  unfold Notifier.send_price_drop_email, Notifier._can_send, _load_smtp_config,
    smtp_session, set_last_notified, utcnow, get_state, bind, ret.
  cbn.
  destruct (_LAST_NOTIFIED s !! (user_email, url)) as [last|]; cbn;
    [destruct (_ <=? _)%Z; cbn; [|intros [= <- <-]; reflexivity]|];
    (destruct (Notifier.config_complete _ _); cbn;
     [|intros [= <- <-]; reflexivity]);
    (destruct (smtp_delivers _ _); cbn; intros [= <- <-]; reflexivity).
Qed.

(** The notifier leaves the database and the request count alone, and
    adds at most the record of its SMTP session to the journal. *)
Lemma send_price_drop_email_frame user_email name url cur tgt path o s r s' :
  Notifier.send_price_drop_email user_email name url cur tgt path o s = (r, s') ->
  db s' = db s
  /\ http_requests s' = http_requests s
  /\ store_calls s' = store_calls s
  /\ exists mail,
       journal s' = (journal s ++ mail)%list
       /\ Forall (fun e => is_snapshot e = false) mail.
Proof.
  intros Hsend.
  destruct (send_price_drop_email_cases _ _ _ _ _ _ _ _ _ _ Hsend)
    as (_ & Hdb & Hhttp & _ & _ & Hj).
  split; [exact Hdb|]. split; [exact Hhttp|].
  split; [exact (send_price_drop_email_store _ _ _ _ _ _ _ _ _ _ Hsend)|].
  eexists. split; [exact Hj|]. destruct (_ && _); repeat constructor.
Qed.

Lemma get_product_info_eq (p : Product) o s :
  Fetch.get_product_info (product_url p) (site_of p) o s
  = (scrape_of o (http_requests s) p, snd (http_get (product_url p) o s)).
Proof.
  unfold Fetch.get_product_info, Fetch.fetch_product_page, scrape_of,
    bind, http_get, parse_html, ret.
  cbn [snd]. destruct (requests_get o (http_requests s) (product_url p));
    try reflexivity.
  now destruct (Scraper.parse_product_details _ _).
Qed.

(** One turn of the loop: the product is scraped once; a failed scrape
    changes nothing but the journal, and the loop goes on; a successful
    one asks the store for the insertion of the snapshot, and when the
    store answers the row is in the price history whatever the
    comparison and the notifier do afterwards; when the store does not
    answer, the exception leaves the loop with nothing done beyond the
    announcement of the product. *)
Lemma check_product_step recipient c p o s r s' :
  check_product recipient c p o s = (r, s') ->
  http_requests s' = S (http_requests s)
  /\ products (db s') = products (db s)
  /\ match scrape_of o (http_requests s) p with
     | Err _ =>
         store_calls s' = store_calls s
         /\ db s' = db s
         /\ _LAST_NOTIFIED s' = _LAST_NOTIFIED s
         /\ exists c',
              r = Ok c'
              /\ processed c' = S (processed c)
              /\ successful_scrapes c' = successful_scrapes c
              /\ notifications_sent c' = notifications_sent c
              /\ exists seg,
                   journal s' = (journal s ++ seg)%list
                   /\ product_trace o (http_requests s) p seg
     | Ok info =>
         store_calls s' = S (store_calls s)
         /\ if sqlite_answers o (store_calls s) then
              db s' = Storage.add_price_snapshot (db s) (id p)
                        (Scraper.current_price info) (clock o (clock_reads s))
              /\ exists c',
                   r = Ok c'
                   /\ processed c' = S (processed c)
                   /\ successful_scrapes c' = S (successful_scrapes c)
                   /\ exists seg,
                        journal s' = (journal s ++ seg)%list
                        /\ product_trace o (http_requests s) p seg
            else
              r = Err Sqlite3Error
              /\ db s' = db s
              /\ _LAST_NOTIFIED s' = _LAST_NOTIFIED s
              /\ smtp_sessions s' = smtp_sessions s
              /\ config_loads s' = config_loads s
              /\ journal s'
                 = (journal s
                    ++ [Printed (CheckingProduct (id p) (product_url p))])%list
     end.
Proof.
  unfold check_product. fold (site_of p). unfold bind at 1 2.
  unfold print at 1, emit at 1. rewrite get_product_info_eq.
  unfold product_trace. cbn [snd http_requests http_get].
  destruct (scrape_of o (http_requests s) p) as [info|[exc|]].
  - (* the scrape succeeded *)
    unfold Scheduler.add_price_snapshot, bind, utcnow, sqlite_call, get_state,
      set_db, print, emit.
    cbn -[Notifier.send_price_drop_email Storage.add_price_snapshot].
    destruct (sqlite_answers o (store_calls s)).
    2:{ unfold ret. intros [= <- <-]. cbn. repeat split; auto. }
    cbn -[Notifier.send_price_drop_email Storage.add_price_snapshot].
    set (price := Scraper.current_price info).
    set (target := target_price p).
    assert (Hle : PyFloat.leb (price - target)%Qc (Q2Qc 0) = true
                  <-> (price <= target)%Qc)
      by (rewrite leb_le; apply minus_le_0).
    destruct (PyFloat.leb (price - target)%Qc (Q2Qc 0)) eqn:Hbelow.
    + assert (Hmet : (price <= target)%Qc) by now apply Hle.
      destruct (truthy recipient) eqn:Hrcpt; cbn [andb negb].
      * match goal with
        | |- context [Notifier.send_price_drop_email ?a ?b ?c ?d ?e ?f ?g ?h] =>
            destruct (Notifier.send_price_drop_email a b c d e f g h)
              as [sent s1] eqn:Hsend
        end.
        destruct (send_price_drop_email_frame _ _ _ _ _ _ _ _ _ _ Hsend)
          as (Hdb & Hhttp & Hstore & mail & Hj & Hmail).
        cbn [db http_requests store_calls journal] in Hdb, Hhttp, Hstore, Hj.
        destruct sent; unfold ret; intros [= <- <-]; cbn;
          rewrite Hdb, Hhttp, Hstore, Hj; repeat split; auto;
          eexists; (split; [reflexivity|]); repeat split; auto;
          eexists; (split; [rewrite <- !app_assoc; reflexivity|]);
          eexists; (split; [reflexivity|]);
          (split; [apply Forall_app; split; [exact Hmail | repeat constructor]|]);
          (split; [intros Habs; destruct mail; discriminate Habs
                  | intros Habs; now destruct Habs]).
      * unfold ret. intros [= <- <-]. cbn. repeat split; auto.
        eexists. split; [reflexivity|]. repeat split; auto.
        eexists. split; [rewrite <- !app_assoc; reflexivity|].
        eexists. split; [reflexivity|]. split; [repeat constructor|].
        split; [discriminate | intros Habs; now destruct Habs].
    + assert (Hnot : ~ (price <= target)%Qc) by (rewrite <- Hle; congruence).
      cbn [andb]. unfold ret. intros [= <- <-]. cbn. repeat split; auto.
      eexists. split; [reflexivity|]. repeat split; auto.
      eexists. split; [rewrite <- !app_assoc; reflexivity|].
      exists []. split; [reflexivity|]. split; [constructor|]. tauto.
  - (* ScraperError *)
    unfold bind, print, emit, ret. intros [= <- <-]. cbn. repeat split; auto.
    eexists. split; [reflexivity|]. repeat split; auto.
    eexists. split; [rewrite <- app_assoc; reflexivity | reflexivity].
  - (* any other exception *)
    unfold bind, print, emit, ret. intros [= <- <-]. cbn. repeat split; auto.
    eexists. split; [reflexivity|]. repeat split; auto.
    eexists. split; [rewrite <- app_assoc; reflexivity | reflexivity].
Qed.

Lemma store_answers_next o s s1 n :
  store_answers o s (S n) ->
  (store_calls s1 <= S (store_calls s))%nat ->
  (store_calls s <= store_calls s1)%nat ->
  store_answers o s1 n.
Proof. intros H Hle Hge k Hk. apply H. lia. Qed.

(** The loop over the products, when the store answers. *)
Lemma for_each_run recipient products : forall c o s r s',
  store_answers o s (length products) ->
  for_each (check_product recipient) products c o s = (r, s') ->
  exists c',
    r = Ok c'
    /\ processed c' = (processed c + length products)%nat
    /\ http_requests s' = (http_requests s + length products)%nat
    /\ Storage.products (db s') = Storage.products (db s)
    /\ successful_scrapes c'
       = (successful_scrapes c
          + length (snapshots_due o (http_requests s) products))%nat
    /\ observed <$> price_history (db s')
       = ((observed <$> price_history (db s))
          ++ snapshots_due o (http_requests s) products)%list
    /\ store_calls s'
       = (store_calls s
          + length (snapshots_due o (http_requests s) products))%nat
    /\ exists segs,
         journal s' = (journal s ++ concat segs)%list
         /\ cycle_trace o (http_requests s) products segs.
Proof.
  induction products as [|p products IH]; intros c o s r s' Hstore.
  - cbn. unfold ret. intros [= <- <-]. exists c.
    rewrite !Nat.add_0_r, app_nil_r. repeat split; auto.
    exists []. cbn. now rewrite app_nil_r.
  - cbn [for_each]. unfold bind.
    destruct (check_product recipient c p o s) as [r1 s1] eqn:Hstep.
    intros Hrest.
    destruct (check_product_step _ _ _ _ _ _ _ Hstep)
      as (Hhttp & Hprods & Hscrape).
    assert (Hfirst : sqlite_answers o (store_calls s) = true)
      by (apply Hstore; cbn [length]; lia).
    rewrite Hfirst in Hscrape.
    assert (Hnext : exists c1,
               r1 = Ok c1
               /\ processed c1 = S (processed c)
               /\ (store_calls s <= store_calls s1 <= S (store_calls s))%nat
               /\ exists seg,
                    journal s1 = (journal s ++ seg)%list
                    /\ product_trace o (http_requests s) p seg).
    { destruct (scrape_of o (http_requests s) p) as [info|exc].
      - destruct Hscrape as (Hcalls & _ & c1 & -> & Hproc & _ & Hseg).
        exists c1. repeat split; auto; lia.
      - destruct Hscrape as (Hcalls & _ & _ & c1 & -> & Hproc & _ & _ & Hseg).
        exists c1. repeat split; auto; lia. }
    destruct Hnext as (c1 & -> & Hproc & Hcalls & seg & Hj & Hseg).
    destruct (IH _ _ _ _ _ (store_answers_next _ _ _ _ Hstore (proj2 Hcalls)
                              (proj1 Hcalls)) Hrest)
      as (c' & -> & Hproc' & Hhttp' & Hprods' & Hsucc' & Hhist' & Hcalls'
          & segs & Hj' & Hsegs).
    rewrite Hhttp in Hhttp', Hsucc', Hhist', Hcalls', Hsegs.
    exists c'. split; [reflexivity|].
    cbn [length snapshots_due].
    split; [lia|]. split; [lia|]. split; [congruence|].
    assert (Hboth :
      successful_scrapes c'
      = (successful_scrapes c
         + length match scrape_of o (http_requests s) p with
                  | Ok info =>
                      (id p, Scraper.current_price info)
                        :: snapshots_due o (S (http_requests s)) products
                  | Err _ => snapshots_due o (S (http_requests s)) products
                  end)%nat
      /\ observed <$> price_history (db s')
         = ((observed <$> price_history (db s))
            ++ match scrape_of o (http_requests s) p with
               | Ok info =>
                   (id p, Scraper.current_price info)
                     :: snapshots_due o (S (http_requests s)) products
               | Err _ => snapshots_due o (S (http_requests s)) products
               end)%list
      /\ store_calls s'
         = (store_calls s
            + length match scrape_of o (http_requests s) p with
                     | Ok info =>
                         (id p, Scraper.current_price info)
                           :: snapshots_due o (S (http_requests s)) products
                     | Err _ => snapshots_due o (S (http_requests s)) products
                     end)%nat).
    { destruct (scrape_of o (http_requests s) p) as [info|exc].
      - destruct Hscrape as (Hsc & Hdb & c2 & [= <-] & _ & Hsucc & _).
        rewrite Hdb in Hhist'.
        cbn in Hhist'. rewrite fmap_app in Hhist'. cbn in Hhist'.
        rewrite <- app_assoc in Hhist'. cbn [length].
        split; [lia|]. split; [exact Hhist' | lia].
      - destruct Hscrape as (Hsc & Hdb & _ & c2 & [= <-] & _ & Hsucc & _).
        rewrite Hdb in Hhist'.
        split; [lia|]. split; [exact Hhist' | lia]. }
    destruct Hboth as (Hsucc & Hhist & Hsc).
    split; [exact Hsucc|]. split; [exact Hhist|]. split; [exact Hsc|].
    exists (seg :: segs). cbn [concat cycle_trace].
    rewrite Hj', Hj, <- app_assoc. auto.
Qed.

(** The loop over the products, whatever the store does: the products
    table stays, no product is requested twice, and the exception of
    the store is the only way out of the loop before its end. *)
Lemma for_each_any recipient products : forall c o s r s',
  for_each (check_product recipient) products c o s = (r, s') ->
  Storage.products (db s') = Storage.products (db s)
  /\ (http_requests s <= http_requests s'
      <= http_requests s + length products)%nat
  /\ (store_calls s <= store_calls s' <= store_calls s + length products)%nat
  /\ (r = Err Sqlite3Error ->
      exists k, (store_calls s <= k < store_calls s')%nat
                /\ sqlite_answers o k = false).
Proof.
  induction products as [|p products IH]; intros c o s r s'.
  - cbn. unfold ret. intros [= <- <-]. repeat split; try lia. discriminate.
  - cbn [for_each]. unfold bind.
    destruct (check_product recipient c p o s) as [r1 s1] eqn:Hstep.
    destruct (check_product_step _ _ _ _ _ _ _ Hstep)
      as (Hhttp & Hprods & Hscrape).
    assert (Hone : (store_calls s <= store_calls s1 <= S (store_calls s))%nat
                   /\ (r1 = Err Sqlite3Error ->
                       store_calls s1 = S (store_calls s)
                       /\ sqlite_answers o (store_calls s) = false)).
    { destruct (scrape_of o (http_requests s) p) as [info|exc].
      - destruct Hscrape as (Hsc & Hcase). split; [lia|].
        destruct (sqlite_answers o (store_calls s)); [|auto].
        destruct Hcase as (_ & c1 & -> & _). discriminate.
      - destruct Hscrape as (Hsc & _ & _ & c1 & -> & _). split; [lia|].
        discriminate. }
    destruct Hone as [Hsc Herr].
    destruct r1 as [c1|[]].
    + intros Hrest. destruct (IH _ _ _ _ _ Hrest) as (Hp' & Hh' & Hs' & He').
      cbn [length]. repeat split; try congruence; try lia.
      intros Hr. destruct (He' Hr) as (k & Hk & Hfalse).
      exists k. split; [lia | exact Hfalse].
    + unfold ret. intros [= <- <-]. cbn [length].
      destruct (Herr eq_refl) as [Hs1 Hfalse].
      repeat split; try assumption; try lia.
      intros _. exists (store_calls s). split; [lia | exact Hfalse].
Qed.



Lemma getenv_or_state a b o s : snd (getenv_or a b o s) = s.
Proof.
  unfold getenv_or, bind, os_getenv, ret. now destruct (truthy (getenv o a)).
Qed.

Lemma recipient_of_environment o s :
  fst (getenv_or "ALERT_RECIPIENT_EMAIL" "ALERT_EMAIL" o s) = recipient_of o.
Proof.
  unfold getenv_or, recipient_of, bind, os_getenv, ret.
  now destruct (truthy (getenv o "ALERT_RECIPIENT_EMAIL")).
Qed.

(** The run, cut at the loop: the opening lines, the call that lists
    the products, and the three ways on from there. *)
Lemma run_price_check_once_cases o s :
  let active := Storage.get_all_products (db s) (Some true) in
  let s1 :=
    snd ((now <~ utcnow ;;
          print BlankLine ;;;
          print (RunningPriceCheck now) ;;;
          sqlite_call) o s) in
  (_LAST_NOTIFIED s1 = _LAST_NOTIFIED s
   /\ clock_reads s1 = S (clock_reads s)
   /\ smtp_sessions s1 = smtp_sessions s
   /\ config_loads s1 = config_loads s
   /\ http_requests s1 = http_requests s
   /\ db s1 = db s
   /\ store_calls s1 = S (store_calls s)
   /\ journal s1
      = (journal s
         ++ [Printed BlankLine;
             Printed (RunningPriceCheck (clock o (clock_reads s)))])%list)
  /\ if sqlite_answers o (store_calls s) then
       match active with
       | [] =>
           _run_price_check_once o s
           = (Ok tt, snd (print NoActiveProducts o s1))
       | _ :: _ =>
           exists r s2,
             for_each (check_product (recipient_of o)) active
               {| processed := 0; successful_scrapes := 0;
                  notifications_sent := 0 |} o s1 = (r, s2)
             /\ _run_price_check_once o s
                = match r with
                  | Ok c' =>
                      (Ok tt,
                       snd (print (RunSummary (processed c')
                                     (successful_scrapes c')
                                     (notifications_sent c')) o s2))
                  | Err e => (Err e, s2)
                  end
       end
     else
       _run_price_check_once o s
       = (Ok tt, snd (print FailedToLoadProducts o s1)).
Proof.
  intros active s1. subst s1.
  unfold _run_price_check_once, Scheduler.get_all_products, bind, utcnow,
    sqlite_call, print, emit, get_state, ret.
  cbn [db snd fst _LAST_NOTIFIED smtp_sessions config_loads http_requests
       clock_reads store_calls journal].
  fold active.
  split.
  { repeat split; try reflexivity. now rewrite <- app_assoc. }
  destruct (sqlite_answers o (store_calls s)); [|reflexivity].
  cbn [db]. fold active.
  destruct active as [|p rest]; [reflexivity|].
  match goal with
  | |- context [getenv_or ?a ?b ?o ?st] =>
      pose proof (getenv_or_state a b o st) as Henv;
      pose proof (recipient_of_environment o st) as Hrcp;
      destruct (getenv_or a b o st) as [recipient s1]
  end.
  cbn [fst snd] in *. subst s1 recipient.
  match goal with
  | |- context [for_each ?f ?l ?c ?o ?st] =>
      destruct (for_each f l c o st) as [r s2] eqn:Hrun
  end.
  exists r, s2. split; [reflexivity|]. now destruct r.
Qed.

Lemma last_printed o s line :
  last (journal (snd (print line o s))) = Some (Printed line).
Proof. unfold print, emit. cbn. apply last_snoc. Qed.

(** The whole run when the store answers, from the first clock reading
    to the summary. *)
Lemma run_price_check_once_run o s :
  let run := _run_price_check_once o s in
  let s' := snd run in
  let active := Storage.get_all_products (db s) (Some true) in
  let n := http_requests s in
  store_answers o s (S (length active)) ->
  fst run = Ok tt
  /\ observed <$> price_history (db s')
     = ((observed <$> price_history (db s)) ++ snapshots_due o n active)%list
  /\ exists segs last,
       journal s'
       = (journal s
          ++ Printed BlankLine
             :: Printed (RunningPriceCheck (clock o (clock_reads s)))
             :: concat segs ++ [Printed last])%list
       /\ cycle_trace o n active segs
       /\ (active <> [] ->
           exists sent,
             last = RunSummary (length active)
                      (length (snapshots_due o n active)) sent).
Proof.
  intros run s' active n Hstore. subst run s'.
  destruct (run_price_check_once_cases o s)
    as ((HL & Hclk & Hsmtp & Hcfg & Hhttp & Hdb & Hsc & Hj) & Hrun).
  fold active in Hrun.
  set (s1 := snd ((now <~ utcnow ;;
                   print BlankLine ;;;
                   print (RunningPriceCheck now) ;;;
                   sqlite_call) o s)) in *.
  assert (Hfirst : sqlite_answers o (store_calls s) = true)
    by (apply Hstore; lia).
  rewrite Hfirst in Hrun.
  destruct active as [|p rest] eqn:Hactive.
  - rewrite Hrun. unfold print, emit. cbn [fst snd db journal].
    rewrite Hdb, Hj, app_nil_r. split; [reflexivity|]. split; [reflexivity|].
    exists [], NoActiveProducts. cbn. rewrite <- !app_assoc.
    repeat split; auto. congruence.
  - destruct Hrun as (r & s2 & Hloop & Hrun).
    assert (Hstore1 : store_answers o s1 (length (p :: rest))).
    { intros k Hk. apply Hstore. rewrite Hsc in Hk. lia. }
    destruct (for_each_run _ _ _ _ _ _ _ Hstore1 Hloop)
      as (c' & -> & Hproc & _ & _ & Hsucc & Hhist & _ & segs & Hjl & Htrace).
    rewrite Hrun. unfold print, emit. cbn [fst snd db journal].
    rewrite Hhttp in Hsucc, Hhist, Htrace. rewrite Hdb in Hhist.
    cbn [processed successful_scrapes] in Hproc, Hsucc.
    split; [reflexivity|]. split; [exact Hhist|].
    exists segs, (RunSummary (processed c') (successful_scrapes c')
                    (notifications_sent c')).
    rewrite Hjl, Hj, <- !app_assoc. cbn [app].
    split; [reflexivity|]. split; [exact Htrace|].
    intros _. exists (notifications_sent c'). now rewrite Hproc, Hsucc.
Qed.



(** C4: for all prices, [analyze_price] returns
    difference = current_price - target_price, and is_below_or_equal
    holds exactly when difference <= 0, which is exactly when
    current_price <= target_price.  That is the alert condition of the
    check cycle: for a product that was scraped and whose snapshot the
    store took, the journal goes on past the line that compares price
    and target, to the notifier or to the report that no recipient is
    configured, exactly when is_below_or_equal holds.  When the store
    refuses the snapshot the turn ends with its exception, before any
    comparison. *)
Theorem C4_below_or_equal_iff_difference :
  (forall current target : Qc,
      PriceAnalyzer.difference (PriceAnalyzer.analyze_price current target)
      = (current - target)%Qc
      /\ (PriceAnalyzer.is_below_or_equal
            (PriceAnalyzer.analyze_price current target) = true
          <-> (PriceAnalyzer.difference
                 (PriceAnalyzer.analyze_price current target) <= 0)%Qc)
      /\ (PriceAnalyzer.is_below_or_equal
            (PriceAnalyzer.analyze_price current target) = true
          <-> (current <= target)%Qc))
  /\ (forall recipient c p o s info,
         scrape_of o (http_requests s) p = Ok info ->
         let current := Scraper.current_price info in
         let target := target_price p in
         let analysis := PriceAnalyzer.analyze_price current target in
         (sqlite_answers o (store_calls s) = true ->
          exists alert,
            journal (snd (check_product recipient c p o s))
            = (journal s
               ++ [Printed (CheckingProduct (id p) (product_url p));
                   SnapshotInserted (id p) current;
                   Printed (CurrentPrice current target
                              (PriceAnalyzer.difference analysis))]
               ++ alert)%list
            /\ (alert <> [] <->
                PriceAnalyzer.is_below_or_equal analysis = true))
         /\ (sqlite_answers o (store_calls s) = false ->
             fst (check_product recipient c p o s) = Err Sqlite3Error
             /\ journal (snd (check_product recipient c p o s))
                = (journal s
                   ++ [Printed (CheckingProduct (id p) (product_url p))])%list)).
Proof.
  assert (Hanalysis : forall current target : Qc,
      PriceAnalyzer.difference (PriceAnalyzer.analyze_price current target)
      = (current - target)%Qc
      /\ (PriceAnalyzer.is_below_or_equal
            (PriceAnalyzer.analyze_price current target) = true
          <-> (PriceAnalyzer.difference
                 (PriceAnalyzer.analyze_price current target) <= 0)%Qc)
      /\ (PriceAnalyzer.is_below_or_equal
            (PriceAnalyzer.analyze_price current target) = true
          <-> (current <= target)%Qc)).
  { intros current target. unfold PriceAnalyzer.analyze_price.
    cbn [PriceAnalyzer.difference PriceAnalyzer.is_below_or_equal].
    split; [reflexivity|]. split; [apply leb_le|].
    rewrite leb_le. apply minus_le_0. }
  split; [exact Hanalysis|].
  intros recipient c p o s info Hok current target analysis.
  destruct (check_product recipient c p o s) as [r s'] eqn:Hstep.
  destruct (check_product_step _ _ _ _ _ _ _ Hstep) as (_ & _ & Hscrape).
  rewrite Hok in Hscrape. destruct Hscrape as [_ Hscrape].
  cbn [fst snd]. split.
  - intros Hstore. rewrite Hstore in Hscrape.
    destruct Hscrape as (_ & c' & _ & _ & _ & seg & Hj & Hseg).
    unfold product_trace in Hseg. rewrite Hok in Hseg.
    destruct Hseg as (alert & -> & _ & Halert).
    exists alert. split; [exact Hj|].
    destruct (Hanalysis current target) as (_ & _ & Hle).
    subst analysis. rewrite Hle. fold current target in Halert.
    split.
    + intros Hne. destruct (Qclt_le_dec target current) as [Hlt|Hge]; [|exact Hge].
      exfalso. apply Hne, Halert. now apply Qclt_not_le.
    + intros Hmet Hnil. now apply Halert in Hnil.
  - intros Hstore. rewrite Hstore in Hscrape.
    destruct Hscrape as (-> & _ & _ & _ & _ & Hj). auto.
Qed.

Lemma C4_below_or_equal_iff_difference_witness :
  exists alert,
    journal (snd (check_product (Some "owner@example.org")
                    {| processed := 0; successful_scrapes := 0;
                       notifications_sent := 0 |}
                    {| id := 1; product_url := "https://shop.example/a";
                       target_price := Q2Qc 1500; site_name := Some "other";
                       active := true; created_at := 0 |}
                    Examples.outside Examples.start))
    = ([Printed (CheckingProduct 1 "https://shop.example/a");
        SnapshotInserted 1 (Q2Qc 1234.00);
        Printed (CurrentPrice (Q2Qc 1234.00) (Q2Qc 1500)
                   (Q2Qc 1234.00 - Q2Qc 1500)%Qc)]
       ++ alert)%list
    /\ (alert <> [] <->
        PriceAnalyzer.is_below_or_equal
          (PriceAnalyzer.analyze_price (Q2Qc 1234.00) (Q2Qc 1500)) = true).
Proof.
  refine (proj1 (proj2 C4_below_or_equal_iff_difference (Some "owner@example.org")
           {| processed := 0; successful_scrapes := 0; notifications_sent := 0 |}
           {| id := 1; product_url := "https://shop.example/a";
              target_price := Q2Qc 1500; site_name := Some "other";
              active := true; created_at := 0 |}
           Examples.outside Examples.start
           {| Scraper.product_name := "Demo Product";
              Scraper.current_price := Q2Qc 1234.00 |} _) _).
  - vm_compute. reflexivity.
  - reflexivity.
Defined.

End Cycle.

(** * Further properties of the code *)

(** ** More on the Price-Text Normalizer *)

Section NormalizerMore.
Import Numerals.

Lemma digit_value_nonneg c : is_digit c = true -> (0 <= digit_value c)%Z.
Proof.
  unfold is_digit, digit_value.
  intros [H _]%andb_true_iff. apply Nat.leb_le in H. lia.
Qed.

Lemma digits_value_nonneg s : forall acc,
  (0 <= acc)%Z -> all_chars is_digit s = true -> (0 <= digits_value acc s)%Z.
Proof.
  induction s as [|c s IH]; intros acc Hacc; simpl; [auto|].
  intros [Hc Hs]%andb_true_iff. apply IH; [|exact Hs].
  pose proof (digit_value_nonneg _ Hc). lia.
Qed.

Lemma Q2Qc_nonneg z d : (0 <= z)%Z -> (0 <= Q2Qc (z # d))%Qc.
Proof.
  intros Hz. unfold Qcle. cbn [this Q2Qc]. rewrite !Qred_correct.
  unfold Qle. simpl. lia.
Qed.

Lemma float_nonneg t price : float t = Some price -> (0 <= price)%Qc.
Proof.
  unfold float. destruct (split_once period t) as [[i f]|].
  - destruct (all_chars is_digit i) eqn:Hi; [|discriminate].
    destruct (all_chars is_digit f) eqn:Hf; [|discriminate].
    destruct (nonempty i || nonempty f); [|discriminate].
    intros [= <-]. apply Q2Qc_nonneg, digits_value_nonneg; [lia|].
    now rewrite all_chars_app, Hi, Hf.
  - destruct (nonempty t); [|discriminate].
    destruct (all_chars is_digit t) eqn:Ht; [|discriminate].
    intros [= <-]. apply Q2Qc_nonneg, digits_value_nonneg; [lia|].
    now rewrite all_chars_app, Ht.
Qed.

(** X1: the Normalizer never returns a negative price: the pattern has
    no sign, so a minus before the number is not part of the token. *)
Theorem X1_price_never_negative text price :
  _parse_price_text text = Ok price -> (0 <= price)%Qc.
Proof.
  unfold _parse_price_text. destruct (findall_price text) as [|c l]; [discriminate|].
  destruct (float _) as [q|] eqn:E; [|discriminate].
  intros [= <-]. exact (float_nonneg _ _ E).
Qed.

Lemma X1_price_never_negative_witness :
  _parse_price_text "-12.50" = Ok (Q2Qc 12.50) /\ (0 <= Q2Qc 12.50)%Qc.
Proof.
  assert (H : _parse_price_text "-12.50" = Ok (Q2Qc 12.50)) by same_price.
  split; [exact H|]. exact (X1_price_never_negative "-12.50" (Q2Qc 12.50) H).
Defined.


Lemma parse_price_text_prefix pre text :
  any_char is_digit pre = false ->
  (forall price,
      _parse_price_text (pre ++ text) = Ok price <->
      _parse_price_text text = Ok price)
  /\ is_ok (_parse_price_text (pre ++ text)) = is_ok (_parse_price_text text).
Proof.
  intros Hpre. unfold _parse_price_text.
  rewrite (findall_price_prefix _ text Hpre).
  destruct (findall_price text) as [|c l]; [split; [split; discriminate | reflexivity]|].
  destruct (float _); split; try reflexivity; split; congruence.
Qed.

(** X2: text without a digit in front of the price, a currency sign or
    a label, does not change the price the Normalizer returns, nor
    whether it returns one. *)
Theorem X2_prefix_without_digit_is_ignored pre text :
  any_char is_digit pre = false ->
  (forall price,
      _parse_price_text (pre ++ text) = Ok price <->
      _parse_price_text text = Ok price)
  /\ is_ok (_parse_price_text (pre ++ text)) = is_ok (_parse_price_text text).
Proof. apply parse_price_text_prefix. Qed.

Lemma X2_prefix_without_digit_is_ignored_witness :
  _parse_price_text ("M.R.P.: Rs. " ++ "2,499.00") = Ok (Q2Qc 2499.00).
Proof.
  apply (proj1 (X2_prefix_without_digit_is_ignored "M.R.P.: Rs. " "2,499.00"
                  eq_refl)).
  same_price.
Defined.

Lemma span_all p s : all_chars p s = true -> span p s = (s, EmptyString).
Proof.
  induction s as [|c s IH]; simpl; [reflexivity|].
  intros [Hc Hs]%andb_true_iff. now rewrite Hc, (IH Hs).
Qed.

Lemma remove_char_absent c s : count_char c s = 0%nat -> remove_char c s = s.
Proof.
  induction s as [|d s IH]; simpl; [reflexivity|].
  destruct (Ascii.eqb d c); [discriminate|]. intros H. now rewrite (IH H).
Qed.

Lemma digits_without c s :
  is_digit c = false -> all_chars is_digit s = true -> count_char c s = 0%nat.
Proof.
  intros Hc. induction s as [|d s IH]; simpl; [reflexivity|].
  intros [Hd Hs]%andb_true_iff. rewrite (IH Hs).
  destruct (Ascii.eqb_spec d c) as [->|]; [congruence | reflexivity].
Qed.

(** A text made of digits is read as the number it writes. *)
Lemma parse_price_text_digits s :
  nonempty s = true -> all_chars is_digit s = true ->
  _parse_price_text s = Ok (Q2Qc (digits_value 0 s # 1)).
Proof.
  intros Hne Hs. unfold _parse_price_text.
  destruct s as [|c r]; [discriminate|]. simpl in Hs.
  apply andb_true_iff in Hs as [Hc Hr].
  rewrite (findall_price_digit _ _ Hc).
  rewrite (span_all is_token_char r)
    by (apply (all_chars_impl is_digit); [apply digit_is_token_char | exact Hr]).
  cbn [fst snd max_by_len findall_price findall_scan].
  assert (Hall : all_chars is_digit (String c r) = true) by (simpl; now rewrite Hc, Hr).
  rewrite (remove_char_absent comma) by (now apply digits_without).
  assert (Hp : count_char period (String c r) = 0%nat) by (now apply digits_without).
  unfold normalize_periods. rewrite Hp. cbn [Nat.ltb Nat.leb].
  unfold float. rewrite (proj2 (split_once_None _ _) Hp), Hall. cbn [nonempty andb].
  unfold decimal. now rewrite str_app_nil_r.
Qed.

Lemma string_of_uint_digits d :
  all_chars is_digit (NilEmpty.string_of_uint d) = true.
Proof. induction d; simpl; auto. Qed.

Lemma digits_value_of_uint d : forall a : nat,
  digits_value (Z.of_nat a) (NilEmpty.string_of_uint d)
  = Z.of_nat (Nat.of_uint_acc d a).
Proof.
  induction d; intros a; cbn [NilEmpty.string_of_uint digits_value Nat.of_uint_acc];
    [reflexivity|..];
    rewrite Nat.tail_mul_spec, <- IHd; f_equal;
    match goal with
    | |- context [digit_value ?c] =>
        let v := eval vm_compute in (digit_value c) in
        change (digit_value c) with v
    end; lia.
Qed.

Lemma numeral_digits n :
  nonempty (numeral n) = true
  /\ all_chars is_digit (numeral n) = true
  /\ digits_value 0 (numeral n) = Z.of_nat n.
Proof.
  unfold numeral, NilZero.string_of_uint.
  pose proof (DecimalNat.Unsigned.of_to n) as Hn. unfold Nat.of_uint in Hn.
  destruct (Nat.to_uint n) as [|d|d|d|d|d|d|d|d|d|d] eqn:E;
    try (split; [reflexivity|]; split; [apply string_of_uint_digits|];
         rewrite <- Hn; exact (digits_value_of_uint _ 0%nat)).
  simpl in Hn. subst n. repeat split.
Qed.

(** X3: the Normalizer reads back every natural number up to 2^53 from
    its decimal numeral, with or without a digit-free text in front of
    it.  Up to 2^53 every integer is a binary64 number, so the float
    the code returns is the number itself; beyond, [float] rounds to a
    neighbour, which the rational of the model does not show. *)
Theorem X3_reads_back_integers (n : nat) :
  (Z.of_nat n <= 2 ^ 53)%Z ->
  _parse_price_text (numeral n) = Ok (Q2Qc (inject_Z (Z.of_nat n)))
  /\ forall pre,
       any_char is_digit pre = false ->
       _parse_price_text (pre ++ numeral n) = Ok (Q2Qc (inject_Z (Z.of_nat n))).
Proof.
  intros _.
  destruct (numeral_digits n) as (Hne & Hdig & Hval).
  assert (H : _parse_price_text (numeral n) = Ok (Q2Qc (inject_Z (Z.of_nat n)))).
  { rewrite (parse_price_text_digits _ Hne Hdig), Hval. reflexivity. }
  split; [exact H|]. intros pre Hpre.
  now apply (proj1 (parse_price_text_prefix pre (numeral n) Hpre)).
Qed.

Lemma X3_reads_back_integers_witness :
  (Z.of_nat 1299 <= 2 ^ 53)%Z
  /\ _parse_price_text ("Price: " ++ numeral 1299) = Ok (Q2Qc (inject_Z 1299)).
Proof.
  assert (H : (Z.of_nat 1299 <= 2 ^ 53)%Z) by (vm_compute; discriminate).
  split; [exact H|].
  apply (proj2 (X3_reads_back_integers 1299 H) "Price: "). reflexivity.
Defined.

End NormalizerMore.

(** ** More on the extractors *)

Section ExtractorsMore.

(** The Normalizer succeeds exactly on the texts that have a digit. *)
Lemma parse_price_text_ok_iff_digit t :
  is_ok (_parse_price_text t) = any_char is_digit t.
Proof.
  destruct (any_char is_digit t) eqn:E.
  - destruct (parse_price_text_candidates t) as (tok & q & _ & _ & _ & Hok).
    { intros Hnil. apply findall_price_nil in Hnil. congruence. }
    now rewrite Hok.
  - apply findall_price_nil in E. now rewrite (parse_price_text_nil _ E).
Qed.

Lemma parse_price_text_digit t :
  any_char is_digit t = true -> exists price, _parse_price_text t = Ok price.
Proof.
  intros H. rewrite <- parse_price_text_ok_iff_digit in H.
  destruct (_parse_price_text t) as [q|e]; [eauto | discriminate].
Qed.

Lemma parse_price_text_no_digit t :
  any_char is_digit t = false ->
  _parse_price_text t = Err (CouldNotParsePrice t).
Proof. intros H. apply parse_price_text_nil. now apply findall_price_nil. Qed.

(** X4: in the generic extractor the first string of the document
    with a digit decides, be it text, the doctype, a comment or the
    text of a script: its price is returned, whatever follows it in
    the document, and the extractor fails exactly when no string of
    the document has a digit.  The branches of the loop that go on to
    the next candidate are never taken. *)
Theorem X4_generic_first_digit_text_decides soup :
  let name :=
    match find (tag_named "title") soup with
    | Some title_el => get_text_strip title_el
    | None => "Unknown product"
    end in
  (find_all_digit_strings soup = [] ->
   _parse_generic_product soup = Err CouldNotFindPrice)
  /\ (forall t rest,
         find_all_digit_strings soup = t :: rest ->
         exists price,
           _parse_price_text t = Ok price
           /\ _parse_generic_product soup = Ok (name, price))
  /\ (is_ok (_parse_generic_product soup) = true <->
      exists t, t ∈ all_strings soup /\ any_char is_digit t = true).
Proof.
  intros name.
  assert (Hnil : find_all_digit_strings soup = [] ->
                 _parse_generic_product soup = Err CouldNotFindPrice).
  { intros H. unfold _parse_generic_product. now rewrite H. }
  assert (Hcons : forall t rest,
             find_all_digit_strings soup = t :: rest ->
             exists price,
               _parse_price_text t = Ok price
               /\ _parse_generic_product soup = Ok (name, price)).
  { intros t rest H.
    pose proof (find_all_digit_strings_digits soup) as Hdig. rewrite H in Hdig.
    apply Forall_cons in Hdig as [Ht _].
    destruct (parse_price_text_digit _ Ht) as [price Hprice].
    exists price. split; [exact Hprice|].
    unfold _parse_generic_product. fold name. rewrite H. cbn [first_price].
    rewrite (strip_keeps_digit _ Ht). cbn [negb].
    now rewrite (proj2 (parse_price_text_strip t price) Hprice). }
  split; [exact Hnil|]. split; [exact Hcons|].
  destruct (find_all_digit_strings soup) as [|t rest] eqn:E.
  - rewrite (Hnil eq_refl). split; [discriminate|].
    intros (t & Hin & Ht).
    assert (Hmem : t ∈ find_all_digit_strings soup)
      by (unfold find_all_digit_strings; apply list_elem_of_filter; auto).
    rewrite E in Hmem. now apply not_elem_of_nil in Hmem.
  - destruct (Hcons t rest eq_refl) as (price & _ & ->). split; [|reflexivity].
    intros _. exists t.
    assert (Hmem : t ∈ find_all_digit_strings soup)
      by (rewrite E; apply list_elem_of_here).
    unfold find_all_digit_strings in Hmem.
    apply list_elem_of_filter in Hmem as [Ht Hin]. auto.
Qed.

Lemma X4_generic_first_digit_text_decides_witness :
  _parse_generic_product Examples.xhtml_page = Ok ("Kettle", Q2Qc 1.0)
  /\ _parse_generic_product MoreExamples.phone_page
     = Ok ("Phone 15 Pro", Q2Qc 15).
Proof.
  split.
  - destruct (X4_generic_first_digit_text_decides Examples.xhtml_page)
      as (_ & Hfirst & _).
    destruct (Hfirst _ _ eq_refl) as (price & Hprice & ->).
    assert (Hp : _parse_price_text
                   ("html PUBLIC " ++ Examples.quote
                    ++ "-//W3C//DTD XHTML 1.0 Strict//EN" ++ Examples.quote)
                 = Ok (Q2Qc 1.0)) by same_price.
    rewrite Hp in Hprice. injection Hprice as <-. reflexivity.
  - destruct (X4_generic_first_digit_text_decides MoreExamples.phone_page)
      as (_ & Hfirst & _).
    destruct (Hfirst "Phone 15 Pro" ["Rs. 79,900"] eq_refl)
      as (price & Hprice & ->).
    assert (Hp : _parse_price_text "Phone 15 Pro" = Ok (Q2Qc 15)) by same_price.
    rewrite Hp in Hprice. injection Hprice as <-. reflexivity.
Defined.

(** X5: the Amazon extractor needs the title element and a price
    element: without the title, or without both price elements, it fails
    with the message that they could not be located.  The price is read
    from the primary price element whenever that element exists, also
    when its text has no digit: then the extractor fails with the
    Normalizer's error, and the deal price is not consulted.  The deal
    price is read only when the primary element is absent. *)
Theorem X5_amazon_primary_price_first soup :
  let title := find (tag_with_id "productTitle") soup in
  let primary := find (tag_with_id "priceblock_ourprice") soup in
  let deal := find (tag_with_id "priceblock_dealprice") soup in
  let read name_el price_el :=
    match _parse_price_text (get_text price_el) with
    | Ok price => Ok (get_text_strip name_el, price)
    | Err e => Err e
    end in
  ((title = None \/ (primary = None /\ deal = None)) ->
   _parse_amazon_product soup = Err CouldNotLocateAmazon)
  /\ (forall name_el price_el,
         title = Some name_el -> primary = Some price_el ->
         _parse_amazon_product soup = read name_el price_el)
  /\ (forall name_el price_el,
         title = Some name_el -> primary = None -> deal = Some price_el ->
         _parse_amazon_product soup = read name_el price_el)
  /\ (forall name_el price_el,
         (any_char is_digit (get_text price_el) = true ->
          exists price, read name_el price_el = Ok (get_text_strip name_el, price))
         /\ (any_char is_digit (get_text price_el) = false ->
             read name_el price_el = Err (CouldNotParsePrice (get_text price_el)))).
Proof.
  intros title primary deal read. unfold _parse_amazon_product.
  fold title primary deal. repeat split.
  - intros [Ht | [Hp Hd]].
    + now rewrite Ht.
    + rewrite Hp, Hd. now destruct title.
  - intros name_el price_el Ht Hp. now rewrite Ht, Hp.
  - intros name_el price_el Ht Hp Hd. now rewrite Ht, Hp, Hd.
  - intros Hdig. subst read. cbv beta.
    destruct (parse_price_text_digit _ Hdig) as [price ->]. eauto.
  - intros Hdig. subst read. cbv beta.
    now rewrite (parse_price_text_no_digit _ Hdig).
Qed.

Lemma X5_amazon_primary_price_first_witness :
  _parse_amazon_product MoreExamples.sold_out_page
  = Err (CouldNotParsePrice "Currently unavailable").
Proof.
  destruct (X5_amazon_primary_price_first MoreExamples.sold_out_page)
    as (_ & Hprimary & _ & Hread).
  rewrite (Hprimary
             (Tag "span" (Some "productTitle") [] [NavigableString " Kettle "])
             (Tag "span" (Some "priceblock_ourprice") []
                [NavigableString "Currently unavailable"])
             eq_refl eq_refl).
  apply Hread. reflexivity.
Defined.

(** X6: the Flipkart extractor returns a result exactly when the title
    element and the price element are both found and the text of the
    price element has a digit; when one of the two is missing it fails
    with the message that they could not be located, and when the price
    text has no digit with the Normalizer's error. *)
Theorem X6_flipkart_needs_both_elements soup :
  let title := find (tag_with_class "span" "B_NuCI") soup in
  let price_el := find (tag_with_class "div" "_30jeq3 _16Jk6d") soup in
  ((title = None \/ price_el = None) ->
   _parse_flipkart_product soup = Err CouldNotLocateFlipkart)
  /\ (forall name_el el,
         title = Some name_el -> price_el = Some el ->
         (any_char is_digit (get_text el) = true ->
          exists price,
            _parse_price_text (get_text el) = Ok price
            /\ _parse_flipkart_product soup = Ok (get_text_strip name_el, price))
         /\ (any_char is_digit (get_text el) = false ->
             _parse_flipkart_product soup
             = Err (CouldNotParsePrice (get_text el))))
  /\ (is_ok (_parse_flipkart_product soup) = true <->
      exists name_el el,
        title = Some name_el /\ price_el = Some el
        /\ any_char is_digit (get_text el) = true).
Proof.
  intros title price_el. unfold _parse_flipkart_product. fold title price_el.
  split; [|split].
  - intros [Ht | Hp]; [now rewrite Ht | rewrite Hp; now destruct title].
  - intros name_el el Ht Hp. rewrite Ht, Hp. split; intros Hdig.
    + destruct (parse_price_text_digit _ Hdig) as [price Hprice].
      exists price. now rewrite Hprice.
    + now rewrite (parse_price_text_no_digit _ Hdig).
  - destruct title as [name_el|]; [|split; [discriminate | intros (? & ? & [=] & _)]].
    destruct price_el as [el|]; [|split; [discriminate | intros (? & ? & _ & [=] & _)]].
    pose proof (parse_price_text_ok_iff_digit (get_text el)) as Hiff.
    destruct (_parse_price_text (get_text el)) as [q|e]; cbn [is_ok] in *.
    + split; [|reflexivity]. intros _. now exists name_el, el.
    + split; [discriminate|]. intros (? & el' & _ & [= <-] & Hdig). congruence.
Qed.

Lemma X6_flipkart_needs_both_elements_witness :
  exists price,
    _parse_price_text "Rs. 1,249" = Ok price
    /\ _parse_flipkart_product MoreExamples.flipkart_page = Ok ("Desk Lamp", price).
Proof.
  destruct (X6_flipkart_needs_both_elements MoreExamples.flipkart_page)
    as (_ & Hboth & _).
  apply (Hboth (Tag "span" None ["B_NuCI"] [NavigableString " Desk Lamp "])
               (Tag "div" None ["_30jeq3"; "_16Jk6d"] [NavigableString "Rs. 1,249"])
               eq_refl eq_refl).
  reflexivity.
Defined.

(** *** The choice of the extractor *)







Lemma lstrip_head s c r : lstrip s = String c r -> is_space c = false.
Proof.
  induction s as [|d s IH]; simpl; [discriminate|].
  destruct (is_space d) eqn:E; [exact IH|]. intros [= <- _]. exact E.
Qed.

Lemma rstrip_keeps_head c r :
  is_space c = false -> exists r', rstrip (String c r) = String c r'.
Proof.
  intros Hc. simpl. destruct (rstrip r); rewrite ?Hc; eauto.
Qed.

Lemma rstrip_idem s : rstrip (rstrip s) = rstrip s.
Proof.
  induction s as [|c s IH]; [reflexivity|]. cbn [rstrip].
  destruct (rstrip s) as [|d r] eqn:E.
  - destruct (is_space c) eqn:Hc; [reflexivity|]. simpl. now rewrite Hc.
  - cbn [rstrip]. cbn [rstrip] in IH. now rewrite IH.
Qed.

Lemma strip_idem s : strip (strip s) = strip s.
Proof.
  unfold strip. destruct (lstrip s) as [|c r] eqn:E; [reflexivity|].
  pose proof (lstrip_head _ _ _ E) as Hc.
  destruct (rstrip_keeps_head c r Hc) as [r' Hr]. rewrite Hr.
  cbn [lstrip]. rewrite Hc, <- Hr. apply rstrip_idem.
Qed.




End ExtractorsMore.

(** ** The input module *)

Section InputFacts.
Import InputModule.

Lemma nonempty_false s : nonempty s = false <-> s = EmptyString.
Proof. destruct s; simpl; split; congruence. Qed.

(** X8: [_validate_url] accepts a URL exactly when, without the blanks
    around it, it starts with http:// or https://, and returns it
    without those blanks; an accepted URL is accepted again unchanged.
    A blank input is refused as empty, any other refused input for its
    scheme. *)
Theorem X8_validate_url url :
  (forall u,
      _validate_url url = Ok u <->
      (u = strip url
       /\ (startswith u "http://" = true \/ startswith u "https://" = true)))
  /\ (forall u, _validate_url url = Ok u -> _validate_url u = Ok u)
  /\ (_validate_url url = Err UrlEmpty <-> strip url = EmptyString)
  /\ (_validate_url url = Err UrlWithoutScheme <->
      (strip url <> EmptyString
       /\ startswith (strip url) "http://" = false
       /\ startswith (strip url) "https://" = false)).
Proof.
  assert (Hok : forall w u,
             _validate_url w = Ok u <->
             (u = strip w
              /\ (startswith u "http://" = true \/ startswith u "https://" = true))).
  { intros w u. unfold _validate_url.
    destruct (strip w) as [|c r] eqn:E; cbn [nonempty negb].
    - split; [discriminate|]. intros [-> [H|H]]; discriminate H.
    - destruct (startswith (String c r) "http://" || startswith (String c r) "https://")
        eqn:Hs; cbn [negb].
      + split; [intros [= <-]; split; [reflexivity | now apply orb_true_iff]|].
        now intros [-> _].
      + split; [discriminate|]. intros [-> H]. apply orb_true_iff in H. congruence. }
  split; [apply Hok|]. split; [|split].
  - intros u Hu. apply Hok in Hu as [-> Hscheme]. apply Hok.
    split; [now rewrite strip_idem | exact Hscheme].
  - unfold _validate_url. rewrite <- nonempty_false.
    destruct (nonempty (strip url)); cbn [negb]; [|tauto].
    destruct (_ || _); cbn [negb]; split; discriminate.
  - unfold _validate_url. rewrite <- nonempty_false.
    destruct (nonempty (strip url)); cbn [negb].
    + destruct (startswith (strip url) "http://"), (startswith (strip url) "https://");
        cbn [orb negb]; split; intros H; try discriminate H;
        try (destruct H as (_ & H1 & H2); discriminate);
        repeat split; discriminate.
    + split; [discriminate|]. intros (Hne & _). now destruct Hne.
Qed.

Lemma X8_validate_url_witness :
  _validate_url (MoreExamples.nbsp ++ " https://shop.example/a?id=7 ")
  = Ok "https://shop.example/a?id=7"
  /\ _validate_url "https://shop.example/a?id=7" = Ok "https://shop.example/a?id=7".
Proof.
  destruct (X8_validate_url (MoreExamples.nbsp ++ " https://shop.example/a?id=7 "))
    as (Hok & Hagain & _).
  assert (H : _validate_url (MoreExamples.nbsp ++ " https://shop.example/a?id=7 ")
              = Ok "https://shop.example/a?id=7").
  { apply Hok. split; [reflexivity | right; reflexivity]. }
  split; [exact H | exact (Hagain _ H)].
Defined.

(** X9: [_normalize_site_name] always answers amazon, flipkart or
    other; normalizing twice is normalizing once; and the extractor
    chosen for the normalized name is the one chosen for the name as it
    was typed. *)
Theorem X9_normalize_site_name raw_site :
  (_normalize_site_name raw_site = "amazon"
   \/ _normalize_site_name raw_site = "flipkart"
   \/ _normalize_site_name raw_site = "other")
  /\ _normalize_site_name (_normalize_site_name raw_site)
     = _normalize_site_name raw_site
  /\ forall soup,
       parse_product_details soup (Some (_normalize_site_name raw_site))
       = parse_product_details soup (Some raw_site).
Proof.
  unfold _normalize_site_name, parse_product_details. simpl.
  destruct (String.eqb_spec (lower (strip raw_site)) "amazon") as [->|Ha];
    [cbn; auto|].
  destruct (String.eqb_spec (lower (strip raw_site)) "flipkart") as [->|Hf];
    [cbn; auto|].
  destruct (String.eqb_spec (lower (strip raw_site)) "other") as [->|Ho];
    cbn; auto.
Qed.

Lemma X9_normalize_site_name_witness :
  _normalize_site_name
    (_normalize_site_name (MoreExamples.nbsp ++ "Amazon" ++ MoreExamples.nbsp))
  = "amazon".
Proof.
  rewrite (proj1 (proj2 (X9_normalize_site_name
                           (MoreExamples.nbsp ++ "Amazon" ++ MoreExamples.nbsp)))).
  reflexivity.
Defined.

End InputFacts.

(** ** The products table *)

Section ProductsTable.
Import Storage Catalogue.

Lemma lastrowid_above rows r :
  r ∈ rows -> (id r < lastrowid rows)%Z.
Proof.
  unfold lastrowid. induction rows as [|q rows IH]; intros Hin.
  - now apply not_elem_of_nil in Hin.
  - cbn [foldr]. apply elem_of_cons in Hin as [->|Hin]; [lia|].
    specialize (IH Hin). lia.
Qed.

Lemma lastrowid_positive rows : (1 <= lastrowid rows)%Z.
Proof.
  unfold lastrowid. induction rows as [|q rows IH]; cbn [foldr]; lia.
Qed.

(** X10: [add_product] gives the new product an id that is at least 1
    and larger than every id in the table, so ids that were distinct
    stay distinct; the product is then the last one listed, with the
    fields it was given, and it is among the active products exactly
    when it was added as active.  The rows that were there and the price
    history are not touched. *)
Theorem X10_add_product_fresh_id db product_url target_price site_name active now :
  let product_id := fst (add_product db product_url target_price site_name active now) in
  let db' := snd (add_product db product_url target_price site_name active now) in
  let row := {| id := product_id; Storage.product_url := product_url;
                Storage.target_price := target_price;
                Storage.site_name := site_name; Storage.active := active;
                created_at := now |} in
  (1 <= product_id)%Z
  /\ (forall r, r ∈ products db -> (id r < product_id)%Z)
  /\ (NoDup (id <$> products db) -> NoDup (id <$> products db'))
  /\ get_all_products db' None = (get_all_products db None ++ [row])%list
  /\ get_all_products db' (Some true)
     = (get_all_products db (Some true) ++ if active then [row] else [])%list
  /\ price_history db' = price_history db.
Proof.
  intros product_id db' row. subst product_id db'.
  unfold add_product, save_product. cbn [dict_id fst snd products price_history
    dict_product_url dict_target_price dict_site_name dict_active].
  split; [apply lastrowid_positive|]. split; [intros r; apply lastrowid_above|].
  split; [|split; [reflexivity|split; [|reflexivity]]].
  - intros Hnodup. rewrite fmap_app. cbn [fmap list_fmap id].
    apply NoDup_app. split; [exact Hnodup|]. split; [|apply NoDup_singleton].
    intros i Hi Hnew. apply list_elem_of_singleton in Hnew. subst i.
    apply list_elem_of_fmap in Hi as (r & Heq & Hr).
    pose proof (lastrowid_above _ _ Hr). lia.
  - unfold get_all_products, list_products. cbn [products].
    rewrite filter_app. f_equal. subst row.
    destruct active; reflexivity.
Qed.

Lemma update_row_id product i r : id (update_row product i r) = id r.
Proof. unfold update_row. now destruct (id r =? i)%Z. Qed.

Lemma fmap_unchanged {A} (f : A -> A) (l : list A) :
  (forall x, x ∈ l -> f x = x) -> f <$> l = l.
Proof.
  induction l as [|x l IH]; intros H; [reflexivity|]. cbn.
  rewrite (H x (list_elem_of_here _ _)). f_equal.
  apply IH. intros y Hy. apply H. now apply list_elem_of_further.
Qed.

(** X11: [save_product] with an id rewrites the URL, the target, the
    site and the active flag of the rows with that id and keeps their
    creation time; it adds no row, changes no other row and leaves the
    price history alone.  When no row has the id it changes nothing at
    all, and still returns the id. *)
Theorem X11_save_product_with_id db product i now :
  dict_id product = Some i ->
  let db' := snd (save_product db product now) in
  fst (save_product db product now) = i
  /\ id <$> products db' = id <$> products db
  /\ created_at <$> products db' = created_at <$> products db
  /\ price_history db' = price_history db
  /\ (forall r, r ∈ products db -> id r <> i -> r ∈ products db')
  /\ (forall r', r' ∈ products db' -> id r' = i ->
                 product_url r' = dict_product_url product
                 /\ target_price r' = dict_target_price product
                 /\ site_name r' = dict_site_name product
                 /\ active r' = dict_active product)
  /\ ((forall r, r ∈ products db -> id r <> i) -> db' = db).
Proof.
  intros Hid db'. subst db'. unfold save_product. rewrite Hid.
  cbn [fst snd products price_history].
  split; [reflexivity|]. split.
  { rewrite <- list_fmap_compose. apply list_fmap_ext. intros k r _.
    apply update_row_id. }
  split.
  { rewrite <- list_fmap_compose. apply list_fmap_ext. intros k r _.
    cbn. unfold update_row. now destruct (id r =? i)%Z. }
  split; [reflexivity|]. split; [|split].
  - intros r Hr Hne. apply list_elem_of_fmap. exists r. split; [|exact Hr].
    unfold update_row. now destruct (Z.eqb_spec (id r) i).
  - intros r' Hr' Hi. apply list_elem_of_fmap in Hr' as (r & -> & Hr).
    rewrite update_row_id in Hi. unfold update_row.
    destruct (Z.eqb_spec (id r) i); [cbn; auto | contradiction].
  - intros Hnone. destruct db as [rows history]. cbn in *. f_equal.
    apply fmap_unchanged. intros r Hr. unfold update_row.
    destruct (Z.eqb_spec (id r) i) as [Heq|]; [|reflexivity].
    now destruct (Hnone r Hr).
Qed.

Lemma X11_save_product_with_id_witness :
  let product :=
    {| dict_id := Some 9%Z; dict_product_url := "https://shop.example/z";
       dict_target_price := Q2Qc 10; dict_site_name := Some "other";
       dict_active := true |} in
  fst (save_product (World.db Examples.start) product 5) = 9%Z
  /\ snd (save_product (World.db Examples.start) product 5)
     = World.db Examples.start.
Proof.
  intros product.
  destruct (X11_save_product_with_id (World.db Examples.start) product 9 5 eq_refl)
    as (Hid & _ & _ & _ & _ & _ & Hnone).
  split; [exact Hid|]. apply Hnone.
  intros r Hr. apply list_elem_of_In in Hr. cbn in Hr.
  intuition (subst r; discriminate).
Defined.

(** X12: [set_product_active] sets the flag of the rows with the given
    id and nothing else: the table keeps its rows in their places, each
    with its id, URL, target, site name and creation time, and the
    flag of every other row; the price history stays.  The last of two
    calls for one id wins; for an id that is not in the table nothing
    changes.  Afterwards the product is listed among the active ones
    exactly when the flag is on. *)
Theorem X12_set_product_active db product_id flag :
  let db' := set_product_active db product_id flag in
  id <$> products db' = id <$> products db
  /\ length (products db') = length (products db)
  /\ (forall k r,
         products db !! k = Some r ->
         exists r',
           products db' !! k = Some r'
           /\ id r' = id r
           /\ product_url r' = product_url r
           /\ target_price r' = target_price r
           /\ site_name r' = site_name r
           /\ created_at r' = created_at r
           /\ active r' = if (id r =? product_id)%Z then flag else active r)
  /\ price_history db' = price_history db
  /\ (forall r', r' ∈ products db' -> id r' = product_id -> active r' = flag)
  /\ (forall r, r ∈ products db -> id r <> product_id -> r ∈ products db')
  /\ (forall r, r ∈ products db -> id r = product_id ->
                (if flag
                 then exists r', r' ∈ get_all_products db' (Some true)
                                 /\ id r' = product_id
                                 /\ product_url r' = product_url r
                                 /\ target_price r' = target_price r
                                 /\ site_name r' = site_name r
                                 /\ created_at r' = created_at r
                 else forall r', r' ∈ get_all_products db' (Some true) ->
                                 id r' <> product_id))
  /\ (forall flag',
         set_product_active db' product_id flag'
         = set_product_active db product_id flag')
  /\ ((forall r, r ∈ products db -> id r <> product_id) -> db' = db).
Proof.
  intros db'. subst db'. unfold set_product_active.
  cbn [products price_history].
  split.
  { rewrite <- list_fmap_compose. apply list_fmap_ext. intros k r _.
    cbn. now destruct (id r =? product_id)%Z. }
  split; [apply length_fmap|].
  split.
  { intros k r Hk. rewrite list_lookup_fmap, Hk. cbn [fmap option_fmap option_map].
    eexists. split; [reflexivity|].
    destruct (id r =? product_id)%Z; repeat split. }
  split; [reflexivity|]. split; [|split; [|split; [|split]]].
  - intros r' Hr' Hi. apply list_elem_of_fmap in Hr' as (r & -> & Hr).
    destruct (Z.eqb_spec (id r) product_id); [reflexivity|]. contradiction.
  - intros r Hr Hne. apply list_elem_of_fmap. exists r. split; [|exact Hr].
    now destruct (Z.eqb_spec (id r) product_id).
  - intros r Hr Hi. destruct flag.
    + eexists. split; [|split; [|split; [|split; [|split]]]].
      * unfold get_all_products, list_products. cbn [products].
        apply list_elem_of_filter. split; [|apply list_elem_of_fmap; eauto].
        now destruct (Z.eqb_spec (id r) product_id).
      * now destruct (Z.eqb_spec (id r) product_id).
      * now destruct (Z.eqb_spec (id r) product_id).
      * now destruct (Z.eqb_spec (id r) product_id).
      * now destruct (Z.eqb_spec (id r) product_id).
      * now destruct (Z.eqb_spec (id r) product_id).
    + intros r' Hr'. unfold get_all_products, list_products in Hr'.
      cbn [products] in Hr'. apply list_elem_of_filter in Hr' as [Hact Hr'].
      apply list_elem_of_fmap in Hr' as (q & -> & Hq).
      destruct (Z.eqb_spec (id q) product_id); [discriminate Hact | exact n].
  - intros flag'. f_equal. rewrite <- list_fmap_compose.
    apply list_fmap_ext. intros k r _. cbn.
    destruct (Z.eqb_spec (id r) product_id) as [Heq|Hne]; cbn.
    + now rewrite Heq, Z.eqb_refl.
    + now destruct (Z.eqb_spec (id r) product_id).
  - intros Hnone. destruct db as [rows history]. cbn in *. f_equal.
    apply fmap_unchanged. intros r Hr.
    destruct (Z.eqb_spec (id r) product_id) as [Heq|]; [|reflexivity].
    now destruct (Hnone r Hr).
Qed.

Lemma X12_set_product_active_witness :
  exists r',
    r' ∈ get_all_products
           (set_product_active (World.db Examples.start) 4 true) (Some true)
    /\ id r' = 4%Z
    /\ product_url r' = "https://shop.example/d"
    /\ target_price r' = Q2Qc 1500
    /\ site_name r' = Some "other"
    /\ created_at r' = 0%Z.
Proof.
  destruct (X12_set_product_active (World.db Examples.start) 4 true)
    as (_ & _ & _ & _ & _ & _ & Hlisted & _).
  apply (Hlisted {| id := 4; product_url := "https://shop.example/d";
                    target_price := Q2Qc 1500; site_name := Some "other";
                    active := false; created_at := 0 |}).
  - cbn. do 3 apply list_elem_of_further. apply list_elem_of_here.
  - reflexivity.
Defined.

End ProductsTable.

(** ** The price history *)

Section HistoryMore.
Import Storage Catalogue Rows.

#[local] Instance newer_first_transitive : Transitive newer_first.
Proof. unfold newer_first. intros a b c ? ?. lia. Qed.

#[local] Instance newer_first_connex : Total newer_first.
Proof. unfold newer_first. intros a b. lia. Qed.

Lemma history_perm db product_id :
  get_price_history db product_id None ≡ₚ rows_of db product_id.
Proof. apply merge_sort_Permutation. Qed.

Lemma history_sorted db product_id :
  StronglySorted newer_first (get_price_history db product_id None).
Proof. apply StronglySorted_merge_sort; apply _. Qed.

Lemma rows_of_add_same db product_id price now :
  rows_of (add_price_snapshot db product_id price now) product_id
  = (rows_of db product_id
     ++ [ {| entry_id := Z.of_nat (length (price_history db)) + 1;
             Storage.product_id := product_id; scraped_at := now;
             Storage.price := price; currency := "INR" |} ])%list.
Proof.
  unfold rows_of, add_price_snapshot, save_price_snapshot.
  cbn [price_history default from_option]. rewrite filter_app. f_equal.
  cbn. destruct (decide _) as [|Hne]; [reflexivity|]. now destruct Hne.
Qed.

Lemma rows_of_add_other db product_id other price now :
  other <> product_id ->
  rows_of (add_price_snapshot db product_id price now) other = rows_of db other.
Proof.
  intros Hne. unfold rows_of, add_price_snapshot, save_price_snapshot.
  cbn [price_history]. rewrite filter_app. cbn.
  destruct (decide _) as [Heq|]; [|apply app_nil_r].
  cbn in Heq. congruence.
Qed.

(** X13: after [add_price_snapshot] the history of the product holds
    the rows it held and the new row, with the price and the instant
    given and the currency INR, and nothing else: it is one row longer,
    and the history of a product that had none is that one row.  The
    histories of the other products and the products table are as
    before. *)
Theorem X13_snapshot_then_history db product_id price now :
  let db' := add_price_snapshot db product_id price now in
  let row := {| entry_id := Z.of_nat (length (price_history db)) + 1;
                Storage.product_id := product_id; scraped_at := now;
                Storage.price := price; currency := "INR" |} in
  get_price_history db' product_id None
    ≡ₚ row :: get_price_history db product_id None
  /\ length (get_price_history db' product_id None)
     = S (length (get_price_history db product_id None))
  /\ (get_price_history db product_id None = [] ->
      get_price_history db' product_id None = [row])
  /\ (forall other limit,
         other <> product_id ->
         get_price_history db' other limit = get_price_history db other limit)
  /\ products db' = products db.
Proof.
  intros db' row.
  assert (Hperm : get_price_history db' product_id None
                    ≡ₚ row :: get_price_history db product_id None).
  { rewrite !history_perm. subst db' row. rewrite rows_of_add_same.
    now rewrite Permutation_app_comm. }
  split; [exact Hperm|]. split; [|split; [|split; [|reflexivity]]].
  - now rewrite (Permutation_length Hperm).
  - intros Hnone. rewrite Hnone in Hperm. now apply Permutation_singleton_r.
  - intros other limit Hne. unfold get_price_history.
    fold (rows_of db' other) (rows_of db other). subst db'.
    now rewrite (rows_of_add_other _ _ _ _ _ Hne).
Qed.

Lemma latest_is_head db product_id :
  get_latest_price db product_id = head (get_price_history db product_id None).
Proof. reflexivity. Qed.

(** X14: [get_latest_price] answers [None] exactly when the product has
    no row in the price history; otherwise it answers a row of that
    product that no other row of the product is newer than, the first
    row of [get_price_history].  A snapshot added at an instant after
    all the rows of the product is the latest price from then on. *)
Theorem X14_latest_price db product_id :
  get_latest_price db product_id = head (get_price_history db product_id (Some 1%Z))
  /\ (get_latest_price db product_id = None <->
      forall r, r ∈ price_history db -> Storage.product_id r <> product_id)
  /\ (forall r,
         get_latest_price db product_id = Some r ->
         r ∈ price_history db
         /\ Storage.product_id r = product_id
         /\ forall r', r' ∈ price_history db ->
                       Storage.product_id r' = product_id ->
                       (scraped_at r' <= scraped_at r)%Z)
  /\ (forall price now,
         (forall r', r' ∈ price_history db ->
                     Storage.product_id r' = product_id ->
                     (scraped_at r' < now)%Z) ->
         exists row,
           get_latest_price (add_price_snapshot db product_id price now) product_id
           = Some row
           /\ Storage.price row = price /\ scraped_at row = now).
Proof.
  assert (Hsome : forall d pid r,
             get_latest_price d pid = Some r ->
             r ∈ rows_of d pid
             /\ forall r', r' ∈ rows_of d pid ->
                           (scraped_at r' <= scraped_at r)%Z).
  { intros d pid r Hr. rewrite latest_is_head in Hr.
    pose proof (history_sorted d pid) as Hsorted.
    pose proof (history_perm d pid) as Hperm.
    destruct (get_price_history d pid None) as [|h t]; [discriminate|].
    injection Hr as ->.
    split; [rewrite <- Hperm; apply list_elem_of_here|].
    intros r' Hr'. rewrite <- Hperm in Hr'.
    apply StronglySorted_inv in Hsorted as [_ Hall].
    apply elem_of_cons in Hr' as [->|Hr']; [lia|].
    rewrite Forall_forall in Hall. exact (Hall _ Hr'). }
  split; [|split; [|split]].
  - rewrite latest_is_head, get_price_history_limit by lia.
    now destruct (get_price_history db product_id None).
  - rewrite latest_is_head, head_None. split.
    + intros Hnil r Hr Hid.
      assert (Hin : r ∈ rows_of db product_id)
        by (apply list_elem_of_filter; auto).
      rewrite <- history_perm, Hnil in Hin. now apply not_elem_of_nil in Hin.
    + intros Hnone. destruct (get_price_history db product_id None) as [|h t] eqn:E;
        [reflexivity|].
      assert (Hin : h ∈ rows_of db product_id)
        by (rewrite <- history_perm, E; apply list_elem_of_here).
      apply list_elem_of_filter in Hin as [Hid Hin]. now destruct (Hnone h Hin).
  - intros r Hr. destruct (Hsome _ _ _ Hr) as [Hin Hmax].
    apply list_elem_of_filter in Hin as [Hid Hin].
    split; [exact Hin|]. split; [exact Hid|].
    intros r' Hr' Hid'. apply Hmax. apply list_elem_of_filter. auto.
  - intros price now Hlater.
    set (db' := add_price_snapshot db product_id price now).
    destruct (get_latest_price db' product_id) as [h|] eqn:E.
    + exists h. split; [reflexivity|].
      destruct (Hsome _ _ _ E) as [Hin Hmax]. subst db'.
      rewrite rows_of_add_same in Hin, Hmax.
      apply elem_of_app in Hin as [Hold | Hnew].
      * exfalso. apply list_elem_of_filter in Hold as [Hid Hold].
        specialize (Hlater _ Hold Hid).
        specialize (Hmax _ (proj2 (elem_of_app _ _ _)
                                  (or_intror (list_elem_of_here _ _)))).
        cbn in Hmax. lia.
      * apply list_elem_of_singleton in Hnew. subst h. split; reflexivity.
    + exfalso. rewrite latest_is_head, head_None in E.
      pose proof (history_perm db' product_id) as Hperm. rewrite E in Hperm.
      subst db'. rewrite rows_of_add_same in Hperm.
      symmetry in Hperm. apply Permutation_nil_r in Hperm.
      now destruct (rows_of db product_id).
Qed.

Lemma X14_latest_price_witness :
  exists row,
    get_latest_price
      (add_price_snapshot (Examples.chronological 4 [250; 240; 252]%Q) 4
         (Q2Qc 245) 10) 4
    = Some row
    /\ Storage.price row = Q2Qc 245 /\ scraped_at row = 10%Z.
Proof.
  apply (proj2 (proj2 (proj2 (X14_latest_price
                                (Examples.chronological 4 [250; 240; 252]%Q) 4)))).
  intros r' Hr' _. apply list_elem_of_In in Hr'. cbn in Hr'.
  intuition (subst r'; cbn; lia).
Defined.

(** X16: with a limit that is not negative, [get_price_history] returns
    the first rows of the unlimited history, as many as the limit allows
    and there are; every row it returns is at least as new as every row
    it leaves out.  A negative limit leaves nothing out. *)
Theorem X16_history_limit_keeps_newest db product_id (limit : Z) :
  let full := get_price_history db product_id None in
  let shown := get_price_history db product_id (Some limit) in
  ((limit < 0)%Z -> shown = full)
  /\ ((0 <= limit)%Z ->
      shown = take (Z.to_nat limit) full
      /\ length shown = Nat.min (Z.to_nat limit) (length full)
      /\ forall r r',
           r ∈ shown -> r' ∈ drop (Z.to_nat limit) full ->
           (scraped_at r' <= scraped_at r)%Z).
Proof.
  intros full shown. split.
  - intros Hneg. subst shown full. unfold get_price_history.
    apply Z.ltb_lt in Hneg. now rewrite Hneg.
  - intros Hlimit. subst shown. rewrite get_price_history_limit by exact Hlimit.
    fold full. split; [reflexivity|]. split; [apply length_take|].
    intros r r' Hr Hr'.
    pose proof (history_sorted db product_id) as Hsorted. fold full in Hsorted.
    rewrite <- (take_drop (Z.to_nat limit) full) in Hsorted.
    exact (StronglySorted_app_1_elem_of _ _ _ _ _ Hsorted Hr Hr').
Qed.

Lemma X16_history_limit_keeps_newest_witness :
  Storage.price <$> get_price_history
    (Examples.chronological 4 [250; 240; 252; 251]%Q) 4 (Some 2%Z)
  = [Q2Qc 251; Q2Qc 252].
Proof.
  destruct (X16_history_limit_keeps_newest
              (Examples.chronological 4 [250; 240; 252; 251]%Q) 4 2)
    as [_ Hshown].
  destruct Hshown as (-> & _ & _); [lia|]. reflexivity.
Defined.

(** *** Statistics *)

Lemma fold_min_least p ps :
  foldr Qc_min p ps ∈ p :: ps
  /\ forall x, x ∈ p :: ps -> (foldr Qc_min p ps <= x)%Qc.
Proof.
  induction ps as [|y ps [IHin IHle]]; cbn [foldr].
  - split; [apply list_elem_of_here|].
    intros x Hx. apply list_elem_of_singleton in Hx. subst x. apply Qcle_refl.
  - unfold Qc_min at 1 3. destruct (decide (y <= foldr Qc_min p ps)%Qc) as [Hy|Hy].
    + split; [apply list_elem_of_further, list_elem_of_here|].
      intros x Hx. apply elem_of_cons in Hx as [->|Hx].
      * eapply Qcle_trans; [exact Hy | apply IHle, list_elem_of_here].
      * apply elem_of_cons in Hx as [->|Hx]; [apply Qcle_refl|].
        eapply Qcle_trans; [exact Hy | now apply IHle, list_elem_of_further].
    + apply Qcnot_le_lt, Qclt_le_weak in Hy. split.
      * apply elem_of_cons in IHin as [Heq|Hin];
          [rewrite Heq; apply list_elem_of_here
          | now apply list_elem_of_further, list_elem_of_further].
      * intros x Hx. apply elem_of_cons in Hx as [->|Hx];
          [apply IHle, list_elem_of_here|].
        apply elem_of_cons in Hx as [->|Hx]; [exact Hy|].
        now apply IHle, list_elem_of_further.
Qed.

Lemma fold_max_greatest p ps :
  foldr Qc_max p ps ∈ p :: ps
  /\ forall x, x ∈ p :: ps -> (x <= foldr Qc_max p ps)%Qc.
Proof.
  induction ps as [|y ps [IHin IHle]]; cbn [foldr].
  - split; [apply list_elem_of_here|].
    intros x Hx. apply list_elem_of_singleton in Hx. subst x. apply Qcle_refl.
  - unfold Qc_max at 1 3. destruct (decide (y <= foldr Qc_max p ps)%Qc) as [Hy|Hy].
    + split.
      * apply elem_of_cons in IHin as [Heq|Hin];
          [rewrite Heq; apply list_elem_of_here
          | now apply list_elem_of_further, list_elem_of_further].
      * intros x Hx. apply elem_of_cons in Hx as [->|Hx];
          [apply IHle, list_elem_of_here|].
        apply elem_of_cons in Hx as [->|Hx]; [exact Hy|].
        now apply IHle, list_elem_of_further.
    + apply Qcnot_le_lt, Qclt_le_weak in Hy.
      split; [apply list_elem_of_further, list_elem_of_here|].
      intros x Hx. apply elem_of_cons in Hx as [->|Hx].
      * eapply Qcle_trans; [apply IHle, list_elem_of_here | exact Hy].
      * apply elem_of_cons in Hx as [->|Hx]; [apply Qcle_refl|].
        eapply Qcle_trans; [now apply IHle, list_elem_of_further | exact Hy].
Qed.

(** X15: [get_min_max_avg_price] answers [None] exactly when the product
    has no row in the price history.  Otherwise the count is the number
    of its rows, at least 1, and the minimum and the maximum are prices
    of rows of the product and bound the price of every such row, so
    the minimum is at most the maximum. *)
Theorem X15_min_max_bound_the_history db product_id :
  (get_min_max_avg_price db product_id = None <-> rows_of db product_id = [])
  /\ forall st,
       get_min_max_avg_price db product_id = Some st ->
       count st = length (rows_of db product_id)
       /\ count st = length (get_price_history db product_id None)
       /\ (1 <= count st)%nat
       /\ (forall r, r ∈ rows_of db product_id ->
                     (min_price st <= Storage.price r)%Qc
                     /\ (Storage.price r <= max_price st)%Qc)
       /\ (exists r, r ∈ rows_of db product_id /\ Storage.price r = min_price st)
       /\ (exists r, r ∈ rows_of db product_id /\ Storage.price r = max_price st)
       /\ (min_price st <= max_price st)%Qc.
Proof.
  unfold get_min_max_avg_price. fold (rows_of db product_id).
  pose proof (Permutation_length (history_perm db product_id)) as Hlen.
  destruct (rows_of db product_id) as [|r0 rows] eqn:E; cbn [fmap list_fmap].
  - split; [tauto | discriminate].
  - split; [split; discriminate|]. intros st [= <-].
    cbn [count min_price max_price].
    destruct (fold_min_least (Storage.price r0) (Storage.price <$> rows))
      as [Hmin_in Hmin].
    destruct (fold_max_greatest (Storage.price r0) (Storage.price <$> rows))
      as [Hmax_in Hmax].
    change (Storage.price r0 :: (Storage.price <$> rows))
      with (Storage.price <$> r0 :: rows) in *.
    split; [now rewrite length_fmap|]. split; [now rewrite length_fmap, Hlen|].
    split; [cbn; lia|]. split; [|split; [|split]].
    + intros r Hr. split; [apply Hmin | apply Hmax];
        apply list_elem_of_fmap; eauto.
    + apply list_elem_of_fmap in Hmin_in as (r & Heq & Hr). eauto.
    + apply list_elem_of_fmap in Hmax_in as (r & Heq & Hr). eauto.
    + eapply Qcle_trans; [apply Hmin | apply Hmax];
        apply list_elem_of_fmap; exists r0; split;
        [reflexivity | apply list_elem_of_here | reflexivity
        | apply list_elem_of_here].
Qed.

Lemma X15_min_max_bound_the_history_witness :
  exists st,
    get_min_max_avg_price (Examples.chronological 4 [250; 240; 252]%Q) 4 = Some st
    /\ count st = 3%nat
    /\ min_price st = Q2Qc 240
    /\ max_price st = Q2Qc 252.
Proof.
  assert (H : exists st,
             get_min_max_avg_price (Examples.chronological 4 [250; 240; 252]%Q) 4
             = Some st) by (eexists; reflexivity).
  destruct H as [st H]. exists st. split; [exact H|].
  destruct (proj2 (X15_min_max_bound_the_history
                     (Examples.chronological 4 [250; 240; 252]%Q) 4) st H)
    as (Hcount & _ & _ & _ & _ & _ & _).
  split; [rewrite Hcount; reflexivity|].
  injection H as <-. split; reflexivity.
Defined.

End HistoryMore.

(** ** More on the trend *)

Section TrendMore.
Import Storage.

(** A float less itself is zero, or NaN when the float is not finite. *)
Lemma sub_diag x :
  Binary64.sub x x = S754_zero false \/ Binary64.sub x x = S754_nan.
Proof.
  unfold Binary64.sub. destruct x as [s|s| |s m e]; cbn [SFsub].
  - left. now destruct s.
  - right. now destruct s.
  - now right.
  - left. rewrite Z.sub_diag. reflexivity.
Qed.

(** A difference of zero, or one that is not a number, is inside every
    band the code computes. *)
Lemma no_change_inside_band delta oldest :
  delta = S754_zero false \/ delta = S754_nan ->
  classify delta (trend_threshold oldest) = "stable".
Proof.
  unfold classify, trend_threshold, larger.
  change (Binary64.of_Q 0.01) with (S754_finite false 5764607523034235 (-59)).
  set (a := Binary64.mul (Binary64.abs oldest) _). clearbody a.
  intros [-> | ->].
  - destruct a as [sa|sa| |sa ma ea]; try reflexivity.
    + now destruct sa.
    + destruct (Binary64.leb (S754_finite sa ma ea) _) eqn:E; [reflexivity|].
      destruct sa; [|reflexivity].
      unfold Binary64.leb, SFleb in E. cbn in E. discriminate E.
  - destruct (Binary64.leb a _); [reflexivity|].
    unfold Binary64.ltb, SFltb.
    destruct a as [sa|sa| |sa ma ea]; try reflexivity; now destruct sa.
Qed.

(** X17: [get_price_trend_direction] never fails and always answers up,
    down or stable.  It answers stable whenever the product has fewer
    than two rows in the window, and whenever the newest and the
    oldest price of the window are the same number, whatever the
    prices in between. *)
Theorem X17_trend_needs_a_real_change db product_id window :
  let w := if (window <=? 1)%Z then 2%Z else window in
  let recent := take (Z.to_nat w) (get_price_history db product_id None) in
  exists t,
    get_price_trend_direction db product_id window = Some t
    /\ (t = "up" \/ t = "down" \/ t = "stable")
    /\ ((length recent < 2)%nat -> t = "stable")
    /\ (forall newest oldest,
           head recent = Some newest -> last recent = Some oldest ->
           price newest = price oldest -> t = "stable").
Proof.
  intros w recent.
  destruct (trend_of_window db product_id window) as [Hfew Hmany].
  fold w recent in Hfew, Hmany.
  destruct (Nat.lt_ge_cases (length recent) 2) as [Hlen|Hlen].
  - exists "stable". rewrite (Hfew Hlen). auto.
  - destruct recent as [|newest rest] eqn:Erecent; [cbn in Hlen; lia|].
    destruct (last (newest :: rest)) as [oldest|] eqn:Hlast;
      [|apply last_None in Hlast; discriminate].
    rewrite (Hmany newest oldest Hlen eq_refl eq_refl).
    eexists. split; [reflexivity|]. split; [|split].
    + unfold classify. destruct (Binary64.ltb _ _); [auto|].
      destruct (Binary64.ltb _ _); auto.
    + intros Hlt. lia.
    + intros n o [= <-] [= <-] Heq. rewrite Heq.
      apply no_change_inside_band, sub_diag.
Qed.

Lemma X17_trend_needs_a_real_change_witness :
  get_price_trend_direction
    (Examples.chronological 2 [499; 560; 420; 499]%Q) 2 10 = Some "stable".
Proof.
  destruct (X17_trend_needs_a_real_change
              (Examples.chronological 2 [499; 560; 420; 499]%Q) 2 10)
    as (t & Ht & _ & _ & Hsame).
  rewrite Ht. f_equal. eapply Hsame; reflexivity.
Defined.

End TrendMore.

(** ** More on the notifier and the check cycle *)

Section CycleMore.
Import World Storage Scheduler Notifier.

(** The gate reads the clock once when there is an entry for the key and
    not at all otherwise, and touches nothing else. *)
Lemma can_send_state key o s :
  snd (_can_send key o s)
  = match _LAST_NOTIFIED s !! key with
    | None => s
    | Some _ => snd (utcnow o s)
    end.
Proof. rewrite can_send_eq. now destruct (_LAST_NOTIFIED s !! key). Qed.

Lemma send_price_drop_email_counters user_email name url cur tgt path o s r s' :
  send_price_drop_email user_email name url cur tgt path o s = (r, s') ->
  let key := (user_email, url) in
  let allowed := fst (_can_send key o s) in
  let complete :=
    config_complete (load_smtp_config o (config_loads s) path) user_email in
  let delivered := smtp_delivers o (smtp_sessions s) in
  r = allowed && complete && delivered
  /\ config_loads s' = (config_loads s + if allowed then 1 else 0)%nat
  /\ smtp_sessions s' = (smtp_sessions s + if allowed && complete then 1 else 0)%nat
  /\ (clock_reads s <= clock_reads s')%nat
  /\ (allowed = false ->
      _LAST_NOTIFIED s' = _LAST_NOTIFIED s /\ clock_reads s' = S (clock_reads s)).
Proof.
  intros Hsend key allowed complete delivered.
  subst allowed complete delivered.
  unfold send_price_drop_email, bind in Hsend. cbv zeta in Hsend. fold key in Hsend.
  pose proof (can_send_frame key o s) as (HL & _ & _ & Hcfg & Hsmtp & _).
  pose proof (can_send_state key o s) as Hstate.
  destruct (_can_send key o s) as [allowed s1] eqn:Hgate.
  assert (Hallowed : fst (_can_send key o s) = allowed) by now rewrite Hgate.
  cbn [fst snd] in *.
  assert (Hclock : (clock_reads s <= clock_reads s1)%nat).
  { rewrite Hstate. destruct (_LAST_NOTIFIED s !! key); cbn; lia. }
  destruct allowed; cbn [negb andb] in *.
  - unfold _load_smtp_config in Hsend. rewrite Hcfg in Hsend.
    destruct (config_complete _ user_email); cbn [negb andb] in *.
    + unfold utcnow, smtp_session in Hsend. cbn in Hsend. rewrite Hsmtp in Hsend.
      destruct (smtp_delivers o (smtp_sessions s)); cbn in Hsend;
        injection Hsend as <- <-; cbn; rewrite ?Hcfg, ?Hsmtp;
        repeat split; try lia; discriminate.
    + injection Hsend as <- <-. cbn. rewrite ?Hcfg, ?Hsmtp.
      repeat split; try lia; discriminate.
  - injection Hsend as <- <-. rewrite ?Hcfg, ?Hsmtp.
    repeat split; try lia; auto.
    rewrite Hstate. rewrite can_send_eq in Hallowed.
    destruct (_LAST_NOTIFIED s !! key); [reflexivity | discriminate Hallowed].
Qed.

(** X18: one call of [send_price_drop_email] opens at most one SMTP
    session, and opens it exactly when the gate allows and the
    configuration and the recipient are complete; it does not even load
    the configuration when the gate refuses.  It returns true exactly
    when that session goes through.  It never touches the database, and
    in the cooldown map no key but its own. *)
Theorem X18_notifier_footprint user_email name url cur tgt path o s r s' :
  send_price_drop_email user_email name url cur tgt path o s = (r, s') ->
  let key := (user_email, url) in
  let allowed := fst (_can_send key o s) in
  let complete :=
    config_complete (load_smtp_config o (config_loads s) path) user_email in
  db s' = db s
  /\ http_requests s' = http_requests s
  /\ (forall other, other <> key ->
                    _LAST_NOTIFIED s' !! other = _LAST_NOTIFIED s !! other)
  /\ config_loads s' = (config_loads s + if allowed then 1 else 0)%nat
  /\ smtp_sessions s' = (smtp_sessions s + if allowed && complete then 1 else 0)%nat
  /\ (r = true <->
      allowed = true /\ complete = true
      /\ smtp_delivers o (smtp_sessions s) = true)
  /\ (r = true -> smtp_sessions s' = S (smtp_sessions s)).
Proof.
  intros Hsend key allowed complete.
  destruct (send_price_drop_email_cases _ _ _ _ _ _ _ _ _ _ Hsend)
    as (Hr & Hdb & Hhttp & Hrec & Hkeep & _).
  destruct (send_price_drop_email_counters _ _ _ _ _ _ _ _ _ _ Hsend)
    as (_ & Hcfg & Hsmtp & _ & _).
  fold key allowed complete in Hr, Hcfg, Hsmtp, Hrec.
  split; [exact Hdb|]. split; [exact Hhttp|]. split; [|split; [exact Hcfg|]].
  - intros other Hother. destruct r.
    + rewrite (Hrec eq_refl). now apply lookup_insert_ne.
    + now rewrite (Hkeep eq_refl).
  - split; [exact Hsmtp|]. split.
    + rewrite Hr, !andb_true_iff. tauto.
    + intros ->. symmetry in Hr.
      apply andb_true_iff in Hr as [Hac _]. rewrite Hac in Hsmtp. lia.
Qed.

Lemma X18_notifier_footprint_witness :
  smtp_sessions Examples.after_alert = 1%nat
  /\ config_loads Examples.after_alert = 1%nat
  /\ db Examples.after_alert = db Examples.start.
Proof.
  destruct (X18_notifier_footprint "owner@example.org" "Demo Product"
              "https://shop.example/a" (Q2Qc 1234) (Q2Qc 1500) None
              Examples.outside Examples.start true Examples.after_alert eq_refl)
    as (Hdb & _ & _ & Hcfg & _ & _ & Hsmtp).
  split; [exact (Hsmtp eq_refl)|]. split; [exact Hcfg | exact Hdb].
Defined.

(** What one turn of the loop does to the notifier's side of the state. *)
Lemma check_product_notifier recipient c p o s r s' :
  check_product recipient c p o s = (r, s') ->
  match scrape_of o (http_requests s) p with
  | Err _ =>
      _LAST_NOTIFIED s' = _LAST_NOTIFIED s
      /\ config_loads s' = config_loads s
      /\ smtp_sessions s' = smtp_sessions s
      /\ clock_reads s' = clock_reads s
      /\ exists c',
           r = Ok c'
           /\ notifications_sent c' = notifications_sent c
           /\ successful_scrapes c' = successful_scrapes c
  | Ok info =>
      let price := Scraper.current_price info in
      let target := target_price p in
      if sqlite_answers o (store_calls s) then
        exists c',
          r = Ok c'
          /\ successful_scrapes c' = S (successful_scrapes c)
          /\ if PyFloat.leb (price - target)%Qc (Q2Qc 0) && truthy recipient then
               exists s_mid sent s_after,
                 _LAST_NOTIFIED s_mid = _LAST_NOTIFIED s
                 /\ config_loads s_mid = config_loads s
                 /\ smtp_sessions s_mid = smtp_sessions s
                 /\ clock_reads s_mid = S (clock_reads s)
                 /\ send_price_drop_email (default EmptyString recipient)
                      (Scraper.product_name info) (product_url p) price target
                      None o s_mid = (sent, s_after)
                 /\ _LAST_NOTIFIED s' = _LAST_NOTIFIED s_after
                 /\ config_loads s' = config_loads s_after
                 /\ smtp_sessions s' = smtp_sessions s_after
                 /\ clock_reads s' = clock_reads s_after
                 /\ notifications_sent c'
                    = (notifications_sent c + if sent then 1 else 0)%nat
             else
               _LAST_NOTIFIED s' = _LAST_NOTIFIED s
               /\ config_loads s' = config_loads s
               /\ smtp_sessions s' = smtp_sessions s
               /\ clock_reads s' = S (clock_reads s)
               /\ notifications_sent c' = notifications_sent c
      else
        r = Err Sqlite3Error
        /\ _LAST_NOTIFIED s' = _LAST_NOTIFIED s
        /\ config_loads s' = config_loads s
        /\ smtp_sessions s' = smtp_sessions s
        /\ clock_reads s' = S (clock_reads s)
  end.
Proof.
  unfold check_product. fold (site_of p). unfold bind at 1 2.
  unfold print at 1, emit at 1. rewrite get_product_info_eq.
  cbn [snd http_requests http_get].
  destruct (scrape_of o (http_requests s) p) as [info|[exc|]].
  - unfold Scheduler.add_price_snapshot, bind, utcnow, sqlite_call, get_state,
      set_db, print, emit.
    cbn -[send_price_drop_email Storage.add_price_snapshot].
    destruct (sqlite_answers o (store_calls s)).
    2:{ unfold ret. intros [= <- <-]. cbn. repeat split; reflexivity. }
    cbn -[send_price_drop_email Storage.add_price_snapshot].
    set (price := Scraper.current_price info).
    set (target := target_price p).
    destruct (PyFloat.leb (price - target)%Qc (Q2Qc 0)) eqn:Hbelow.
    + destruct (truthy recipient) eqn:Hrcpt; cbn [andb negb].
      * match goal with
        | |- context [send_price_drop_email ?a ?b ?c ?d ?e ?f ?g ?h] =>
            destruct (send_price_drop_email a b c d e f g h)
              as [sent s1] eqn:Hsend
        end.
        destruct sent; unfold ret; intros [= <- <-]; cbn;
          eexists; (split; [reflexivity|]); (split; [reflexivity|]);
          eexists; eexists; eexists;
          (split; [|split; [|split; [|split; [|split; [exact Hsend|]]]]]);
          cbn; repeat split; lia.
      * unfold ret. intros [= <- <-]. cbn.
        eexists. split; [reflexivity|]. repeat split; reflexivity.
    + cbn [andb]. unfold ret. intros [= <- <-]. cbn.
      eexists. split; [reflexivity|]. repeat split; reflexivity.
  - unfold bind, print, emit, ret. intros [= <- <-]. cbn.
    repeat split; try reflexivity.
    eexists. split; [reflexivity|]. split; reflexivity.
  - unfold bind, print, emit, ret. intros [= <- <-]. cbn.
    repeat split; try reflexivity.
    eexists. split; [reflexivity|]. split; reflexivity.
Qed.

(** One turn never opens more than one SMTP session, and opens none
    without a snapshot stored in the same turn. *)
Lemma check_product_sessions recipient c p o s r s' :
  check_product recipient c p o s = (r, s') ->
  (smtp_sessions s <= smtp_sessions s')%nat
  /\ (smtp_sessions s' + length (price_history (db s))
      <= smtp_sessions s + length (price_history (db s')))%nat
  /\ (length (price_history (db s')) <= S (length (price_history (db s))))%nat
  /\ forall c',
       r = Ok c' ->
       (notifications_sent c <= notifications_sent c')%nat
       /\ (notifications_sent c' + smtp_sessions s
           <= smtp_sessions s' + notifications_sent c)%nat
       /\ (smtp_sessions s' + successful_scrapes c
           <= successful_scrapes c' + smtp_sessions s)%nat.
Proof.
  intros Hstep.
  pose proof (check_product_notifier _ _ _ _ _ _ _ Hstep) as Hn.
  destruct (check_product_step _ _ _ _ _ _ _ Hstep) as (_ & _ & Hscrape).
  destruct (scrape_of o (http_requests s) p) as [info|exc].
  - destruct Hscrape as [_ Hscrape].
    destruct (sqlite_answers o (store_calls s)).
    + destruct Hscrape as (Hdb & _).
      assert (Hlen : length (price_history (db s'))
                     = S (length (price_history (db s)))).
      { rewrite Hdb. cbn. rewrite length_app. cbn. lia. }
      destruct Hn as (c1 & -> & Hsucc & Hn). destruct (_ && _).
      * destruct Hn as (s_mid & sent & s_after & _ & _ & Hm & _ & Hsend
                        & _ & _ & Hs & _ & Hk).
        destruct (send_price_drop_email_counters _ _ _ _ _ _ _ _ _ _ Hsend)
          as (Hr & _ & Hsmtp & _ & _).
        rewrite Hm in Hsmtp.
        assert (Hone : (smtp_sessions s <= smtp_sessions s'
                        <= S (smtp_sessions s))%nat
                       /\ (sent = true -> smtp_sessions s' = S (smtp_sessions s))).
        { rewrite Hs, Hsmtp.
          match type of Hsmtp with
          | context [if ?b then _ else _] => destruct b eqn:Hac
          end.
          - split; [lia|]. intros _. lia.
          - split; [lia|]. intros ->. discriminate Hr. }
        destruct Hone as [Hrange Hsent].
        split; [lia|]. split; [lia|]. split; [lia|].
        intros c2 [= <-]. destruct sent;
          [specialize (Hsent eq_refl)|]; repeat split; lia.
      * destruct Hn as (_ & _ & Hs & _ & Hk).
        split; [lia|]. split; [lia|]. split; [lia|].
        intros c2 [= <-]. repeat split; lia.
    + destruct Hscrape as (_ & Hdb & _). destruct Hn as (-> & _ & _ & Hs & _).
      rewrite Hdb, Hs. split; [lia|]. split; [lia|]. split; [lia|].
      discriminate.
  - destruct Hscrape as (_ & Hdb & _).
    destruct Hn as (_ & _ & Hs & _ & c1 & -> & Hk & Hsucc).
    rewrite Hdb, Hs. split; [lia|]. split; [lia|]. split; [lia|].
    intros c2 [= <-]. repeat split; lia.
Qed.

(** The ledger of a loop: every notification counted is an SMTP session
    that went through, and every session belongs to a product whose
    snapshot was stored in the same turn, whether the loop ends or the
    store breaks it off. *)
Lemma for_each_ledger recipient products : forall c o s r s',
  for_each (check_product recipient) products c o s = (r, s') ->
  (smtp_sessions s <= smtp_sessions s')%nat
  /\ (smtp_sessions s' + length (price_history (db s))
      <= smtp_sessions s + length (price_history (db s')))%nat
  /\ (length (price_history (db s'))
      <= length (price_history (db s)) + length products)%nat
  /\ forall c',
       r = Ok c' ->
       (notifications_sent c <= notifications_sent c')%nat
       /\ (notifications_sent c' + smtp_sessions s
           <= smtp_sessions s' + notifications_sent c)%nat
       /\ (smtp_sessions s' + successful_scrapes c
           <= successful_scrapes c' + smtp_sessions s)%nat.
Proof.
  induction products as [|p products IH]; intros c o s r s'.
  - cbn. unfold ret. intros [= <- <-].
    split; [lia|]. split; [lia|]. split; [lia|]. intros c' [= <-]. lia.
  - cbn [for_each]. unfold bind.
    destruct (check_product recipient c p o s) as [r1 s1] eqn:Hstep.
    destruct (check_product_sessions _ _ _ _ _ _ _ Hstep)
      as (Hs1 & Hh1 & Hl1 & Hc1).
    destruct r1 as [c1|e].
    + intros Hrest. destruct (IH _ _ _ _ _ Hrest) as (Hs2 & Hh2 & Hl2 & Hc2).
      destruct (Hc1 c1 eq_refl) as (Ha & Hb & Hd).
      cbn [length]. split; [lia|]. split; [lia|]. split; [lia|].
      intros c' Hr. destruct (Hc2 c' Hr) as (Ha' & Hb' & Hd'). lia.
    + unfold ret. intros [= <- <-]. cbn [length].
      split; [lia|]. split; [lia|]. split; [lia|]. discriminate.
Qed.

(** A product is quiet when no mail can go out for it: no recipient is
    configured, or the cooldown entry of its key holds at the clock
    readings of the loop, of which there are at most two per product. *)
Lemma for_each_quiet (recipient : option string) (products : list Product)
    (o : Outside) (M : gmap (string * string) Z) :
  forall c s r s',
    _LAST_NOTIFIED s = M ->
    (forall p, p ∈ products ->
       truthy recipient = false
       \/ exists t,
            M !! (default EmptyString recipient, product_url p) = Some t
            /\ forall n,
                 (clock_reads s <= n < clock_reads s + 2 * length products)%nat ->
                 (clock o n - t < timedelta_minutes 60)%Z) ->
    for_each (check_product recipient) products c o s = (r, s') ->
    _LAST_NOTIFIED s' = M
    /\ smtp_sessions s' = smtp_sessions s
    /\ config_loads s' = config_loads s
    /\ (clock_reads s <= clock_reads s' <= clock_reads s + 2 * length products)%nat
    /\ forall c', r = Ok c' -> notifications_sent c' = notifications_sent c.
Proof.
  induction products as [|p products IH]; intros c s r s' HM Hquiet.
  - cbn. unfold ret. intros [= <- <-].
    split; [auto|]. split; [auto|]. split; [auto|]. split; [lia|].
    now intros c' [= <-].
  - cbn [for_each]. unfold bind.
    destruct (check_product recipient c p o s) as [r1 s1] eqn:Hstep.
    assert (Hstep' : _LAST_NOTIFIED s1 = M
                     /\ smtp_sessions s1 = smtp_sessions s
                     /\ config_loads s1 = config_loads s
                     /\ (clock_reads s <= clock_reads s1 <= clock_reads s + 2)%nat
                     /\ forall c1, r1 = Ok c1 ->
                                   notifications_sent c1 = notifications_sent c).
    { pose proof (check_product_notifier _ _ _ _ _ _ _ Hstep) as Hn.
      destruct (scrape_of o (http_requests s) p) as [info|exc].
      - cbv zeta in Hn. destruct (sqlite_answers o (store_calls s)).
        + destruct Hn as (c1 & -> & _ & Hn).
          destruct (Hquiet p (list_elem_of_here _ _))
            as [Hnone | (t & Ht & Hclock)].
          * rewrite Hnone, andb_false_r in Hn.
            destruct Hn as (-> & -> & -> & -> & Hk).
            split; [auto|]. split; [auto|]. split; [auto|]. split; [lia|].
            now intros c2 [= <-].
          * destruct (_ && _).
            -- destruct Hn as (s_mid & sent & s_after & HLm & Hcm & Hsm & Hclk
                               & Hsend & -> & -> & -> & -> & Hk).
               destruct (send_price_drop_email_counters _ _ _ _ _ _ _ _ _ _ Hsend)
                 as (Hr & Hcfg & Hsmtp & _ & Hkeep).
               assert (Hgate : fst (_can_send (default EmptyString recipient,
                                               product_url p) o s_mid) = false).
               { rewrite can_send_eq, HLm, HM, Ht. cbn [fst].
                 apply Z.leb_gt. apply Hclock. rewrite Hclk. cbn [length]. lia. }
               rewrite Hgate in Hr, Hcfg, Hsmtp. cbn [andb] in Hr, Hsmtp.
               destruct (Hkeep Hgate) as [HL Hc].
               rewrite HL, HLm, HM, Hcfg, Hsmtp, Hcm, Hsm, Hc, Hclk.
               split; [auto|]. split; [lia|]. split; [lia|]. split; [lia|].
               intros c2 [= <-]. rewrite Hk, Hr. lia.
            -- destruct Hn as (-> & -> & -> & -> & Hk).
               split; [auto|]. split; [auto|]. split; [auto|]. split; [lia|].
            now intros c2 [= <-].
        + destruct Hn as (-> & -> & -> & -> & ->).
          split; [auto|]. split; [auto|]. split; [auto|]. split; [lia|].
          discriminate.
      - destruct Hn as (-> & -> & -> & -> & c1 & -> & Hk & _).
        split; [auto|]. split; [auto|]. split; [auto|]. split; [lia|].
        now intros c2 [= <-]. }
    destruct Hstep' as (HM1 & Hs1 & Hc1 & Hclk1 & Hk1).
    destruct r1 as [c1|e].
    + intros Hrest.
      assert (Hquiet1 : forall q, q ∈ products ->
                truthy recipient = false
                \/ exists t,
                     M !! (default EmptyString recipient, product_url q) = Some t
                     /\ forall n,
                          (clock_reads s1 <= n
                           < clock_reads s1 + 2 * length products)%nat ->
                          (clock o n - t < timedelta_minutes 60)%Z).
      { intros q Hq.
        destruct (Hquiet q (list_elem_of_further _ _ _ Hq))
          as [Hnone | (t & Ht & Hclock)]; [now left|].
        right. exists t. split; [exact Ht|]. intros n Hn. apply Hclock.
        cbn [length]. lia. }
      destruct (IH c1 s1 r s' HM1 Hquiet1 Hrest) as (-> & -> & -> & Hclk' & Hk').
      cbn [length].
      split; [auto|]. split; [auto|]. split; [auto|]. split; [lia|].
      intros c' Hr. rewrite (Hk' c' Hr). now apply Hk1.
    + unfold ret. intros [= <- <-]. cbn [length].
      split; [auto|]. split; [auto|]. split; [auto|]. split; [lia|].
      discriminate.
Qed.

Lemma snapshots_due_length o products : forall n,
  (length (snapshots_due o n products) <= length products)%nat.
Proof.
  induction products as [|p products IH]; intros n; cbn [snapshots_due length];
    [lia|].
  specialize (IH (S n)). destruct (scrape_of o n p); cbn [length]; lia.
Qed.

(** The run with a quiet loop: nothing of the notifier's state moves,
    whatever the store does, and when the store answers the summary
    reports no notification. *)
Lemma quiet_run o s :
  let active := Storage.get_all_products (db s) (Some true) in
  let recipient := recipient_of o in
  (forall p, p ∈ active ->
     truthy recipient = false
     \/ exists t,
          _LAST_NOTIFIED s !! (default EmptyString recipient, product_url p) = Some t
          /\ forall n,
               (clock_reads s < n <= clock_reads s + 2 * length active)%nat ->
               (clock o n - t < timedelta_minutes 60)%Z) ->
  let run := _run_price_check_once o s in
  let s' := snd run in
  smtp_sessions s' = smtp_sessions s
  /\ config_loads s' = config_loads s
  /\ _LAST_NOTIFIED s' = _LAST_NOTIFIED s
  /\ (store_answers o s (S (length active)) ->
      fst run = Ok tt
      /\ (active <> [] ->
          last (journal s')
          = Some (Printed (RunSummary (length active)
                             (length (snapshots_due o (http_requests s) active))
                             0)))
      /\ observed <$> price_history (db s')
         = ((observed <$> price_history (db s))
            ++ snapshots_due o (http_requests s) active)%list).
Proof.
  intros active recipient Hquiet run s'. subst run s'.
  pose proof (run_price_check_once_run o s) as Hfull.
  destruct (run_price_check_once_cases o s)
    as ((HL & Hclk & Hsmtp & Hcfg & Hhttp & Hdb & Hsc & Hj) & Hrun).
  cbv zeta in Hfull. fold active in Hfull, Hrun.
  set (s1 := snd ((now <~ utcnow ;;
                   print BlankLine ;;;
                   print (RunningPriceCheck now) ;;;
                   sqlite_call) o s)) in *.
  destruct (sqlite_answers o (store_calls s)) eqn:Hfirst.
  2:{ rewrite Hrun. unfold print, emit.
      cbn [snd fst smtp_sessions config_loads _LAST_NOTIFIED].
      split; [exact Hsmtp|]. split; [exact Hcfg|]. split; [exact HL|].
      intros Hstore. rewrite (Hstore (store_calls s)) in Hfirst by lia.
      discriminate Hfirst. }
  destruct active as [|p rest] eqn:Hactive.
  - rewrite Hrun. unfold print, emit.
    cbn [snd fst smtp_sessions config_loads _LAST_NOTIFIED db].
    split; [exact Hsmtp|]. split; [exact Hcfg|]. split; [exact HL|].
    intros _. split; [reflexivity|]. split; [congruence|].
    rewrite Hdb. cbn [snapshots_due]. now rewrite app_nil_r.
  - destruct Hrun as (r & s2 & Hloop & Hrun).
    assert (Hquiet1 : forall q, q ∈ p :: rest ->
              truthy recipient = false
              \/ exists t,
                   _LAST_NOTIFIED s
                     !! (default EmptyString recipient, product_url q) = Some t
                   /\ forall n,
                        (clock_reads s1 <= n
                         < clock_reads s1 + 2 * length (p :: rest))%nat ->
                        (clock o n - t < timedelta_minutes 60)%Z).
    { intros q Hq. destruct (Hquiet q Hq) as [Hnone | (t & Ht & Hclock)];
        [now left|].
      right. exists t. split; [exact Ht|]. intros n Hn. apply Hclock.
      rewrite Hclk in Hn. lia. }
    destruct (for_each_quiet recipient (p :: rest) o (_LAST_NOTIFIED s)
                _ s1 r s2 HL Hquiet1 Hloop)
      as (HL2 & Hsmtp2 & Hcfg2 & _ & Hsent).
    assert (Hstate : smtp_sessions (snd (_run_price_check_once o s))
                     = smtp_sessions s
                     /\ config_loads (snd (_run_price_check_once o s))
                        = config_loads s
                     /\ _LAST_NOTIFIED (snd (_run_price_check_once o s))
                        = _LAST_NOTIFIED s).
    { rewrite Hrun. destruct r as [c'|e]; unfold print, emit;
        cbn [snd smtp_sessions config_loads _LAST_NOTIFIED];
        repeat split; congruence. }
    destruct Hstate as (H1 & H2 & H3).
    split; [exact H1|]. split; [exact H2|]. split; [exact H3|].
    intros Hstore. destruct (Hfull Hstore) as (Hok & Hhist & _).
    split; [exact Hok|]. split; [|exact Hhist].
    intros _.
    assert (Hstore1 : store_answers o s1 (length (p :: rest))).
    { intros k Hk. apply Hstore. rewrite Hsc in Hk. lia. }
    destruct (for_each_run _ _ _ _ _ _ _ Hstore1 Hloop)
      as (c' & -> & Hproc & _ & _ & Hsucc & _).
    rewrite Hhttp in Hsucc. cbn [processed successful_scrapes] in Hproc, Hsucc.
    rewrite Hrun. cbn [snd]. rewrite last_printed, Hproc, Hsucc.
    rewrite (Hsent c' eq_refl). reflexivity.
Qed.

(** X19: when neither ALERT_RECIPIENT_EMAIL nor ALERT_EMAIL is set to a
    non-empty value, a run of the check cycle opens no SMTP session,
    does not load the SMTP configuration and leaves the cooldown map as
    it was, however the run ends.  When the store answers its calls the
    run ends with a summary that reports 0 notifications, and the
    snapshots of the scraped products are stored all the same. *)
Theorem X19_no_recipient_no_mail o s :
  truthy (getenv o "ALERT_RECIPIENT_EMAIL") = false ->
  truthy (getenv o "ALERT_EMAIL") = false ->
  let run := _run_price_check_once o s in
  let s' := snd run in
  let active := Storage.get_all_products (db s) (Some true) in
  smtp_sessions s' = smtp_sessions s
  /\ config_loads s' = config_loads s
  /\ _LAST_NOTIFIED s' = _LAST_NOTIFIED s
  /\ (store_answers o s (S (length active)) ->
      fst run = Ok tt
      /\ (active <> [] ->
          last (journal s')
          = Some (Printed (RunSummary (length active)
                             (length (snapshots_due o (http_requests s) active))
                             0)))
      /\ observed <$> price_history (db s')
         = ((observed <$> price_history (db s))
            ++ snapshots_due o (http_requests s) active)%list).
Proof.
  intros H1 H2 run s' active. apply quiet_run.
  intros p _. left. unfold recipient_of. now rewrite H1.
Qed.

Lemma X19_no_recipient_no_mail_witness :
  smtp_sessions (snd (_run_price_check_once MoreExamples.silent_outside
                        Examples.start)) = 0%nat
  /\ last (journal (snd (_run_price_check_once MoreExamples.silent_outside
                           Examples.start)))
     = Some (Printed (RunSummary 3 2 0)).
Proof.
  destruct (X19_no_recipient_no_mail MoreExamples.silent_outside Examples.start
              eq_refl eq_refl) as (Hsmtp & _ & _ & Hrun).
  split; [exact Hsmtp|].
  destruct Hrun as (_ & Hlast & _); [intros k _; reflexivity|].
  rewrite Hlast; [reflexivity | discriminate].
Defined.

(** X20: a run that starts while the cooldown of every active product
    still holds, and ends before any of them runs out, sends nothing:
    when the cooldown map has an entry for the recipient of the run
    and the URL of every active product, and each entry is less than
    60 minutes old at every clock reading of the run, of which there
    are at most two per active product after the first, the run opens
    no SMTP session, does not load the SMTP configuration and leaves
    the cooldown map as it was, however it ends.  When the store
    answers its calls the summary reports 0 notifications and the
    snapshots are stored all the same. *)
Theorem X20_run_inside_cooldown_sends_nothing o s recipient :
  recipient_of o = Some recipient ->
  recipient <> EmptyString ->
  let active := Storage.get_all_products (db s) (Some true) in
  (forall p, p ∈ active ->
     exists t,
       _LAST_NOTIFIED s !! (recipient, product_url p) = Some t
       /\ forall n,
            (clock_reads s < n <= clock_reads s + 2 * length active)%nat ->
            (clock o n - t < timedelta_minutes 60)%Z) ->
  let run := _run_price_check_once o s in
  let s' := snd run in
  smtp_sessions s' = smtp_sessions s
  /\ config_loads s' = config_loads s
  /\ _LAST_NOTIFIED s' = _LAST_NOTIFIED s
  /\ (store_answers o s (S (length active)) ->
      fst run = Ok tt
      /\ (active <> [] ->
          last (journal s')
          = Some (Printed (RunSummary (length active)
                             (length (snapshots_due o (http_requests s) active))
                             0)))
      /\ observed <$> price_history (db s')
         = ((observed <$> price_history (db s))
            ++ snapshots_due o (http_requests s) active)%list).
Proof.
  intros Henv Hne active Hcool run s'. apply quiet_run.
  rewrite Henv. intros p Hp. right. exact (Hcool p Hp).
Qed.

Lemma X20_run_inside_cooldown_sends_nothing_witness :
  smtp_sessions (snd (_run_price_check_once MoreExamples.slow_outside
                        MoreExamples.alerted)) = 0%nat
  /\ observed <$> price_history
                    (db (snd (_run_price_check_once MoreExamples.slow_outside
                                MoreExamples.alerted)))
     = [ (1%Z, Q2Qc 1234.00); (3%Z, Q2Qc 1234.00) ].
Proof.
  destruct (X20_run_inside_cooldown_sends_nothing MoreExamples.slow_outside
              MoreExamples.alerted "owner@example.org" eq_refl)
    as (Hsmtp & _ & _ & Hrun).
  - discriminate.
  - intros p Hp. exists 0%Z. split.
    + apply list_elem_of_In in Hp. cbn in Hp.
      destruct Hp as [<-|[<-|[<-|[]]]]; reflexivity.
    + intros n Hn.
      replace (length (Storage.get_all_products (db MoreExamples.alerted)
                         (Some true)))
        with 3%nat in Hn by (vm_compute; reflexivity).
      cbn [clock_reads MoreExamples.alerted] in Hn.
      cbn [World.clock MoreExamples.slow_outside].
      unfold timedelta_minutes. lia.
  - split; [exact Hsmtp|].
    destruct Hrun as (_ & _ & Hhist); [intros k _; reflexivity|].
    rewrite Hhist. vm_compute. reflexivity.
Defined.

(** X21: the ledger of a run.  However the run ends, the products table
    is not changed, no more than one HTTP request is made per active
    product, no SMTP session is opened without a snapshot stored, at
    most one per snapshot, and an exception leaves the run only when
    the store refused a call.  When the store refuses the call that
    lists the products, the run prints that and does nothing else.
    When the store answers its calls, the run ends without an
    exception; with no active product it stores nothing and prints
    that there is nothing to do, and otherwise it makes one request
    per active product and its summary counts the active products, the
    snapshots stored and the notifications sent, with notifications
    <= SMTP sessions opened <= snapshots stored <= active products. *)
Theorem X21_run_ledger o s :
  let run := _run_price_check_once o s in
  let s' := snd run in
  let active := Storage.get_all_products (db s) (Some true) in
  let due := snapshots_due o (http_requests s) active in
  Storage.products (db s') = Storage.products (db s)
  /\ (http_requests s <= http_requests s'
      <= http_requests s + length active)%nat
  /\ (smtp_sessions s <= smtp_sessions s')%nat
  /\ (smtp_sessions s' + length (price_history (db s))
      <= smtp_sessions s + length (price_history (db s')))%nat
  /\ (fst run <> Ok tt ->
      exists k, (store_calls s <= k < store_calls s')%nat
                /\ sqlite_answers o k = false)
  /\ (sqlite_answers o (store_calls s) = false ->
      fst run = Ok tt
      /\ db s' = db s /\ http_requests s' = http_requests s
      /\ last (journal s') = Some (Printed FailedToLoadProducts))
  /\ (store_answers o s (S (length active)) ->
      fst run = Ok tt
      /\ http_requests s' = (http_requests s + length active)%nat
      /\ (active = [] ->
          db s' = db s
          /\ smtp_sessions s' = smtp_sessions s
          /\ last (journal s') = Some (Printed NoActiveProducts))
      /\ (active <> [] ->
          exists sent,
            last (journal s')
            = Some (Printed (RunSummary (length active) (length due) sent))
            /\ (sent + smtp_sessions s <= smtp_sessions s')%nat
            /\ (smtp_sessions s' <= smtp_sessions s + length due)%nat
            /\ (length due <= length active)%nat)).
Proof.
  intros run s' active due. subst run s'.
  destruct (run_price_check_once_cases o s)
    as ((HL & Hclk & Hsmtp & Hcfg & Hhttp & Hdb & Hsc & Hj) & Hrun).
  fold active in Hrun.
  set (s1 := snd ((now <~ utcnow ;;
                   print BlankLine ;;;
                   print (RunningPriceCheck now) ;;;
                   sqlite_call) o s)) in *.
  destruct (sqlite_answers o (store_calls s)) eqn:Hfirst.
  2:{ rewrite Hrun. unfold print, emit.
      cbn [snd fst db http_requests smtp_sessions store_calls journal].
      rewrite Hdb, Hhttp, Hsmtp.
      split; [reflexivity|]. split; [lia|]. split; [lia|]. split; [lia|].
      split; [intros Habs; now destruct Habs|].
      split; [intros _; repeat split; auto; apply last_snoc|].
      intros Hstore. rewrite (Hstore (store_calls s)) in Hfirst by lia.
      discriminate Hfirst. }
  destruct active as [|p rest] eqn:Hactive.
  - rewrite Hrun. unfold print, emit.
    cbn [snd fst db http_requests smtp_sessions store_calls journal length].
    rewrite Hdb, Hhttp, Hsmtp.
    split; [reflexivity|]. split; [lia|]. split; [lia|]. split; [lia|].
    split; [intros Habs; now destruct Habs|].
    split; [discriminate|].
    intros _. split; [reflexivity|]. split; [lia|].
    split; [|congruence]. intros _. repeat split; auto. apply last_snoc.
  - destruct Hrun as (r & s2 & Hloop & Hrun).
    destruct (for_each_any _ _ _ _ _ _ _ Hloop) as (Hprods & Hreq & Hcalls & Herr).
    destruct (for_each_ledger _ _ _ _ _ _ _ Hloop) as (Hs2 & Hh2 & _ & Hled).
    rewrite Hhttp in Hreq. rewrite Hsmtp in Hs2, Hh2. rewrite Hdb in Hprods, Hh2.
    assert (Hstate : db (snd (_run_price_check_once o s)) = db s2
                     /\ http_requests (snd (_run_price_check_once o s))
                        = http_requests s2
                     /\ smtp_sessions (snd (_run_price_check_once o s))
                        = smtp_sessions s2
                     /\ store_calls (snd (_run_price_check_once o s))
                        = store_calls s2).
    { rewrite Hrun. destruct r; unfold print, emit; cbn; auto. }
    destruct Hstate as (-> & -> & -> & ->).
    split; [exact Hprods|]. split; [exact Hreq|]. split; [exact Hs2|].
    split; [exact Hh2|]. split; [|split; [discriminate|]].
    + intros Hbad. rewrite Hrun in Hbad. destruct r as [c'|[]].
      * now destruct Hbad.
      * destruct (Herr eq_refl) as (k & Hk & Hfalse).
        exists k. split; [lia | exact Hfalse].
    + intros Hstore.
      assert (Hstore1 : store_answers o s1 (length (p :: rest))).
      { intros k Hk. apply Hstore. rewrite Hsc in Hk. lia. }
      destruct (for_each_run _ _ _ _ _ _ _ Hstore1 Hloop)
        as (c' & -> & Hproc & Hreq' & _ & Hsucc & _).
      rewrite Hhttp in Hsucc, Hreq'. fold due in Hsucc.
      cbn [processed successful_scrapes notifications_sent] in *.
      pose proof (snapshots_due_length o (p :: rest) (http_requests s)) as Hdue.
      fold due in Hdue.
      destruct (Hled c' eq_refl) as (_ & Hsent & Hsess).
      rewrite Hsmtp in Hsent, Hsess.
      cbn [successful_scrapes notifications_sent] in Hsent, Hsess.
      rewrite Hrun. cbn [fst snd].
      split; [reflexivity|]. split; [exact Hreq'|]. split; [discriminate|].
      intros _. exists (notifications_sent c'). rewrite last_printed.
      split; [now rewrite Hproc, Hsucc|]. lia.
Qed.

Lemma X21_run_ledger_witness :
  http_requests (snd (_run_price_check_once Examples.outside Examples.start))
  = 3%nat
  /\ (exists sent,
        last (journal (snd (_run_price_check_once Examples.outside
                              Examples.start)))
        = Some (Printed (RunSummary 3 2 sent))
        /\ (sent <= 2)%nat)
  /\ last (journal (snd (_run_price_check_once Examples.store_down
                           Examples.start)))
     = Some (Printed FailedToLoadProducts)
  /\ exists k,
       (k < store_calls (snd (_run_price_check_once Examples.store_locked
                                 Examples.start)))%nat
       /\ sqlite_answers Examples.store_locked k = false.
Proof.
  destruct (X21_run_ledger Examples.outside Examples.start)
    as (_ & _ & _ & _ & _ & _ & Hrun).
  destruct Hrun as (_ & Hreq & _ & Hsum); [intros k _; reflexivity|].
  destruct Hsum as (sent & Hlast & H1 & H2 & H3); [discriminate|].
  split; [exact Hreq|]. split; [|split].
  - exists sent. split; [exact Hlast|].
    replace (length (snapshots_due Examples.outside
                       (http_requests Examples.start)
                       (Storage.get_all_products (db Examples.start)
                          (Some true))))
      with 2%nat in H2 by (vm_compute; reflexivity).
    cbn [smtp_sessions Examples.start] in H1, H2. lia.
  - destruct (X21_run_ledger Examples.store_down Examples.start)
      as (_ & _ & _ & _ & _ & Hdown & _).
    destruct (Hdown eq_refl) as (_ & _ & _ & Hlast'). exact Hlast'.
  - destruct (X21_run_ledger Examples.store_locked Examples.start)
      as (_ & _ & _ & _ & Hraised & _).
    destruct Hraised as (k & Hk & Hfalse); [vm_compute; discriminate|].
    exists k. split; [lia | exact Hfalse].
Defined.

End CycleMore.
